(** * Cisco-Network-Tool: topology inference and the hello simulation

    A shallow embedding of [src/analyzer/analyzer.py].

    - A Python [str] is held as the bytes of its UTF-8 encoding
      ([string]).  What Python does per code point ([strip], [split]) is
      done here on the code points of the bytes ([code_points]), with the
      white space of [str.isspace]; comparing and searching bytes agrees
      with comparing and searching code points.
    - [parse_config_file] is given the lines that iterating over the opened
      file yields: opening and decoding the dump are taken to succeed (a
      dump that cannot be opened or decoded makes the code raise [OSError]
      or [UnicodeDecodeError], which is outside this model).
    - [time.time()] is an IEEE 754 binary64 float ([PrimFloat]).
    - A Python [dict] keeps insertion order, and [build_topology] and
      [main] iterate in that order, so a dict is an association list
      whose keys are pairwise distinct ([dict_wf]).
    - An exception is a value of [exn]; code that can raise returns a
      [result].
    - [ipaddress] is the CPython 3.11 standard module; the part that
      [IPv4Interface(...).network] runs is transcribed in
      [Module ipaddress].
    - The mailboxes of [NetworkSwitch] are a [gmap] from device id to a
      list of packets, oldest first.
    - A [Router] thread is a small-step machine: one step holds at most one
      access to shared state (a mailbox operation or a read of
      [is_running]); threads are interleaved by a schedule.  A mailbox
      operation, the creation of the queue by [defaultdict] included, is
      taken as atomic. *)

From Stdlib Require Import ZArith String Ascii List Bool Lia PrimFloat.
From stdpp Require Import gmap strings list sorting.

Open Scope string_scope.
Open Scope list_scope.

(* ===================================================================== *)
(** * Part I: definitions *)
(* ===================================================================== *)

(** ** Python values and exceptions *)

(** The exceptions the modelled code can raise.  [ValueError] stands for
    [ValueError] and its subclasses [ipaddress.AddressValueError] and
    [ipaddress.NetmaskValueError]. *)
Inductive exn : Type :=
| KeyError (key : string)
| IndexError
| ValueError.

Inductive result (A : Type) : Type :=
| Ok (a : A)
| Raise (e : exn).

Arguments Ok {A} a.
Arguments Raise {A} e.

Definition bind {A B : Type} (r : result A) (k : A -> result B) : result B :=
  match r with
  | Ok a => k a
  | Raise e => Raise e
  end.

Notation "'let!' x ':=' r 'in' k" := (bind r (fun x => k))
  (at level 10, x name, r at level 100, k at level 200).

(** A value that is either [None] or a [str] (a hostname as the parser
    leaves it). *)
Inductive pystr : Type :=
| PyNone
| PyStr (s : string).

(** How an f-string renders such a value. *)
Definition py_format (v : pystr) : string :=
  match v with
  | PyNone => "None"
  | PyStr s => s
  end.

(** An insertion-ordered [dict] with [str] keys. *)
Abbreviation dict V := (list (string * V)).

Definition keys {V : Type} (d : dict V) : list string := map fst d.

Definition dict_wf {V : Type} (d : dict V) : Prop := NoDup (keys d).

(** [d.get(k)] / [k in d] / [d[k]]. *)
Fixpoint dict_get {V : Type} (d : dict V) (k : string) : option V :=
  match d with
  | [] => None
  | (k', v) :: d' => if String.eqb k' k then Some v else dict_get d' k
  end.

(** [d[k] = v]: an existing key keeps its position. *)
Fixpoint dict_set {V : Type} (d : dict V) (k : string) (v : V) : dict V :=
  match d with
  | [] => [(k, v)]
  | (k', v') :: d' =>
      if String.eqb k' k then (k', v) :: d' else (k', v') :: dict_set d' k v
  end.

(** [for x in xs: body], where the body may raise; the loop state is
    threaded through. *)
Fixpoint for_each {A S : Type} (xs : list A) (body : A -> S -> result S)
  (s : S) : result S :=
  match xs with
  | [] => Ok s
  | x :: xs' =>
      match body x s with
      | Ok s' => for_each xs' body s'
      | Raise e => Raise e
      end
  end.

(** [range(a, b)]. *)
Definition range (a b : nat) : list nat := seq a (b - a).

(** [l[i]] for a list. *)
Definition list_index {A : Type} (l : list A) (i : nat) : result A :=
  match nth_error l i with
  | Some x => Ok x
  | None => Raise IndexError
  end.

(** ** String primitives *)

(** [s.split(sep)] for a one-character separator. *)
Fixpoint split_on (sep : ascii) (s : string) : list string :=
  match s with
  | EmptyString => [EmptyString]
  | String c s' =>
      if Ascii.eqb c sep then EmptyString :: split_on sep s'
      else match split_on sep s' with
           | [] => [String c EmptyString]
           | w :: ws => String c w :: ws
           end
  end.

Definition is_ascii_digit (c : ascii) : bool :=
  let n := nat_of_ascii c in (48 <=? n)%nat && (n <=? 57)%nat.

(** [s.isascii() and s.isdigit()]: non-empty, ASCII decimal digits only. *)
Fixpoint all_digits (s : string) : bool :=
  match s with
  | EmptyString => true
  | String c s' => is_ascii_digit c && all_digits s'
  end.

Definition isascii_isdigit (s : string) : bool :=
  match s with
  | EmptyString => false
  | _ => all_digits s
  end.

Definition digit_value (c : ascii) : Z := Z.of_nat (nat_of_ascii c) - 48.

Fixpoint int_of_digits_acc (acc : Z) (s : string) : Z :=
  match s with
  | EmptyString => acc
  | String c s' => int_of_digits_acc (10 * acc + digit_value c)%Z s'
  end.

(** [int(s, 10)] on a string of ASCII digits. *)
Definition int_of_digits (s : string) : Z := int_of_digits_acc 0 s.

(** ** The [ipaddress] module (CPython 3.11), IPv4 part *)

Module ipaddress.

Open Scope Z_scope.

Definition IPV4LENGTH : Z := 32.
Definition _ALL_ONES : Z := 2 ^ IPV4LENGTH - 1.
Definition _max_prefixlen : Z := IPV4LENGTH.

(** [sys.int_max_str_digits]: [int(s)] raises [ValueError] on more digits. *)
Definition int_max_str_digits : nat := 4300.

(** [_BaseV4._parse_octet]; [None] is [ValueError]. *)
Definition _parse_octet (octet_str : string) : option Z :=
  if String.eqb octet_str "" then None
  else if negb (isascii_isdigit octet_str) then None
  else if (3 <? String.length octet_str)%nat then None
  else if negb (String.eqb octet_str "0")
          && match octet_str with
             | String c _ => Ascii.eqb c "0"
             | EmptyString => false
             end
       then None
  else
    let octet_int := int_of_digits octet_str in
    if 255 <? octet_int then None else Some octet_int.

(** [int.from_bytes(octets, 'big')]. *)
Definition from_bytes_big (octets : list Z) : Z :=
  fold_left (fun acc o => Z.lor (Z.shiftl acc 8) o) octets 0.

Fixpoint parse_octets (octets : list string) : option (list Z) :=
  match octets with
  | [] => Some []
  | o :: os =>
      match _parse_octet o with
      | None => None
      | Some v =>
          match parse_octets os with
          | None => None
          | Some vs => Some (v :: vs)
          end
      end
  end.

(** [_BaseV4._ip_int_from_string]; [None] is [AddressValueError]. *)
Definition _ip_int_from_string (ip_str : string) : option Z :=
  if String.eqb ip_str "" then None
  else
    let octets := split_on "." ip_str in
    if negb (Nat.eqb (List.length octets) 4) then None
    else
      match parse_octets octets with
      | None => None
      | Some vs => Some (from_bytes_big vs)
      end.

(** [number.bit_length()] for [number >= 0]. *)
Definition bit_length (number : Z) : Z :=
  if number =? 0 then 0 else Z.log2 number + 1.

Definition _count_righthand_zero_bits (number bits : Z) : Z :=
  if number =? 0 then bits
  else Z.min bits (bit_length (Z.land (Z.lnot number) (number - 1))).

(** [_ip_int_from_prefix]. *)
Definition _ip_int_from_prefix (prefixlen : Z) : Z :=
  Z.lxor _ALL_ONES (Z.shiftr _ALL_ONES prefixlen).

(** [_prefix_from_ip_int]; [None] is [ValueError]. *)
Definition _prefix_from_ip_int (ip_int : Z) : option Z :=
  let trailing_zeroes := _count_righthand_zero_bits ip_int _max_prefixlen in
  let prefixlen := _max_prefixlen - trailing_zeroes in
  let leading_ones := Z.shiftr ip_int trailing_zeroes in
  let all_ones := Z.shiftl 1 prefixlen - 1 in
  if negb (leading_ones =? all_ones) then None else Some prefixlen.

(** [_prefix_from_prefix_string]; [None] is [NetmaskValueError]. *)
Definition _prefix_from_prefix_string (prefixlen_str : string) : option Z :=
  if negb (isascii_isdigit prefixlen_str) then None
  else if (int_max_str_digits <? String.length prefixlen_str)%nat then None
  else
    let prefixlen := int_of_digits prefixlen_str in
    if negb ((0 <=? prefixlen) && (prefixlen <=? _max_prefixlen)) then None
    else Some prefixlen.

(** [_prefix_from_ip_string]: a dotted netmask, or else a dotted hostmask;
    [None] is [NetmaskValueError]. *)
Definition _prefix_from_ip_string (ip_str : string) : option Z :=
  match _ip_int_from_string ip_str with
  | None => None
  | Some ip_int =>
      match _prefix_from_ip_int ip_int with
      | Some p => Some p
      | None => _prefix_from_ip_int (Z.lxor ip_int _ALL_ONES)
      end
  end.

(** [IPv4Network._make_netmask] on a string: (netmask, prefix length). *)
Definition _make_netmask (arg : string) : option (Z * Z) :=
  let prefixlen :=
    match _prefix_from_prefix_string arg with
    | Some p => Some p
    | None => _prefix_from_ip_string arg
    end in
  match prefixlen with
  | None => None
  | Some p => Some (_ip_int_from_prefix p, p)
  end.

(** An [IPv4Network] object: the fields [__eq__] reads, and the prefix. *)
Record IPv4Network : Type := {
  network_address : Z;
  netmask : Z;
  _prefixlen : Z
}.

(** [IPv4Network.__eq__]: same network address and same netmask. *)
Definition network_eqb (a b : IPv4Network) : bool :=
  (network_address a =? network_address b) && (netmask a =? netmask b).

(** [_split_optional_netmask]; [None] is [AddressValueError]. *)
Definition _split_optional_netmask (address : string) : option (list string) :=
  let addr := split_on "/" address in
  if (2 <? List.length addr)%nat then None else Some addr.

(** [IPv4Network((addr, mask), strict=False)]. *)
Definition IPv4Network_of (addr mask : string) : option IPv4Network :=
  match _ip_int_from_string addr with
  | None => None
  | Some packed =>
      match _make_netmask mask with
      | None => None
      | Some (nm, p) =>
          Some {| network_address :=
                    if negb (Z.land packed nm =? packed)
                    then Z.land packed nm else packed;
                  netmask := nm;
                  _prefixlen := p |}
      end
  end.

(** [IPv4Interface(address).network] for a string [address]. *)
Definition IPv4Interface_network (address : string) : option IPv4Network :=
  match _split_optional_netmask address with
  | None => None
  | Some [addr; mask] =>
      match _ip_int_from_string addr with
      | None => None
      | Some _ => IPv4Network_of addr mask
      end
  | Some [addr] =>
      match _ip_int_from_string addr with
      | None => None
      | Some ip =>
          Some {| network_address := ip;
                  netmask := _ALL_ONES;
                  _prefixlen := _max_prefixlen |}
      end
  | Some _ => None
  end.

End ipaddress.


(** ** The device model ([parse_config_file]'s output) *)

(** One interface's details: a dict with the optional keys
    ['description'], ['ip_address'] and ['subnet_mask']; [None] is an
    absent key. *)
Record InterfaceDetails : Type := {
  description : option string;
  ip_address : option string;
  subnet_mask : option string
}.

(** One device's details: a dict with the keys ['hostname'],
    ['interfaces'], ['default_route'] and ['ospf_enabled']; [None] is an
    absent key, [Some PyNone] a key that holds Python's [None]. *)
Record Device : Type := {
  dev_hostname : option pystr;
  dev_interfaces : option (dict InterfaceDetails);
  dev_default_route : option pystr;
  dev_ospf_enabled : option bool
}.

(** A link, the dict built on line 39. *)
Record Link : Type := {
  from_device : string;
  from_interface : string;
  to_device : string;
  to_interface : string
}.

#[global] Instance Link_eq_dec : EqDecision Link.
Proof. solve_decision. Defined.

(** ** [build_topology] (lines 24-41) *)

(** [d[k]]: [KeyError] on an absent key. *)
Definition dict_item {V : Type} (d : dict V) (k : string) : result V :=
  match dict_get d k with
  | Some v => Ok v
  | None => Raise (KeyError k)
  end.

(** [k in d], for a key [k] of a record-like dict. *)
Definition has_key {V : Type} (v : option V) : bool :=
  match v with
  | Some _ => true
  | None => false
  end.

Definition key_item {V : Type} (k : string) (v : option V) : result V :=
  match v with
  | Some x => Ok x
  | None => Raise (KeyError k)
  end.

(** [ipaddress.IPv4Interface(f"{d['ip_address']}/{d['subnet_mask']}").network]
    (lines 36 and 37). *)
Definition interface_network (details : InterfaceDetails)
  : result ipaddress.IPv4Network :=
  let! a := key_item "ip_address" (ip_address details) in
  let! m := key_item "subnet_mask" (subnet_mask details) in
  match ipaddress.IPv4Interface_network (a ++ "/" ++ m) with
  | Some net => Ok net
  | None => Raise ValueError
  end.

(** The body of the [try] (lines 36-39). *)
Definition try_link (link : Link) (int1_details int2_details : InterfaceDetails)
  (links : list Link) : result (list Link) :=
  let! net1 := interface_network int1_details in
  let! net2 := interface_network int2_details in
  Ok (if ipaddress.network_eqb net1 net2 then links ++ [link] else links).

(** Lines 34-40: the membership guard, the [try] and its [except]. *)
Definition compare_interfaces (dev1_id int1_name : string)
  (int1_details : InterfaceDetails) (dev2_id int2_name : string)
  (int2_details : InterfaceDetails) (links : list Link) : result (list Link) :=
  if has_key (ip_address int1_details) && has_key (ip_address int2_details) then
    match try_link {| from_device := dev1_id; from_interface := int1_name;
                      to_device := dev2_id; to_interface := int2_name |}
                   int1_details int2_details links with
    | Ok links' => Ok links'
    | Raise ValueError => Ok links
    | Raise e => Raise e
    end
  else Ok links.

(** Lines 29-40: the body of the loops over [i] and [j]. *)
Definition compare_devices (devices_data : dict Device)
  (device_ids : list string) (i j : nat) (links : list Link)
  : result (list Link) :=
  let! dev1_id := list_index device_ids i in
  let! dev2_id := list_index device_ids j in
  let! dev1 := dict_item devices_data dev1_id in
  let dev1_interfaces := default [] (dev_interfaces dev1) in
  let! dev2 := dict_item devices_data dev2_id in
  let dev2_interfaces := default [] (dev_interfaces dev2) in
  for_each dev1_interfaces (fun int1 =>
    for_each dev2_interfaces (fun int2 =>
      compare_interfaces dev1_id (fst int1) (snd int1)
                         dev2_id (fst int2) (snd int2)))
    links.

Definition build_topology (devices_data : dict Device) : result (list Link) :=
  let device_ids := keys devices_data in
  for_each (range 0 (length device_ids)) (fun i =>
    for_each (range (i + 1) (length device_ids)) (fun j =>
      compare_devices devices_data device_ids i j))
    [].

(** ** [parse_config_file] (lines 10-23) *)

(** [str.strip] and [str.split] work on code points, and a str is held
    here as its UTF-8 bytes: [code_points] cuts the bytes before every byte
    that is not a continuation byte (10xxxxxx), which in the encoding of a
    str is before every code point. *)
Definition is_continuation (c : ascii) : bool :=
  let n := N_of_ascii c in ((128 <=? n) && (n <=? 191))%N.

Fixpoint code_points (s : string) : list string :=
  match s with
  | EmptyString => []
  | String c s' =>
      match s' with
      | EmptyString => [String c EmptyString]
      | String c' _ =>
          if is_continuation c' then
            match code_points s' with
            | p :: ps => String c p :: ps
            | [] => [String c EmptyString]
            end
          else String c EmptyString :: code_points s'
      end
  end.

(** The number of a code point, from its UTF-8 bytes. *)
Definition ord (p : string) : option N :=
  match map N_of_ascii (list_ascii_of_string p) with
  | [a] => if (a <? 128)%N then Some a else None
  | [a; b] =>
      if ((194 <=? a) && (a <=? 223))%N
      then Some ((a - 192) * 64 + (b - 128))%N else None
  | [a; b; c] =>
      if ((224 <=? a) && (a <=? 239))%N
      then Some ((a - 224) * 4096 + (b - 128) * 64 + (c - 128))%N else None
  | [a; b; c; d] =>
      if ((240 <=? a) && (a <=? 244))%N
      then Some ((a - 240) * 262144 + (b - 128) * 4096 + (c - 128) * 64
                 + (d - 128))%N
      else None
  | _ => None
  end.

(** [_PyUnicode_IsWhitespace], which [strip()] and [split()] use. *)
Definition is_whitespace (ch : N) : bool :=
  ((9 <=? ch) && (ch <=? 13) || (28 <=? ch) && (ch <=? 32)
   || (ch =? 0x85) || (ch =? 0xA0) || (ch =? 0x1680)
   || (0x2000 <=? ch) && (ch <=? 0x200A)
   || (ch =? 0x2028) || (ch =? 0x2029) || (ch =? 0x202F)
   || (ch =? 0x205F) || (ch =? 0x3000))%N.

Definition is_space (p : string) : bool :=
  match ord p with
  | Some ch => is_whitespace ch
  | None => false
  end.

Fixpoint lstrip_points (ps : list string) : list string :=
  match ps with
  | [] => []
  | p :: ps' => if is_space p then lstrip_points ps' else ps
  end.

Fixpoint rstrip_points (ps : list string) : list string :=
  match ps with
  | [] => []
  | p :: ps' =>
      match rstrip_points ps' with
      | [] => if is_space p then [] else [p]
      | r => p :: r
      end
  end.

Definition lstrip (s : string) : string :=
  String.concat "" (lstrip_points (code_points s)).

Definition rstrip (s : string) : string :=
  String.concat "" (rstrip_points (code_points s)).

Definition strip (s : string) : string :=
  String.concat "" (rstrip_points (lstrip_points (code_points s))).

(** The maximal runs of code points that are not white space. *)
Fixpoint split_points (ps : list string) : list string :=
  match ps with
  | [] => []
  | p :: ps' =>
      if is_space p then split_points ps'
      else
        match ps' with
        | [] => [p]
        | p' :: _ =>
            if is_space p' then p :: split_points ps'
            else match split_points ps' with
                 | w :: ws => (p ++ w)%string :: ws
                 | [] => [p]
                 end
        end
  end.

(** [s.split()]. *)
Definition split (s : string) : list string := split_points (code_points s).

Definition startswith (s p : string) : bool := String.prefix p s.

(** [sep.join(l)]. *)
Fixpoint join (sep : string) (l : list string) : string :=
  match l with
  | [] => ""
  | [w] => w
  | w :: ws => w ++ sep ++ join sep ws
  end.

(** [p[:i], p[i:]] for [i = p.rfind('/') + 1]. *)
Fixpoint rsplit_sep (p : string) : string * string :=
  match p with
  | EmptyString => ("", "")
  | String c p' =>
      let (h, t) := rsplit_sep p' in
      if String.eqb h "" then
        if Ascii.eqb c "/" then ("/", t) else ("", String c t)
      else (String c h, t)
  end.

(** [s.rstrip('/')]. *)
Fixpoint rstrip_sep (s : string) : string :=
  match s with
  | EmptyString => EmptyString
  | String c s' =>
      let r := rstrip_sep s' in
      if Ascii.eqb c "/" && String.eqb r "" then EmptyString else String c r
  end.

(** [os.path.basename] and [os.path.dirname] ([posixpath]). *)
Definition basename (p : string) : string := snd (rsplit_sep p).

Definition dirname (p : string) : string :=
  let head := fst (rsplit_sep p) in
  if negb (String.eqb head "") && negb (String.eqb (rstrip_sep head) "")
  then rstrip_sep head else head.

(** The truth value of [current_interface]. *)
Definition truthy (v : option string) : bool :=
  match v with
  | Some s => negb (String.eqb s "")
  | None => false
  end.

(** [device_details['interfaces'][name][...] = ...]. *)
Definition update_interface (details : Device) (name : option string)
  (f : InterfaceDetails -> InterfaceDetails) : result Device :=
  let! interfaces := key_item "interfaces" (dev_interfaces details) in
  let name := default "" name in
  let! entry := dict_item interfaces name in
  Ok {| dev_hostname := dev_hostname details;
        dev_interfaces := Some (dict_set interfaces name (f entry));
        dev_default_route := dev_default_route details;
        dev_ospf_enabled := dev_ospf_enabled details |}.

(** The loop body (lines 16-22); the state is [device_details] and
    [current_interface]. *)
Definition parse_line (line : string) (st : Device * option string)
  : result (Device * option string) :=
  let (device_details, current_interface) := st in
  let line := strip line in
  if startswith line "hostname" then
    let! name := list_index (split line) 1 in
    Ok ({| dev_hostname := Some (PyStr name);
           dev_interfaces := dev_interfaces device_details;
           dev_default_route := dev_default_route device_details;
           dev_ospf_enabled := dev_ospf_enabled device_details |},
        current_interface)
  else if startswith line "interface" then
    let! name := list_index (split line) 1 in
    let! interfaces := key_item "interfaces" (dev_interfaces device_details) in
    Ok ({| dev_hostname := dev_hostname device_details;
           dev_interfaces :=
             Some (dict_set interfaces name
                     {| description := None; ip_address := None;
                        subnet_mask := None |});
           dev_default_route := dev_default_route device_details;
           dev_ospf_enabled := dev_ospf_enabled device_details |},
        Some name)
  else if startswith line "router ospf" then
    Ok ({| dev_hostname := dev_hostname device_details;
           dev_interfaces := dev_interfaces device_details;
           dev_default_route := dev_default_route device_details;
           dev_ospf_enabled := Some true |},
        current_interface)
  else if startswith line "description" && truthy current_interface then
    let! d := update_interface device_details current_interface (fun e =>
      {| description := Some (join " " (tail (split line)));
         ip_address := ip_address e; subnet_mask := subnet_mask e |}) in
    Ok (d, current_interface)
  else if startswith line "ip address" && truthy current_interface then
    let parts := split line in
    let! a := list_index parts 2 in
    let! d1 := update_interface device_details current_interface (fun e =>
      {| description := description e;
         ip_address := Some a; subnet_mask := subnet_mask e |}) in
    let! m := list_index parts 3 in
    let! d2 := update_interface d1 current_interface (fun e =>
      {| description := description e;
         ip_address := ip_address e; subnet_mask := Some m |}) in
    Ok (d2, current_interface)
  else Ok st.

(** [parse_config_file(filepath)], the file given as the lines that
    iterating over it yields (opening and decoding taken to succeed). *)
Definition parse_config_file (filepath : string) (lines : list string)
  : result (string * Device) :=
  let device_id := basename (dirname filepath) in
  let device_details :=
    {| dev_hostname := Some PyNone; dev_interfaces := Some [];
       dev_default_route := Some PyNone; dev_ospf_enabled := Some false |} in
  let! st := for_each lines parse_line (device_details, None) in
  Ok (device_id, fst st).

(** ** [NetworkSwitch] (lines 60-72) *)

(** A packet, the dict built on line 108. *)
Record Packet : Type := {
  source : pystr;
  type : string
}.

#[global] Instance pystr_eq_dec : EqDecision pystr.
Proof. solve_decision. Defined.

#[global] Instance Packet_eq_dec : EqDecision Packet.
Proof. solve_decision. Defined.

(** [self.queues]: a [defaultdict(Queue)]; a queue is the list of its
    packets, oldest first.  [Queue()] is unbounded, so [put] never waits. *)
Record NetworkSwitch : Type := {
  queues : gmap string (list Packet)
}.

(** [NetworkSwitch()]. *)
Definition new_switch : NetworkSwitch := {| queues := ∅ |}.

(** The packets waiting for [device_id] (none when there is no queue). *)
Definition mailbox (sw : NetworkSwitch) (device_id : string) : list Packet :=
  default [] (queues sw !! device_id).

(** [self.queues[destination_id].put(packet)]: indexing the defaultdict
    creates the queue when the key is new. *)
Definition send_packet (sw : NetworkSwitch) (destination_id : string)
  (packet : Packet) : NetworkSwitch :=
  match queues sw !! destination_id with
  | Some q => {| queues := <[destination_id := q ++ [packet]]> (queues sw) |}
  | None => {| queues := <[destination_id := [packet]]> (queues sw) |}
  end.

(** [self.queues[device_id].get(block=False)], [Empty] turned into [None];
    indexing creates an empty queue when the key is new. *)
Definition receive_packet (sw : NetworkSwitch) (device_id : string)
  : option Packet * NetworkSwitch :=
  match queues sw !! device_id with
  | Some (packet :: q) =>
      (Some packet, {| queues := <[device_id := q]> (queues sw) |})
  | Some [] => (None, sw)
  | None => (None, {| queues := <[device_id := []]> (queues sw) |})
  end.

(** ** [Router] (lines 77-120) *)

(** The attributes [__init__] sets ([network_switch] is the one switch of
    the simulation, kept in [Sim]). *)
Record Router : Type := {
  device_id : string;
  hostname : pystr;
  log : list string;
  is_running : bool;
  neighbors : list string
}.

(** Lines 87-92. *)
Fixpoint find_neighbors (self_id : string) (links : list Link) : list string :=
  match links with
  | [] => []
  | link :: links' =>
      if String.eqb (from_device link) self_id then
        to_device link :: find_neighbors self_id links'
      else if String.eqb (to_device link) self_id then
        from_device link :: find_neighbors self_id links'
      else find_neighbors self_id links'
  end.

(** [Router(device_id, config_data, network_switch, links)]. *)
Definition Router_init (device_id : string) (config_data : Device)
  (links : list Link) : Router :=
  {| device_id := device_id;
     hostname := default (PyStr device_id) (dev_hostname config_data);
     log := [];
     is_running := true;
     neighbors := find_neighbors device_id links |}.

(** What a thread does that others can see. *)
Inductive event : Type :=
| Print (line : string)
| Send (destination_id : string) (packet : Packet).

(** What a step reads from the clock: [time.time()], a float (IEEE 754
    binary64, as in CPython), and [time.strftime('%H:%M:%S')]. *)
Record Clock : Type := {
  now : float;
  stamp : string
}.

(** The line [log_message] builds. *)
Definition log_entry (stamp : string) (hostname : pystr) (message : string)
  : string :=
  "[" ++ stamp ++ "] [" ++ py_format hostname ++ "] " ++ message.

(** [log_message] (lines 117-120). *)
Definition log_message (self : Router) (stamp : string) (message : string)
  : Router * list event :=
  let entry := log_entry stamp (hostname self) message in
  ({| device_id := device_id self; hostname := hostname self;
      log := log self ++ [entry]; is_running := is_running self;
      neighbors := neighbors self |},
   [Print entry]).

(** Where a thread stands in [run]. *)
Inductive point : Type :=
| AtNew                        (* constructed, not started *)
| AtRun                        (* started, before line 95 *)
| AtWhile                      (* line 98 *)
| AtReceive                    (* line 100 *)
| AtHello                      (* line 106 *)
| AtSend (rest : list string)  (* lines 107-110, neighbors still to visit;
                                  line 111 when none is left *)
| AtSleep                      (* line 113 *)
| AtFinish                     (* line 115 *)
| AtDone.                      (* [run] has returned *)

(** A thread: the [Router] object, its place in [run] and the local
    [last_hello_time]. *)
Record Thread : Type := {
  self : Router;
  at_point : point;
  last_hello_time : float
}.

Definition goto (t : Thread) (p : point) : Thread :=
  {| self := self t; at_point := p; last_hello_time := last_hello_time t |}.

Definition with_self (t : Thread) (r : Router) (p : point) : Thread :=
  {| self := r; at_point := p; last_hello_time := last_hello_time t |}.

(** [Thread.is_alive()]. *)
Definition is_alive (t : Thread) : bool :=
  match at_point t with
  | AtNew | AtDone => false
  | _ => true
  end.

(** Line 108. *)
Definition hello_packet (self : Router) : Packet :=
  {| source := hostname self; type := "OSPF_HELLO" |}.

Definition started_message (repr : list string -> string) (self : Router)
  : string :=
  "Thread started. Neighbors: " ++ repr (neighbors self).

Definition received_message (packet : Packet) : string :=
  "Received '" ++ type packet ++ "' from " ++ py_format (source packet).

Definition sent_message (neighbor : string) : string :=
  "Sent 'OSPF_HELLO' to " ++ neighbor.

Definition finished_message : string := "Thread finished.".

(** Line 106: [time.time() - last_hello_time > 2], the difference of two
    floats compared with the integer 2. *)
Definition hello_due (c : Clock) (t : Thread) : bool :=
  (2 <? now c - last_hello_time t)%float.

Section Run.

(** [repr] of a list of strings, as [f"{self.neighbors}"] renders it. *)
Variable repr : list string -> string.

(** One step of [run] (lines 94-115). *)
Definition thread_step (c : Clock) (t : Thread) (sw : NetworkSwitch)
  : Thread * NetworkSwitch * list event :=
  match at_point t with
  | AtNew => (t, sw, [])
  | AtRun =>
      let (r, out) :=
        log_message (self t) (stamp c) (started_message repr (self t)) in
      ({| self := r; at_point := AtWhile; last_hello_time := 0%float |}, sw, out)
  | AtWhile =>
      if is_running (self t) then (goto t AtReceive, sw, [])
      else (goto t AtFinish, sw, [])
  | AtReceive =>
      match receive_packet sw (device_id (self t)) with
      | (Some packet, sw') =>
          let (r, out) :=
            log_message (self t) (stamp c) (received_message packet) in
          (with_self t r AtHello, sw', out)
      | (None, sw') => (goto t AtHello, sw', [])
      end
  | AtHello =>
      if hello_due c t then (goto t (AtSend (neighbors (self t))), sw, [])
      else (goto t AtSleep, sw, [])
  | AtSend (neighbor :: rest) =>
      let packet := hello_packet (self t) in
      let sw' := send_packet sw neighbor packet in
      let (r, out) :=
        log_message (self t) (stamp c) (sent_message neighbor) in
      (with_self t r (AtSend rest), sw', Send neighbor packet :: out)
  | AtSend [] =>
      ({| self := self t; at_point := AtSleep; last_hello_time := now c |},
       sw, [])
  | AtSleep => (goto t AtWhile, sw, [])
  | AtFinish =>
      let (r, out) := log_message (self t) (stamp c) finished_message in
      (with_self t r AtDone, sw, out)
  | AtDone => (t, sw, [])
  end.

End Run.

(** ** A thread among other threads *)

(** [router.is_running = False] (line 166). *)
Definition clear_running (t : Thread) : Thread :=
  {| self := {| device_id := device_id (self t); hostname := hostname (self t);
                log := log (self t); is_running := false;
                neighbors := neighbors (self t) |};
     at_point := at_point t; last_hello_time := last_hello_time t |}.

(** [router.start()] (line 160); [main] calls it once per router. *)
Definition start (t : Thread) : Thread :=
  match at_point t with
  | AtNew => goto t AtRun
  | _ => t
  end.

(** What happens to one thread while the others run: it takes a step, on
    the clock and the shared switch as they are then; or [main] starts it;
    or [main] clears its [is_running]. *)
Inductive happening : Type :=
| Step (c : Clock) (sw : NetworkSwitch)
| Started
| Stopped.

(** The clocks of the thread's own steps. *)
Fixpoint clocks_of (hs : list happening) : list Clock :=
  match hs with
  | [] => []
  | Step c _ :: hs' => c :: clocks_of hs'
  | _ :: hs' => clocks_of hs'
  end.

(** A thread as [main] makes it (lines 158-159), before [start()]. *)
Definition new_thread (r : Router) : Thread :=
  {| self := r; at_point := AtNew; last_hello_time := 0%float |}.

Section Simulation.

Variable repr : list string -> string.

(** The life of one thread; the events tell what it printed and what it put
    on the switch. *)
Fixpoint thread_observe (hs : list happening) (t : Thread)
  : Thread * list event :=
  match hs with
  | [] => (t, [])
  | Step c sw :: hs' =>
      let '(t1, _, out1) := thread_step repr c t sw in
      let '(t2, out2) := thread_observe hs' t1 in
      (t2, out1 ++ out2)
  | Started :: hs' => thread_observe hs' (start t)
  | Stopped :: hs' => thread_observe hs' (clear_running t)
  end.

(** ** The simulation that [main] runs (lines 155-170) *)

(** The threads, the switch they share, and how far [main] is: how many
    routers it has started (line 160) and how many it has told to stop
    (line 166). *)
Record Sim : Type := {
  threads : list Thread;
  switch : NetworkSwitch;
  started : nat;
  stopped : nat
}.

(** Who moves next: a router thread takes one step, or [main] does its next
    thing.  [time.sleep] only lets the others move. *)
Inductive action : Type :=
| RunThread (i : nat) (c : Clock)
| MainStep.

(** [main]'s next thing: start the next router; when all are started, clear
    the next [is_running]; when all are cleared, wait in [join]. *)
Definition main_step (s : Sim) : Sim :=
  let n := length (threads s) in
  if (started s <? n)%nat then
    {| threads := alter start (started s) (threads s); switch := switch s;
       started := S (started s); stopped := stopped s |}
  else if (stopped s <? n)%nat then
    {| threads := alter clear_running (stopped s) (threads s);
       switch := switch s;
       started := started s; stopped := S (stopped s) |}
  else s.

Definition sim_step (a : action) (s : Sim) : Sim * list (nat * event) :=
  match a with
  | MainStep => (main_step s, [])
  | RunThread i c =>
      match threads s !! i with
      | None => (s, [])
      | Some t =>
          let '(t', sw', out) := thread_step repr c t (switch s) in
          ({| threads := <[i := t']> (threads s); switch := sw';
              started := started s; stopped := stopped s |},
           map (pair i) out)
      end
  end.

Fixpoint sim_run (sched : list action) (s : Sim) : Sim * list (nat * event) :=
  match sched with
  | [] => (s, [])
  | a :: sched' =>
      let (s1, out1) := sim_step a s in
      let (s2, out2) := sim_run sched' s1 in
      (s2, out1 ++ out2)
  end.

(** Every [join] has returned (lines 168-169). *)
Definition joined (s : Sim) : bool :=
  (started s =? length (threads s))%nat
  && (stopped s =? length (threads s))%nat
  && forallb (fun t => negb (is_alive t)) (threads s).

(** ** [main], menu choice 2 (lines 149-170) *)

Record MainState : Type := {
  network_devices_data : dict Device;
  topology : list Link;
  router_threads : list Thread;
  network_switch : NetworkSwitch
}.

(** ["R" in device_id]. *)
Fixpoint contains_R (device_id : string) : bool :=
  match device_id with
  | EmptyString => false
  | String c s' => Ascii.eqb c "R" || contains_R s'
  end.

(** Lines 155-159: the routers constructed, in the order of the dict. *)
Definition new_routers (devices : dict Device) (links : list Link)
  : list Thread :=
  map (fun d => new_thread (Router_init (fst d) (snd d) links))
      (filter (fun d => contains_R (fst d) = true) devices).

Definition newline : string := String (ascii_of_nat 10) EmptyString.

Definition busy_message : string := "Simulation is already running.".

Definition printed (trace : list (nat * event)) : list string :=
  flat_map (fun e => match snd e with
                     | Print line => [line]
                     | Send _ _ => []
                     end) trace.

(** Choice 2 under a schedule: the state it leaves and what was printed;
    [None] when the schedule ends before every [join] has returned. *)
Definition choice_2 (sched : list action) (st : MainState)
  : option (MainState * list string) :=
  if existsb is_alive (router_threads st) then Some (st, [busy_message])
  else
    let s0 := {| threads := new_routers (network_devices_data st) (topology st);
                 switch := network_switch st; started := 0; stopped := 0 |} in
    let (s, trace) := sim_run sched s0 in
    if joined s then
      Some ({| network_devices_data := network_devices_data st;
               topology := topology st;
               router_threads := threads s;
               network_switch := switch s |},
            [(newline ++ "--- Starting IPC Simulation (runs for 10 seconds) ---")%string]
            ++ printed trace ++ ["--- Simulation Complete ---"])
    else None.

End Simulation.

(** [main] before the menu loop (lines 127-134), given what
    [load_configurations] returned; [None] when [main] returns on line 129. *)
Definition main_init (devices : dict Device) : result (option MainState) :=
  match devices with
  | [] => Ok None
  | _ =>
      let! links := build_topology devices in
      Ok (Some {| network_devices_data := devices; topology := links;
                  router_threads := []; network_switch := new_switch |})
  end.

(** ** Vocabulary of the statements *)

(** [c in s]. *)
Fixpoint has_char (c : ascii) (s : string) : bool :=
  match s with
  | EmptyString => false
  | String c' s' => Ascii.eqb c' c || has_char c s'
  end.

(** The interfaces of a device ([devices_data[id].get('interfaces', {})]). *)
Definition interfaces_of (dev : Device) : dict InterfaceDetails :=
  default [] (dev_interfaces dev).

(** Device ids are pairwise distinct, and so are the interface names of
    each device: what being a dict of dicts means. *)
Definition devices_wf (devices_data : dict Device) : Prop :=
  dict_wf devices_data
  /\ forall id dev, (id, dev) ∈ devices_data -> dict_wf (interfaces_of dev).

(** A checker for [devices_wf]. *)
Definition devices_wfb (devices_data : dict Device) : bool :=
  bool_decide (NoDup (keys devices_data))
  && forallb (fun d => bool_decide (NoDup (keys (interfaces_of (snd d)))))
             devices_data.

(** Every interface that has an address has a mask. *)
Definition masks_present (devices_data : dict Device) : Prop :=
  forall id dev name details,
    (id, dev) ∈ devices_data -> (name, details) ∈ interfaces_of dev ->
    ip_address details <> None -> subnet_mask details <> None.

(** The network of an interface as [build_topology] computes it: the address
    string parsed as a dotted quad, the mask string parsed by
    [_make_netmask] (a prefix length, a dotted netmask or a dotted hostmask),
    giving the address masked by the netmask, together with the netmask. *)
Definition network_of (details : InterfaceDetails) : option (Z * Z) :=
  match ip_address details, subnet_mask details with
  | Some a, Some m =>
      match ipaddress._ip_int_from_string a, ipaddress._make_netmask m with
      | Some ip, Some (nm, _) => Some (Z.land ip nm, nm)
      | _, _ => None
      end
  | _, _ => None
  end.

Definition same_network (int1 int2 : InterfaceDetails) : Prop :=
  exists net, network_of int1 = Some net /\ network_of int2 = Some net.

(** The network in the specification's words: the address masked by the
    subnet mask, both dotted-decimal strings. *)
Definition masked_address (details : InterfaceDetails) : option Z :=
  match ip_address details, subnet_mask details with
  | Some a, Some m =>
      match ipaddress._ip_int_from_string a, ipaddress._ip_int_from_string m with
      | Some ip, Some mask => Some (Z.land ip mask)
      | _, _ => None
      end
  | _, _ => None
  end.

(** A link joins interface [n1] of device [d1] and interface [n2] of device
    [d2], whichever end it calls "from". *)
Definition connects (d1 n1 d2 n2 : string) (link : Link) : Prop :=
  link = {| from_device := d1; from_interface := n1;
            to_device := d2; to_interface := n2 |}
  \/ link = {| from_device := d2; from_interface := n2;
               to_device := d1; to_interface := n1 |}.

#[global] Instance connects_dec d1 n1 d2 n2 link :
  Decision (connects d1 n1 d2 n2 link).
Proof. unfold connects. apply _. Defined.

(** Whether lines 34-39 append a link for two interfaces. *)
Definition linkable (int1 int2 : InterfaceDetails) : bool :=
  match interface_network int1, interface_network int2 with
  | Ok net1, Ok net2 => ipaddress.network_eqb net1 net2
  | _, _ => false
  end.

(** The links of two devices' interfaces, in loop order. *)
Definition interface_links (d1 : string) (ifs1 : dict InterfaceDetails)
  (d2 : string) (ifs2 : dict InterfaceDetails) : list Link :=
  ifs1 ≫= fun int1 =>
  ifs2 ≫= fun int2 =>
  if linkable (snd int1) (snd int2)
  then [{| from_device := d1; from_interface := fst int1;
           to_device := d2; to_interface := fst int2 |}]
  else [].

(** The links of the devices at positions [i] and [j]. *)
Definition pair_links (devices_data : dict Device) (i j : nat) : list Link :=
  match devices_data !! i, devices_data !! j with
  | Some (d1, dev1), Some (d2, dev2) =>
      interface_links d1 (interfaces_of dev1) d2 (interfaces_of dev2)
  | _, _ => []
  end.

(** All the links, in loop order. *)
Definition all_links (devices_data : dict Device) : list Link :=
  range 0 (length devices_data) ≫= fun i =>
  range (i + 1) (length devices_data) ≫= fun j =>
  pair_links devices_data i j.

(** A sequence of [send_packet] calls, in order, whoever makes them. *)
Fixpoint send_all (msgs : list (string * Packet)) (sw : NetworkSwitch)
  : NetworkSwitch :=
  match msgs with
  | [] => sw
  | (d, p) :: msgs' => send_all msgs' (send_packet sw d p)
  end.

(** [n] successive [receive_packet(device_id)] calls and what they return. *)
Fixpoint receive_n (n : nat) (sw : NetworkSwitch) (device_id : string)
  : list (option Packet) * NetworkSwitch :=
  match n with
  | O => ([], sw)
  | S n' =>
      let (r, sw1) := receive_packet sw device_id in
      let (rs, sw2) := receive_n n' sw1 device_id in
      (r :: rs, sw2)
  end.

(** The packets of [msgs] addressed to [device_id], in order. *)
Definition addressed_to (device_id : string) (msgs : list (string * Packet))
  : list Packet :=
  map snd (filter (fun m => fst m = device_id) msgs).

(** A link between the devices [a] and [b], in either direction. *)
Definition joins (a b : string) (link : Link) : Prop :=
  (from_device link = a /\ to_device link = b)
  \/ (from_device link = b /\ to_device link = a).

#[global] Instance joins_dec a b link : Decision (joins a b link).
Proof. unfold joins. apply _. Defined.

(** A link one of whose ends is the device [a]. *)
Definition touches (a : string) (link : Link) : Prop :=
  from_device link = a \/ to_device link = a.

#[global] Instance touches_dec a link : Decision (touches a link).
Proof. unfold touches. apply _. Defined.

(** The packets a thread put on the switch, with their destinations. *)
Definition sends (out : list event) : list (string * Packet) :=
  flat_map (fun e => match e with
                     | Send d p => [(d, p)]
                     | Print _ => []
                     end) out.

(** The log lines of a broadcast: one per (clock, neighbor) pair. *)
Definition sent_log (hostname : pystr) (cns : list (Clock * string))
  : list string :=
  map (fun cn => log_entry (stamp (fst cn)) hostname (sent_message (snd cn)))
      cns.

(** The events of thread [i] in a trace of the simulation. *)
Definition events_of (i : nat) (trace : list (nat * event)) : list event :=
  map snd (filter (fun e : nat * event => e.1 = i) trace).

(** The shape of the log of a thread that runs the router [r0]: empty
    before line 95, then headed by the started line, and closed by the
    finished line once [run] has returned. *)
Definition log_shape (repr : list string -> string) (r0 : Router)
  (t : Thread) : Prop :=
  hostname (self t) = hostname r0
  /\ neighbors (self t) = neighbors r0
  /\ match at_point t with
     | AtNew | AtRun => log (self t) = []
     | AtDone =>
         exists s mid s',
           log (self t) =
           log_entry s (hostname r0) (started_message repr r0)
           :: mid ++ [log_entry s' (hostname r0) finished_message]
     | _ =>
         exists s mid,
           log (self t) =
           log_entry s (hostname r0) (started_message repr r0) :: mid
     end.

(** A thread with no neighbor, inside a broadcast or not. *)
Definition quiet (t : Thread) : Prop :=
  neighbors (self t) = []
  /\ forall rest, at_point t = AtSend rest -> rest = [].

(** How many of its own steps a thread still needs, at most, to reach the
    end of [run] once [is_running] is cleared. *)
Definition distance (t : Thread) : nat :=
  match at_point t with
  | AtNew => 0
  | AtRun => 3
  | AtWhile => 2
  | AtReceive => 6 + length (neighbors (self t))
  | AtHello => 5 + length (neighbors (self t))
  | AtSend rest => 4 + length rest
  | AtSleep => 3
  | AtFinish => 1
  | AtDone => 0
  end.

(** ** Test data *)

(** A toy [repr] for test runs. *)
Definition repr_plain (l : list string) : string := "[" ++ join ", " l ++ "]".

Definition R1_conf : list string :=
  ["hostname Router1"; "interface Gi0/1";
   " ip address 10.0.0.1 255.255.255.252"].

Definition R2_conf : list string :=
  ["hostname Router2"; "interface Gi0/1";
   " ip address 10.0.0.2 255.255.255.252"].

Definition interface (a m : string) : InterfaceDetails :=
  {| description := None; ip_address := Some a; subnet_mask := Some m |}.

Definition device (name : string) (ifs : dict InterfaceDetails) : Device :=
  {| dev_hostname := Some (PyStr name); dev_interfaces := Some ifs;
     dev_default_route := Some PyNone; dev_ospf_enabled := Some false |}.

(** The end-to-end scenario: R1 Gi0/1 = 10.0.0.1/30, R2 Gi0/1 = 10.0.0.2/30. *)
Definition R1_Gi01 : InterfaceDetails := interface "10.0.0.1" "255.255.255.252".
Definition R2_Gi01 : InterfaceDetails := interface "10.0.0.2" "255.255.255.252".
Definition R1_device : Device := device "Router1" [("Gi0/1", R1_Gi01)].
Definition R2_device : Device := device "Router2" [("Gi0/1", R2_Gi01)].
Definition scenario : dict Device := [("R1", R1_device); ("R2", R2_device)].

Definition scenario_link : Link :=
  {| from_device := "R1"; from_interface := "Gi0/1";
     to_device := "R2"; to_interface := "Gi0/1" |}.

(** Same masked address, different masks: 10.0.0.1/24 and 10.0.0.2/16. *)
Definition wide_Gi01 : InterfaceDetails := interface "10.0.0.1" "255.255.255.0".
Definition wider_Gi01 : InterfaceDetails := interface "10.0.0.2" "255.255.0.0".
Definition mixed_masks : dict Device :=
  [("R1", device "Router1" [("Gi0/1", wide_Gi01)]);
   ("R2", device "Router2" [("Gi0/1", wider_Gi01)])].

(** Host masks: 10.0.0.1 and 10.0.0.2, each with the mask 0.0.0.255. *)
Definition host_Gi01 : InterfaceDetails := interface "10.0.0.1" "0.0.0.255".
Definition host_Gi02 : InterfaceDetails := interface "10.0.0.2" "0.0.0.255".
Definition host_masks : dict Device :=
  [("R1", device "Router1" [("Gi0/1", host_Gi01)]);
   ("R2", device "Router2" [("Gi0/1", host_Gi02)])].

(** An interface with an address and no mask. *)
Definition maskless_Gi01 : InterfaceDetails :=
  {| description := None; ip_address := Some "10.0.0.1"; subnet_mask := None |}.
Definition missing_mask : dict Device :=
  [("R1", device "Router1" [("Gi0/1", maskless_Gi01)]);
   ("R2", R2_device)].

(** Two links between R1 and R2, and a router for R1. *)
Definition double_links : list Link :=
  [{| from_device := "R1"; from_interface := "Gi0/1";
      to_device := "R2"; to_interface := "Gi0/1" |};
   {| from_device := "R1"; from_interface := "Gi0/2";
      to_device := "R2"; to_interface := "Gi0/2" |}].

Definition noon : Clock := {| now := 100%float; stamp := "12:00:00" |}.

(** R1 and R2 joined twice. *)
Definition R1_double_device : Device :=
  device "Router1"
    [("Gi0/1", interface "10.0.0.1" "255.255.255.252");
     ("Gi0/2", interface "10.0.1.1" "255.255.255.252")].

Definition R2_double_device : Device :=
  device "Router2"
    [("Gi0/1", interface "10.0.0.2" "255.255.255.252");
     ("Gi0/2", interface "10.0.1.2" "255.255.255.252")].

Definition double_homed : dict Device :=
  [("R1", R1_double_device); ("R2", R2_double_device)].

(** A started thread about to test the hello timer for the first time. *)
Definition hello_ready (r : Router) : Thread :=
  {| self := r; at_point := AtHello; last_hello_time := 0%float |}.

Definition R1_router : Router := Router_init "R1" R1_device [scenario_link].

Definition R1_double_router : Router :=
  Router_init "R1" R1_double_device double_links.

Definition lone_router : Router :=
  Router_init "R9" (device "Router9" []) [scenario_link].

(** A life for the lone router: started, six steps, stopped, six steps. *)
Definition lone_life : list happening :=
  [Started] ++ replicate 6 (Step noon new_switch)
  ++ [Stopped] ++ replicate 6 (Step noon new_switch).

(** [main] with the routers of a previous run still running. *)
Definition busy_main : MainState :=
  {| network_devices_data := scenario;
     topology := [scenario_link];
     router_threads :=
       [{| self := R1_router; at_point := AtSleep; last_hello_time := 100%float |}];
     network_switch := new_switch |}.

(** Hello packets of two senders. *)
Definition hello1 : Packet := {| source := PyStr "Router1"; type := "OSPF_HELLO" |}.
Definition hello2 : Packet := {| source := PyStr "Router2"; type := "OSPF_HELLO" |}.

(** Sends of R1 and R2 to R3, with one to R1 in between. *)
Definition two_senders : list (string * Packet) :=
  [("R3", hello1); ("R3", hello2); ("R1", hello2); ("R3", hello1)].

(** A schedule for two routers: both started, ten steps each in turn, both
    told to stop, ten more steps each. *)
Definition demo_schedule : list action :=
  [MainStep; MainStep]
  ++ map (fun k => RunThread (k mod 2) noon) (seq 0 20)
  ++ [MainStep; MainStep]
  ++ map (fun k => RunThread (k mod 2) noon) (seq 0 20).

(** ** More vocabulary *)

(** The lines a thread printed. *)
Definition prints (out : list event) : list string :=
  flat_map (fun e => match e with
                     | Print line => [line]
                     | Send _ _ => []
                     end) out.

(** Inside a broadcast, the neighbors still to visit are the end of the
    neighbor list. *)
Definition visiting (t : Thread) : Prop :=
  forall rest, at_point t = AtSend rest -> rest `suffix_of` neighbors (self t).

(** ** [load_configurations] (lines 42-55) *)

Fixpoint ends_with_sep (s : string) : bool :=
  match s with
  | EmptyString => false
  | String c EmptyString => Ascii.eqb c "/"
  | String _ s' => ends_with_sep s'
  end.

(** [os.path.join(a, *p)] ([posixpath]). *)
Fixpoint path_join (a : string) (p : list string) : string :=
  match p with
  | [] => a
  | b :: p' =>
      path_join
        (if startswith b "/" then b
         else if String.eqb a "" || ends_with_sep a then a ++ b
         else a ++ "/" ++ b)
        p'
  end.

(** What the code asks of the file system: [os.path.isdir], [os.listdir],
    [os.path.isfile], and the lines that iterating over an opened file
    gives. *)
Record FileSystem : Type := {
  isdir : string -> bool;
  listdir : string -> list string;
  isfile : string -> bool;
  read_lines : string -> list string
}.

(** Line 45, from [script_path], the value of [os.path.abspath(__file__)]. *)
Definition conf_dir_of (script_path : string) : string :=
  let script_dir := dirname script_path in
  let project_root := dirname script_dir in
  path_join project_root ["Conf"].

(** Lines 51-54, the body of the loop. *)
Definition load_folder (fs : FileSystem) (conf_dir device_folder : string)
  (loaded_devices : dict Device) : result (dict Device) :=
  let config_file_path := path_join conf_dir [device_folder; "config.dump"] in
  if isfile fs config_file_path then
    let! parsed := parse_config_file config_file_path
                     (read_lines fs config_file_path) in
    (* [details] is a dict with four keys, hence true *)
    if negb (String.eqb (fst parsed) "")
    then Ok (dict_set loaded_devices (fst parsed) (snd parsed))
    else Ok loaded_devices
  else Ok loaded_devices.

(** [load_configurations()]: what it returns and what it prints. *)
Definition load_configurations (fs : FileSystem) (script_path : string)
  : result (dict Device) * list string :=
  let conf_dir := conf_dir_of script_path in
  if negb (isdir fs conf_dir) then
    (Ok [], [("Error: Directory not found: " ++ conf_dir)%string])
  else
    (for_each (listdir fs conf_dir) (load_folder fs conf_dir) [], []).

(** ** [main], the menu (lines 125-187) *)

(** Line 147. *)
Definition link_line (link : Link) : string :=
  from_device link ++ "(" ++ from_interface link ++ ") <--> "
  ++ to_device link ++ "(" ++ to_interface link ++ ")".

(** Choice 1 (lines 144-147). *)
Definition choice_1 (st : MainState) : list string :=
  (newline ++ "--- Discovered Network Links ---")%string
  :: map link_line (topology st).

(** The key of line 178, [r.hostname], when it is a [str]. *)
Definition hostname_key (t : Thread) : string :=
  match hostname (self t) with
  | PyStr s => s
  | PyNone => ""
  end.

Definition hostname_is_none (t : Thread) : bool :=
  match hostname (self t) with
  | PyNone => true
  | PyStr _ => false
  end.

(** A stable sort by [<] on the keys, which is what [sorted] computes. *)
Fixpoint insert_by_hostname (t : Thread) (l : list Thread) : list Thread :=
  match l with
  | [] => [t]
  | u :: l' =>
      if String.ltb (hostname_key u) (hostname_key t)
      then u :: insert_by_hostname t l'
      else t :: u :: l'
  end.

Fixpoint sort_by_hostname (l : list Thread) : list Thread :=
  match l with
  | [] => []
  | t :: l' => insert_by_hostname t (sort_by_hostname l')
  end.

(** [sorted(router_threads, key=lambda r: r.hostname)]; [None] is the
    [TypeError] of comparing a [None] key: with two or more routers every
    key is compared at least once, and [<] is not defined on [None]. *)
Definition sorted_by_hostname (l : list Thread) : option (list Thread) :=
  match l with
  | [] | [_] => Some l
  | _ => if existsb hostname_is_none l then None
         else Some (sort_by_hostname l)
  end.

(** Lines 179-181, for one router. *)
Definition log_report (t : Thread) : list string :=
  (newline ++ "--- Log for Device: " ++ py_format (hostname (self t))
   ++ " ---")%string
  :: log (self t).

(** How [main] can fail. *)
Inductive failure : Type :=
| Exn (e : exn)
| TypeError
| EOFError.

(** Choice 3 (lines 172-181): what it prints, and whether it fails. *)
Definition choice_3 (st : MainState) : list string * option failure :=
  match router_threads st with
  | [] =>
      ([(newline ++ "No simulation has been run yet. "
         ++ "Please run option 2 first.")%string], None)
  | _ =>
      match sorted_by_hostname (router_threads st) with
      | None => ([(newline ++ "--- Last Simulation Logs ---")%string],
                 Some TypeError)
      | Some sorted =>
          ((newline ++ "--- Last Simulation Logs ---")%string
           :: flat_map log_report sorted, None)
      end
  end.

(** How a run of [main] ends: choice 4, the [return] on line 129, a failure,
    or a schedule that stops inside a simulation. *)
Inductive ending : Type :=
| Exited
| NoDevices
| Failed (f : failure)
| Blocked.

(** Lines 137-142. *)
Definition menu : list string :=
  [(newline ++ "==================== Main Menu ====================")%string;
   "1. Display Network Topology";
   "2. Start IPC Simulation";
   "3. View Last Simulation Logs";
   "4. Exit";
   "Enter your choice: "].

Section Main.

Variable repr : list string -> string.

(** What choice 2 printed when the schedule stops inside the simulation. *)
Definition choice_2_partial (sched : list action) (st : MainState)
  : list string :=
  let s0 := {| threads := new_routers (network_devices_data st) (topology st);
               switch := network_switch st; started := 0; stopped := 0 |} in
  (newline ++ "--- Starting IPC Simulation (runs for 10 seconds) ---")%string
  :: printed (sim_run repr sched s0).2.

(** The menu loop (lines 136-187).  An input is the line typed at the
    prompt and, for a simulation, the schedule it runs under; at the end of
    the inputs [input()] raises [EOFError]. *)
Fixpoint main_loop (inputs : list (string * list action)) (st : MainState)
  : list string * ending * MainState :=
  match inputs with
  | [] => (menu, Failed EOFError, st)
  | (choice, sched) :: inputs' =>
      if String.eqb choice "1" then
        let '(out, e, st') := main_loop inputs' st in
        (menu ++ choice_1 st ++ out, e, st')
      else if String.eqb choice "2" then
        match choice_2 repr sched st with
        | Some (st1, out2) =>
            let '(out, e, st') := main_loop inputs' st1 in
            (menu ++ out2 ++ out, e, st')
        | None => (menu ++ choice_2_partial sched st, Blocked, st)
        end
      else if String.eqb choice "3" then
        match choice_3 st with
        | (out3, Some f) => (menu ++ out3, Failed f, st)
        | (out3, None) =>
            let '(out, e, st') := main_loop inputs' st in
            (menu ++ out3 ++ out, e, st')
        end
      else if String.eqb choice "4" then
        (menu ++ ["Exiting tool."], Exited, st)
      else
        let '(out, e, st') := main_loop inputs' st in
        (menu ++ ["Invalid choice. Please try again."] ++ out, e, st')
  end.

(** [main()]: what it prints and how it ends. *)
Definition main (fs : FileSystem) (script_path : string)
  (inputs : list (string * list action)) : list string * ending :=
  match load_configurations fs script_path with
  | (Raise e, out0) => (out0, Failed (Exn e))
  | (Ok [], out0) => (out0, NoDevices)
  | (Ok network_devices_data, out0) =>
      match build_topology network_devices_data with
      | Raise e => (out0, Failed (Exn e))
      | Ok topology =>
          let '(out, e, _) :=
            main_loop inputs
              {| network_devices_data := network_devices_data;
                 topology := topology;
                 router_threads := [];
                 network_switch := new_switch |} in
          (out0 ++ out, e)
      end
  end.

End Main.

(** The routers [main] started are no longer new, and those it told to stop
    have [is_running] cleared. *)
Definition sim_ok (s : Sim) : Prop :=
  forall i t, threads s !! i = Some t ->
    (i < started s -> at_point t <> AtNew)
    /\ (i < stopped s -> is_running (self t) = false).

(** [t'] is the thread [t0] at the end of [run]: the same router, told to
    stop, with a log that begins with the started line and ends with the
    finished line. *)
Definition finished_as (repr : list string -> string) (t0 t' : Thread)
  : Prop :=
  device_id (self t') = device_id (self t0)
  /\ hostname (self t') = hostname (self t0)
  /\ neighbors (self t') = neighbors (self t0)
  /\ at_point t' = AtDone
  /\ is_running (self t') = false
  /\ exists s mid s',
       log (self t') =
       log_entry s (hostname (self t0)) (started_message repr (self t0))
       :: mid ++ [log_entry s' (hostname (self t0)) finished_message].

(** The state of [main] in the end-to-end scenario, before and after a
    simulation under [demo_schedule]. *)
Definition demo_main : MainState :=
  {| network_devices_data := scenario; topology := [scenario_link];
     router_threads := []; network_switch := new_switch |}.

Definition demo_after : MainState :=
  match choice_2 repr_plain demo_schedule demo_main with
  | Some (st, _) => st
  | None => demo_main
  end.


(** What holds of a device while [parse_config_file] reads its dump: the
    key ['interfaces'] is there, interface names are distinct, an interface
    has an address exactly when it has a mask, and a [current_interface]
    that is set names an interface of the device. *)
Definition parsing_ok (st : Device * option string) : Prop :=
  exists ifs,
    dev_interfaces st.1 = Some ifs
    /\ dict_wf ifs
    /\ (forall n e, (n, e) ∈ ifs ->
          (ip_address e = None <-> subnet_mask e = None))
    /\ (forall name, st.2 = Some name -> is_Some (dict_get ifs name)).

(** The initial [device_details] (line 12). *)
Definition empty_device : Device :=
  {| dev_hostname := Some PyNone; dev_interfaces := Some [];
     dev_default_route := Some PyNone; dev_ospf_enabled := Some false |}.

(** The path of a folder's dump (line 51). *)
Definition config_path (conf_dir device_folder : string) : string :=
  path_join conf_dir [device_folder; "config.dump"].

(** What [os.listdir] returns: distinct names, none empty, none with a
    separator. *)
Definition folder_names (l : list string) : Prop :=
  NoDup l /\ forall f, f ∈ l -> f <> "" /\ has_char "/" f = false.

(** What holds of the devices while [load_configurations] loads them. *)
Definition loaded_ok (devices : dict Device) : Prop :=
  dict_wf devices
  /\ forall id dev, (id, dev) ∈ devices ->
       dict_wf (interfaces_of dev)
       /\ forall n e, (n, e) ∈ interfaces_of dev ->
            (ip_address e = None <-> subnet_mask e = None).

(** A file system with the end-to-end scenario under /p/Conf, and the
    script at /p/analyzer/analyzer.py. *)
Definition demo_fs : FileSystem :=
  {| isdir := fun p => String.eqb p "/p/Conf";
     listdir := fun p => if String.eqb p "/p/Conf" then ["R1"; "notes"; "R2"]
                         else [];
     isfile := fun p => String.eqb p "/p/Conf/R1/config.dump"
                        || String.eqb p "/p/Conf/R2/config.dump";
     read_lines := fun p => if String.eqb p "/p/Conf/R1/config.dump"
                            then R1_conf else R2_conf |}.

Definition demo_script : string := "/p/analyzer/analyzer.py".

(** A log line begins with the time stamp in brackets. *)
Definition bracketed (line : string) : bool := startswith line "[".

Definition log_lines (t : Thread) : Prop :=
  Forall (fun l => bracketed l = true) (log (self t)).

(** [main] between two menu choices: no router thread is alive, and the logs
    hold log lines only. *)
Definition at_rest (st : MainState) : Prop :=
  existsb is_alive (router_threads st) = false
  /\ Forall log_lines (router_threads st).

(** The order [sorted] puts the routers in (line 178). *)
Definition hostname_le (a b : Thread) : Prop :=
  String.le (hostname_key a) (hostname_key b).

(** R2 parsed from a dump without a hostname line, beside R1. *)
Definition nameless_device : Device :=
  {| dev_hostname := Some PyNone; dev_interfaces := Some [("Gi0/1", R2_Gi01)];
     dev_default_route := Some PyNone; dev_ospf_enabled := Some false |}.

Definition nameless_main : MainState :=
  {| network_devices_data := [("R1", R1_device); ("R2", nameless_device)];
     topology := [scenario_link];
     router_threads := []; network_switch := new_switch |}.

Definition nameless_after : MainState :=
  match choice_2 repr_plain demo_schedule nameless_main with
  | Some (st, _) => st
  | None => nameless_main
  end.

Definition nameless_output : list string :=
  match choice_2 repr_plain demo_schedule nameless_main with
  | Some (_, out) => out
  | None => []
  end.
(** A packet that a router of [main] sends to device [d]: the hello of the
    router made for a device that has [d] in its neighbor list. *)
Definition hello_for (devices : dict Device) (links : list Link) (d : string)
  (p : Packet) : Prop :=
  exists id dev,
    (id, dev) ∈ devices /\ contains_R id = true
    /\ d ∈ find_neighbors id links
    /\ p = hello_packet (Router_init id dev links).

(** The thread runs a router that [main] made for one of the devices. *)
Definition router_of (devices : dict Device) (links : list Link) (t : Thread)
  : Prop :=
  exists id dev,
    (id, dev) ∈ devices /\ contains_R id = true
    /\ hostname (self t) = hostname (Router_init id dev links)
    /\ neighbors (self t) = find_neighbors id links.

(** What holds of a simulation of [main] at every moment. *)
Definition sim_mail (devices : dict Device) (links : list Link) (s : Sim)
  : Prop :=
  Forall (fun t => router_of devices links t /\ visiting t) (threads s)
  /\ forall d, Forall (hello_for devices links d) (mailbox (switch s) d).

(** [main] when it enters the menu loop (lines 131-134). *)
Definition main_start (devices : dict Device) (links : list Link) : MainState :=
  {| network_devices_data := devices; topology := links;
     router_threads := []; network_switch := new_switch |}.

(** The name an [interface] line declares: its second word. *)
Definition declares (line name : string) : Prop :=
  startswith (strip line) "interface" = true
  /\ list_index (split (strip line)) 1 = Ok name.

(** A string that is no address, beside R2. *)
Definition garbled : dict Device :=
  [("R1", device "Router1" [("Gi0/1", interface "ten.0.0.1" "255.255.255.252")]);
   ("R2", R2_device)].

(** The switch that each of the thread's own steps finds, in order. *)
Fixpoint switches_of (hs : list happening) : list NetworkSwitch :=
  match hs with
  | [] => []
  | Step _ sw :: hs' => sw :: switches_of hs'
  | _ :: hs' => switches_of hs'
  end.

(** The switch that each of the thread's own steps leaves, in order. *)
Fixpoint switches_left (repr : list string -> string) (hs : list happening)
  (t : Thread) : list NetworkSwitch :=
  match hs with
  | [] => []
  | Step c sw :: hs' =>
      let '(t1, sw1, _) := thread_step repr c t sw in
      sw1 :: switches_left repr hs' t1
  | Started :: hs' => switches_left repr hs' (start t)
  | Stopped :: hs' => switches_left repr hs' (clear_running t)
  end.

(** A step, as the switch it found and the switch it left, puts the packet
    [p] in the mailbox of [b]. *)
Definition puts (b : string) (p : Packet) (step : NetworkSwitch * NetworkSwitch)
  : Prop :=
  mailbox step.2 b = mailbox step.1 b ++ [p].

#[global] Instance puts_dec b p step : Decision (puts b p step).
Proof. unfold puts. apply _. Defined.

(** What a step of the thread of router [r] may do to the switch: nothing,
    take from its own mailbox, or put its hello packet in the mailbox of a
    neighbor. *)
Definition own_step (r : Router) (found left : NetworkSwitch) : Prop :=
  left = found
  \/ left = (receive_packet found (device_id r)).2
  \/ exists n, n ∈ neighbors r /\ left = send_packet found n (hello_packet r).

(** A simulation of one thread that stands at the timer test, the others
    not moving: the switch goes from step to step. *)
Definition broadcast_alone (r : Router) (steps : nat) : Sim :=
  (sim_run repr_plain (replicate steps (RunThread 0 noon))
     {| threads := [hello_ready r]; switch := new_switch;
        started := 1; stopped := 0 |}).1.

(* ===================================================================== *)
(** * Part II: theorems *)
(* ===================================================================== *)

(** ** The switch *)

Lemma mailbox_send_packet sw d p d' :
  mailbox (send_packet sw d p) d' =
  if decide (d = d') then mailbox sw d ++ [p] else mailbox sw d'.
Proof.
  unfold mailbox, send_packet.
  destruct (queues sw !! d) as [q|] eqn:E; simpl;
    rewrite lookup_insert; case_decide; subst; simpl; try rewrite E; done.
Qed.

Lemma mailbox_receive_packet sw d d' :
  mailbox (snd (receive_packet sw d)) d' =
  if decide (d = d') then tail (mailbox sw d) else mailbox sw d'.
Proof.
  unfold mailbox, receive_packet.
  destruct (queues sw !! d) as [[|p q]|] eqn:E; simpl;
    try rewrite lookup_insert; case_decide; subst; simpl;
    try rewrite E; done.
Qed.

Lemma fst_receive_packet sw d :
  fst (receive_packet sw d) = head (mailbox sw d).
Proof.
  unfold mailbox, receive_packet.
  destruct (queues sw !! d) as [[|p q]|]; done.
Qed.

Lemma mailbox_send_all msgs sw d :
  mailbox (send_all msgs sw) d = mailbox sw d ++ addressed_to d msgs.
Proof.
  revert sw. induction msgs as [|[d' p] msgs IH]; intros sw; simpl.
  - unfold addressed_to. simpl. by rewrite app_nil_r.
  - rewrite IH, mailbox_send_packet. unfold addressed_to.
    rewrite filter_cons. simpl.
    case_decide; subst; simpl; [by rewrite <- app_assoc | done].
Qed.

Lemma receive_n_results n sw d :
  fst (receive_n n sw d) =
  map Some (take n (mailbox sw d))
  ++ replicate (n - length (mailbox sw d)) None.
Proof.
  revert sw. induction n as [|n IH]; intros sw; [done|].
  simpl. destruct (receive_packet sw d) as [r sw1] eqn:E.
  specialize (IH sw1). destruct (receive_n n sw1 d) as [rs sw2].
  simpl in *. rewrite IH.
  pose proof (fst_receive_packet sw d) as Hr.
  pose proof (mailbox_receive_packet sw d d) as Hm.
  rewrite E in Hr, Hm. simpl in Hr, Hm.
  rewrite decide_True in Hm by done. rewrite Hm, Hr.
  destruct (mailbox sw d) as [|p q]; simpl; [|done].
  by rewrite take_nil, Nat.sub_0_r.
Qed.

(** C7.  [send_packet] is a total function of the switch, the destination
    and the packet (it cannot wait or raise); it puts the packet at the end
    of the destination's mailbox, it creates the mailbox, holding just that
    packet, when the destination had none, and it leaves the other
    mailboxes alone. *)
Theorem send_packet_enqueues (sw : NetworkSwitch) (d : string) (p : Packet) :
  queues (send_packet sw d p) !! d = Some (mailbox sw d ++ [p])
  /\ (queues sw !! d = None -> queues (send_packet sw d p) !! d = Some [p])
  /\ (forall d', d' <> d -> queues (send_packet sw d p) !! d' = queues sw !! d').
Proof.
  unfold mailbox, send_packet.
  destruct (queues sw !! d) as [q|] eqn:E; simpl;
    (split; [by rewrite lookup_insert_eq|]);
    (split; [intros; by rewrite ?lookup_insert_eq|]);
    intros d' Hd'; by rewrite lookup_insert_ne.
Qed.

(** C7 on a switch without mailboxes: the mailbox of R2 is created, and
    R1 still has none. *)
Lemma send_packet_enqueues_witness :
  queues (send_packet new_switch "R2" hello1) !! "R2" = Some [hello1]
  /\ queues (send_packet new_switch "R2" hello1) !! "R1"
     = queues new_switch !! "R1".
Proof.
  split.
  - apply (send_packet_enqueues new_switch "R2" hello1). reflexivity.
  - apply (send_packet_enqueues new_switch "R2" hello1). discriminate.
Defined.

(** C4.  [receive_packet] returns the oldest packet of the mailbox and
    removes it, or returns [None] when the mailbox is empty or absent (it
    is a total function: it cannot wait); it leaves the other mailboxes'
    packets alone.  After any sequence of sends, from whatever senders,
    [n] successive receives for a destination return, oldest first, what was
    in its mailbox followed by what was sent to it, and [None] from then
    on. *)
Theorem receive_packet_fifo (sw : NetworkSwitch) (d : string) :
  fst (receive_packet sw d) = head (mailbox sw d)
  /\ mailbox (snd (receive_packet sw d)) d = tail (mailbox sw d)
  /\ (forall d', d' <> d ->
        mailbox (snd (receive_packet sw d)) d' = mailbox sw d')
  /\ (forall msgs n,
        let arrived := mailbox sw d ++ addressed_to d msgs in
        fst (receive_n n (send_all msgs sw) d) =
        map Some (take n arrived) ++ replicate (n - length arrived) None).
Proof.
  split; [apply fst_receive_packet|].
  split; [rewrite mailbox_receive_packet; by rewrite decide_True|].
  split.
  - intros d' Hd'. rewrite mailbox_receive_packet. by rewrite decide_False.
  - intros msgs n. simpl. by rewrite receive_n_results, mailbox_send_all.
Qed.

(** C4 with two senders: a receive for R3 leaves R1's mailbox alone, and R3
    receives the packets in arrival order, then [None]. *)
Lemma receive_packet_fifo_witness :
  mailbox (snd (receive_packet (send_all two_senders new_switch) "R3")) "R1"
  = mailbox (send_all two_senders new_switch) "R1"
  /\ fst (receive_n 4 (send_all two_senders new_switch) "R3") =
     [Some hello1; Some hello2; Some hello1; None].
Proof.
  split.
  - apply (receive_packet_fifo (send_all two_senders new_switch) "R3").
    discriminate.
  - exact (proj2 (proj2 (proj2 (receive_packet_fifo new_switch "R3")))
             two_senders 4).
Defined.

(** ** Loops that append *)

Lemma for_each_appends {A B : Type} (f : A -> list B)
    (body : A -> list B -> result (list B)) (xs : list A) :
  (forall x s s', x ∈ xs -> body x s = Ok s' -> s' = s ++ f x) ->
  forall s s', for_each xs body s = Ok s' -> s' = s ++ (xs ≫= f).
Proof.
  induction xs as [|x xs IH]; intros Hbody s s' Hrun; simpl in *.
  - injection Hrun as <-. by rewrite app_nil_r.
  - destruct (body x s) as [s1|e] eqn:E; [|done].
    apply Hbody in E; [|left]. subst s1.
    apply IH in Hrun; [|intros; eapply Hbody; [by right|done]].
    rewrite Hrun. by rewrite <- app_assoc.
Qed.

Lemma for_each_returns {A S : Type} (body : A -> S -> result S)
    (xs : list A) :
  (forall x s, x ∈ xs -> exists s', body x s = Ok s') ->
  forall s, exists s', for_each xs body s = Ok s'.
Proof.
  induction xs as [|x xs IH]; intros Hbody s; simpl; [by eexists|].
  destruct (Hbody x s) as [s1 ->]; [left|].
  apply IH. intros; apply Hbody. by right.
Qed.

(** ** Dicts *)

Lemma dict_get_lookup {V : Type} (d : dict V) i k v :
  dict_wf d -> d !! i = Some (k, v) -> dict_get d k = Some v.
Proof.
  unfold dict_wf, keys. revert i.
  induction d as [|[k' v'] d IH]; intros i Hwf Hi; [done|].
  simpl in *. apply NoDup_cons in Hwf as [Hk' Hwf].
  destruct i as [|i]; simpl in Hi.
  - injection Hi as -> ->. by rewrite String.eqb_refl.
  - destruct (String.eqb_spec k' k) as [->|Hne]; [|by eapply IH].
    exfalso. apply Hk'. apply list_elem_of_fmap. exists (k, v).
    split; [done|]. by eapply list_elem_of_lookup_2.
Qed.

Lemma nth_error_lookup {A : Type} (l : list A) i : nth_error l i = l !! i.
Proof. revert i. induction l; intros [|i]; simpl; auto. Qed.

Lemma list_index_keys {V : Type} (d : dict V) i k :
  list_index (keys d) i = Ok k <-> exists v, d !! i = Some (k, v).
Proof.
  unfold list_index, keys. rewrite nth_error_lookup.
  change (map fst d) with (fst <$> d). rewrite list_lookup_fmap.
  destruct (d !! i) as [[k' v]|]; simpl.
  - split.
    + intros [= ->]. by exists v.
    + by intros [v' [= -> ->]].
  - split; [done|]. by intros [v' ?].
Qed.

(** ** [build_topology] *)

Lemma compare_interfaces_ok d1 n1 int1 d2 n2 int2 links links' :
  compare_interfaces d1 n1 int1 d2 n2 int2 links = Ok links' ->
  links' = links ++
    if linkable int1 int2
    then [{| from_device := d1; from_interface := n1;
             to_device := d2; to_interface := n2 |}]
    else [].
Proof.
  unfold compare_interfaces, try_link, linkable.
  destruct (has_key (ip_address int1) && has_key (ip_address int2)) eqn:G.
  - destruct (interface_network int1) as [net1|e1]; simpl.
    + destruct (interface_network int2) as [net2|e2]; simpl.
      * destruct (ipaddress.network_eqb net1 net2); intros [= <-];
          [done | by rewrite app_nil_r].
      * destruct e2; intros [= <-]; by rewrite app_nil_r.
    + destruct e1; intros [= <-]; by rewrite app_nil_r.
  - intros [= <-].
    destruct (interface_network int1) as [net1|e1] eqn:E1;
      [|by rewrite app_nil_r].
    destruct (interface_network int2) as [net2|e2] eqn:E2;
      [|by rewrite app_nil_r].
    unfold interface_network, key_item in E1, E2.
    destruct (ip_address int1); [|done].
    destruct (ip_address int2); done.
Qed.

Lemma compare_devices_ok devices_data i j links links' :
  dict_wf devices_data ->
  compare_devices devices_data (keys devices_data) i j links = Ok links' ->
  links' = links ++ pair_links devices_data i j.
Proof.
  intros Hwf. unfold compare_devices, pair_links.
  destruct (list_index (keys devices_data) i) as [d1|] eqn:E1; [|done].
  destruct (list_index (keys devices_data) j) as [d2|] eqn:E2; [|done].
  apply list_index_keys in E1 as [dev1 E1].
  apply list_index_keys in E2 as [dev2 E2].
  rewrite E1, E2. simpl. unfold dict_item.
  rewrite (dict_get_lookup _ _ _ _ Hwf E1), (dict_get_lookup _ _ _ _ Hwf E2).
  simpl. intros Hrun.
  eapply (for_each_appends (fun int1 => interfaces_of dev2 ≫= fun int2 =>
            if linkable (snd int1) (snd int2)
            then [{| from_device := d1; from_interface := fst int1;
                     to_device := d2; to_interface := fst int2 |}]
            else [])) in Hrun; [exact Hrun|].
  intros int1 s s' _ Hin.
  eapply (for_each_appends (fun int2 =>
            if linkable (snd int1) (snd int2)
            then [{| from_device := d1; from_interface := fst int1;
                     to_device := d2; to_interface := fst int2 |}]
            else [])) in Hin; [exact Hin|].
  intros int2 s0 s0' _. apply compare_interfaces_ok.
Qed.

Lemma build_topology_ok devices_data links :
  dict_wf devices_data ->
  build_topology devices_data = Ok links ->
  links = all_links devices_data.
Proof.
  intros Hwf Hrun. unfold build_topology in Hrun.
  assert (Hlen : length (keys devices_data) = length devices_data)
    by apply length_map.
  rewrite Hlen in Hrun.
  eapply (for_each_appends (fun i =>
            range (i + 1) (length devices_data) ≫= fun j =>
            pair_links devices_data i j)) in Hrun; [exact Hrun|].
  intros i s s' _ Hin.
  eapply (for_each_appends (fun j => pair_links devices_data i j)) in Hin;
    [exact Hin|].
  intros j s0 s0' _. by apply compare_devices_ok.
Qed.

(** ** Splitting strings *)

Lemma split_on_nonempty sep s : split_on sep s <> [].
Proof.
  destruct s as [|c s]; simpl; [done|].
  destruct (Ascii.eqb c sep); [done|]. by destruct (split_on sep s).
Qed.

Lemma split_on_app sep a m :
  split_on sep (a ++ String sep m) = split_on sep a ++ split_on sep m.
Proof.
  induction a as [|c a IH]; simpl.
  - by rewrite Ascii.eqb_refl.
  - destruct (Ascii.eqb c sep); [by rewrite IH|].
    rewrite IH. pose proof (split_on_nonempty sep a).
    by destruct (split_on sep a).
Qed.

Lemma split_on_singleton sep s x :
  split_on sep s = [x] -> x = s /\ has_char sep s = false.
Proof.
  revert x. induction s as [|c s IH]; intros x; simpl.
  - by intros [= <-].
  - destruct (Ascii.eqb c sep) eqn:E.
    + intros [= <- H]. by apply split_on_nonempty in H.
    + pose proof (split_on_nonempty sep s).
      destruct (split_on sep s) as [|w ws]; [done|].
      intros [= <- ->]. destruct (IH w eq_refl) as [-> ->]. done.
Qed.

Lemma split_on_no_sep sep s :
  has_char sep s = false -> split_on sep s = [s].
Proof.
  induction s as [|c s IH]; simpl; [done|].
  intros [-> Hs]%orb_false_elim. by rewrite (IH Hs).
Qed.

Lemma has_char_split_on c sep s :
  c <> sep -> has_char c s = true ->
  exists piece, piece ∈ split_on sep s /\ has_char c piece = true.
Proof.
  intros Hne. induction s as [|c' s IH]; simpl; [done|].
  intros H. destruct (Ascii.eqb_spec c' sep) as [->|Hc'].
  - destruct (Ascii.eqb_spec sep c) as [->|_]; [done|]. simpl in H.
    destruct (IH H) as (piece & Hin & Hp). exists piece. split; [by right|done].
  - pose proof (split_on_nonempty sep s).
    destruct (split_on sep s) as [|w ws]; [done|].
    destruct (Ascii.eqb_spec c' c) as [->|_].
    + exists (String c w). split; [left|]. simpl. by rewrite Ascii.eqb_refl.
    + simpl in H. destruct (IH H) as (piece & Hin & Hp).
      apply elem_of_cons in Hin as [->|Hin].
      * exists (String c' w). split; [left|]. simpl. rewrite Hp. apply orb_true_r.
      * exists piece. split; [by right|done].
Qed.

Lemma all_digits_no_char c s :
  is_ascii_digit c = false -> all_digits s = true -> has_char c s = false.
Proof.
  intros Hc. induction s as [|c' s IH]; simpl; [done|].
  intros [Hc' Hs]%andb_true_iff. rewrite (IH Hs), orb_false_r.
  destruct (Ascii.eqb_spec c' c) as [->|]; [congruence|done].
Qed.

Lemma isascii_isdigit_all_digits s :
  isascii_isdigit s = true -> all_digits s = true.
Proof. by destruct s. Qed.

(** ** What [ipaddress] accepts *)

Lemma parse_octets_all_digits octets vs o :
  ipaddress.parse_octets octets = Some vs -> o ∈ octets ->
  all_digits o = true.
Proof.
  revert vs. induction octets as [|o' octets IH]; intros vs; simpl.
  - intros _ H. by apply elem_of_nil in H.
  - destruct (ipaddress._parse_octet o') as [v|] eqn:E; [|done].
    destruct (ipaddress.parse_octets octets) as [vs'|]; [|done].
    intros _ [->|Hin]%elem_of_cons; [|by eapply IH].
    rename o' into o. unfold ipaddress._parse_octet in E.
    destruct (String.eqb o ""); [done|].
    destruct (isascii_isdigit o) eqn:D; [|done].
    by apply isascii_isdigit_all_digits.
Qed.

Lemma ip_int_from_string_no_slash s ip :
  ipaddress._ip_int_from_string s = Some ip -> has_char "/" s = false.
Proof.
  unfold ipaddress._ip_int_from_string.
  destruct (String.eqb s ""); [done|].
  destruct (negb _); [done|].
  destruct (ipaddress.parse_octets (split_on "." s)) as [vs|] eqn:E; [|done].
  intros _. destruct (has_char "/" s) eqn:H; [|done].
  apply (has_char_split_on _ ".") in H as (piece & Hin & Hp); [|done].
  rewrite (all_digits_no_char "/" piece) in Hp; [done|done|].
  by eapply parse_octets_all_digits.
Qed.

Lemma make_netmask_no_slash s r :
  ipaddress._make_netmask s = Some r -> has_char "/" s = false.
Proof.
  unfold ipaddress._make_netmask.
  destruct (ipaddress._prefix_from_prefix_string s) as [p|] eqn:E.
  - intros _. unfold ipaddress._prefix_from_prefix_string in E.
    destruct (isascii_isdigit s) eqn:D; [|done].
    apply all_digits_no_char; [done|by apply isascii_isdigit_all_digits].
  - unfold ipaddress._prefix_from_ip_string.
    destruct (ipaddress._ip_int_from_string s) as [ip|] eqn:I; [|done].
    intros _. by eapply ip_int_from_string_no_slash.
Qed.

Lemma split_on_has_sep sep s :
  has_char sep s = true -> exists x y l, split_on sep s = x :: y :: l.
Proof.
  induction s as [|c s IH]; simpl; [done|].
  pose proof (split_on_nonempty sep s) as Hne.
  destruct (Ascii.eqb c sep); simpl.
  - intros _. destruct (split_on sep s) as [|w ws]; [done|]. by eexists _, _, _.
  - intros (x & y & l & ->)%IH. by eexists _, _, _.
Qed.

Lemma split_optional_netmask_app a m :
  ipaddress._split_optional_netmask (a ++ "/" ++ m) =
  if has_char "/" a || has_char "/" m then None else Some [a; m].
Proof.
  unfold ipaddress._split_optional_netmask.
  change (a ++ "/" ++ m)%string with (a ++ String "/" m)%string.
  rewrite split_on_app.
  destruct (has_char "/" a) eqn:Ha; simpl.
  - apply split_on_has_sep in Ha as (x & y & l & ->).
    pose proof (split_on_nonempty "/" m).
    destruct (split_on "/" m) as [|w ws]; [done|].
    destruct (Nat.ltb_spec 2 (length ((x :: y :: l) ++ w :: ws))) as [|Hlen];
      [done|].
    rewrite length_app in Hlen. simpl in Hlen. lia.
  - rewrite (split_on_no_sep _ _ Ha).
    destruct (has_char "/" m) eqn:Hm.
    + by apply split_on_has_sep in Hm as (x & y & l & ->).
    + by rewrite (split_on_no_sep _ _ Hm).
Qed.

Lemma IPv4Interface_network_spec a m net :
  ipaddress.IPv4Interface_network (a ++ "/" ++ m) = Some net <->
  exists ip nm p,
    ipaddress._ip_int_from_string a = Some ip
    /\ ipaddress._make_netmask m = Some (nm, p)
    /\ net = {| ipaddress.network_address := Z.land ip nm;
                ipaddress.netmask := nm; ipaddress._prefixlen := p |}.
Proof.
  unfold ipaddress.IPv4Interface_network.
  rewrite split_optional_netmask_app. split.
  - destruct (has_char "/" a || has_char "/" m); [done|].
    unfold ipaddress.IPv4Network_of.
    destruct (ipaddress._ip_int_from_string a) as [ip|]; [|done].
    destruct (ipaddress._make_netmask m) as [[nm p]|]; [|done].
    intros [= <-]. exists ip, nm, p. split; [done|]. split; [done|].
    f_equal. destruct (Z.eqb_spec (Z.land ip nm) ip) as [e|]; simpl;
      [by rewrite e|done].
  - intros (ip & nm & p & Ha & Hm & ->).
    rewrite (ip_int_from_string_no_slash _ _ Ha).
    rewrite (make_netmask_no_slash _ _ Hm). simpl.
    unfold ipaddress.IPv4Network_of. rewrite Ha, Hm. f_equal. f_equal.
    destruct (Z.eqb_spec (Z.land ip nm) ip) as [e|]; simpl;
      [by rewrite e|done].
Qed.

Lemma interface_network_network_of details net :
  interface_network details = Ok net ->
  network_of details =
    Some (ipaddress.network_address net, ipaddress.netmask net).
Proof.
  unfold interface_network, network_of, key_item.
  destruct (ip_address details) as [a|]; [|done].
  destruct (subnet_mask details) as [m|]; [|done]. simpl.
  destruct (ipaddress.IPv4Interface_network (a ++ "/" ++ m)) as [net'|] eqn:E;
    [|done].
  intros [= ->].
  apply IPv4Interface_network_spec in E as (ip & nm & p & -> & -> & ->).
  done.
Qed.

Lemma network_of_interface_network details x :
  network_of details = Some x ->
  exists net, interface_network details = Ok net
    /\ x = (ipaddress.network_address net, ipaddress.netmask net).
Proof.
  unfold interface_network, network_of, key_item.
  destruct (ip_address details) as [a|]; [|done].
  destruct (subnet_mask details) as [m|]; [|done]. simpl.
  destruct (ipaddress._ip_int_from_string a) as [ip|] eqn:Ha; [|done].
  destruct (ipaddress._make_netmask m) as [[nm p]|] eqn:Hm; [|done].
  intros [= <-].
  pose proof (proj2 (IPv4Interface_network_spec a m _)
                (ex_intro _ ip (ex_intro _ nm (ex_intro _ p
                   (conj Ha (conj Hm eq_refl)))))) as ->.
  by eexists.
Qed.

Lemma linkable_same_network int1 int2 :
  linkable int1 int2 = true <-> same_network int1 int2.
Proof.
  unfold linkable, same_network. split.
  - destruct (interface_network int1) as [net1|] eqn:E1; [|done].
    destruct (interface_network int2) as [net2|] eqn:E2; [|done].
    unfold ipaddress.network_eqb.
    intros [Ha Hm]%andb_true_iff. apply Z.eqb_eq in Ha, Hm.
    apply interface_network_network_of in E1, E2.
    eexists. split; [done|]. by rewrite E2, Ha, Hm.
  - intros (net & H1 & H2).
    apply network_of_interface_network in H1 as (net1 & -> & ->).
    apply network_of_interface_network in H2 as (net2 & -> & [= Ha Hm]).
    unfold ipaddress.network_eqb. by rewrite Ha, Hm, !Z.eqb_refl.
Qed.

Lemma linkable_sym int1 int2 : linkable int1 int2 = linkable int2 int1.
Proof.
  apply eq_true_iff_eq. rewrite !linkable_same_network.
  unfold same_network. split; intros (net & ? & ?); by exists net.
Qed.

(** ** The links [build_topology] returns *)

Lemma dict_wf_unique {V : Type} (d : dict V) k v1 v2 :
  dict_wf d -> (k, v1) ∈ d -> (k, v2) ∈ d -> v1 = v2.
Proof.
  unfold dict_wf, keys. change (map fst d) with (fst <$> d).
  intros Hwf [i Hi]%list_elem_of_lookup [j Hj]%list_elem_of_lookup.
  assert (i = j) as ->.
  { eapply (NoDup_lookup _ i j k Hwf); rewrite list_lookup_fmap.
    - by rewrite Hi.
    - by rewrite Hj. }
  congruence.
Qed.

Lemma dict_wf_index {V : Type} (d : dict V) i j k v1 v2 :
  dict_wf d -> d !! i = Some (k, v1) -> d !! j = Some (k, v2) -> i = j.
Proof.
  unfold dict_wf, keys. change (map fst d) with (fst <$> d).
  intros Hwf Hi Hj.
  eapply (NoDup_lookup _ i j k Hwf); rewrite list_lookup_fmap.
  - by rewrite Hi.
  - by rewrite Hj.
Qed.

Lemma dict_wf_NoDup {V : Type} (d : dict V) : dict_wf d -> NoDup d.
Proof. apply NoDup_fmap_1. Qed.

Lemma elem_of_interface_links link d1 ifs1 d2 ifs2 :
  link ∈ interface_links d1 ifs1 d2 ifs2 <->
  exists n1 int1 n2 int2,
    (n1, int1) ∈ ifs1 /\ (n2, int2) ∈ ifs2
    /\ linkable int1 int2 = true
    /\ link = {| from_device := d1; from_interface := n1;
                 to_device := d2; to_interface := n2 |}.
Proof.
  unfold interface_links. rewrite list_elem_of_bind. split.
  - intros ([n1 int1] & Hin & H1).
    apply list_elem_of_bind in Hin as ([n2 int2] & Hin & H2). simpl in Hin.
    destruct (linkable int1 int2) eqn:L; [|by apply elem_of_nil in Hin].
    apply list_elem_of_singleton in Hin. by exists n1, int1, n2, int2.
  - intros (n1 & int1 & n2 & int2 & H1 & H2 & L & ->).
    exists (n1, int1). split; [|done].
    apply list_elem_of_bind. exists (n2, int2). split; [|done].
    simpl. rewrite L. by apply list_elem_of_singleton.
Qed.

Lemma elem_of_range k a b : k ∈ range a b <-> a <= k < b.
Proof. unfold range. rewrite elem_of_seq. lia. Qed.

Lemma elem_of_all_links link devices_data :
  link ∈ all_links devices_data <->
  exists i j d1 dev1 d2 dev2,
    i < j /\ devices_data !! i = Some (d1, dev1)
    /\ devices_data !! j = Some (d2, dev2)
    /\ link ∈ interface_links d1 (interfaces_of dev1)
                              d2 (interfaces_of dev2).
Proof.
  unfold all_links. rewrite list_elem_of_bind. split.
  - intros (i & Hin & Hi).
    apply list_elem_of_bind in Hin as (j & Hin & Hj).
    apply elem_of_range in Hj. unfold pair_links in Hin.
    destruct (devices_data !! i) as [[d1 dev1]|] eqn:Ei;
      [|by apply elem_of_nil in Hin].
    destruct (devices_data !! j) as [[d2 dev2]|] eqn:Ej;
      [|by apply elem_of_nil in Hin].
    exists i, j, d1, dev1, d2, dev2. repeat split; [lia|done..].
  - intros (i & j & d1 & dev1 & d2 & dev2 & Hlt & Ei & Ej & Hin).
    pose proof (lookup_lt_Some _ _ _ Ej) as Hj.
    exists i. split; [|apply elem_of_range; lia].
    apply list_elem_of_bind. exists j. split; [|apply elem_of_range; lia].
    unfold pair_links. by rewrite Ei, Ej.
Qed.

Lemma NoDup_interface_links d1 ifs1 d2 ifs2 :
  dict_wf ifs1 -> dict_wf ifs2 -> NoDup (interface_links d1 ifs1 d2 ifs2).
Proof.
  intros Hwf1 Hwf2. unfold interface_links. apply NoDup_bind.
  - intros [n1 int1] [n1' int1'] link Hin1 Hin1' H H'.
    apply list_elem_of_bind in H as ([n2 int2] & H & _).
    apply list_elem_of_bind in H' as ([n2' int2'] & H' & _).
    simpl in H, H'.
    destruct (linkable int1 int2); [|by apply elem_of_nil in H].
    destruct (linkable int1' int2'); [|by apply elem_of_nil in H'].
    apply list_elem_of_singleton in H, H'. subst link.
    injection H' as <- _. f_equal.
    exact (dict_wf_unique _ _ _ _ Hwf1 Hin1 Hin1').
  - intros [n1 int1] Hin1. apply NoDup_bind.
    + intros [n2 int2] [n2' int2'] link Hin2 Hin2' H H'. simpl in H, H'.
      destruct (linkable int1 int2); [|by apply elem_of_nil in H].
      destruct (linkable int1 int2'); [|by apply elem_of_nil in H'].
      apply list_elem_of_singleton in H, H'. subst link.
      injection H' as <-. f_equal.
      exact (dict_wf_unique _ _ _ _ Hwf2 Hin2 Hin2').
    + intros [n2 int2] _. simpl.
      destruct (linkable int1 int2); [apply NoDup_singleton|apply NoDup_nil_2].
    + by apply dict_wf_NoDup.
  - by apply dict_wf_NoDup.
Qed.

Lemma elem_of_pair_links link devices_data i j :
  link ∈ pair_links devices_data i j ->
  exists dev1 dev2,
    devices_data !! i = Some (from_device link, dev1)
    /\ devices_data !! j = Some (to_device link, dev2).
Proof.
  unfold pair_links.
  destruct (devices_data !! i) as [[d1 dev1]|]; [|by intros ?%elem_of_nil].
  destruct (devices_data !! j) as [[d2 dev2]|]; [|by intros ?%elem_of_nil].
  intros (n1 & int1 & n2 & int2 & _ & _ & _ & ->)%elem_of_interface_links.
  by exists dev1, dev2.
Qed.

Lemma NoDup_all_links devices_data :
  devices_wf devices_data -> NoDup (all_links devices_data).
Proof.
  intros [Hwf Hifs]. unfold all_links. apply NoDup_bind.
  - intros i i' link _ _ H H'.
    apply list_elem_of_bind in H as (j & H & _).
    apply list_elem_of_bind in H' as (j' & H' & _).
    apply elem_of_pair_links in H as (dev1 & _ & H & _).
    apply elem_of_pair_links in H' as (dev1' & _ & H' & _).
    by eapply dict_wf_index.
  - intros i _. apply NoDup_bind.
    + intros j j' link _ _ H H'.
      apply elem_of_pair_links in H as (_ & dev2 & _ & H).
      apply elem_of_pair_links in H' as (_ & dev2' & _ & H').
      by eapply dict_wf_index.
    + intros j _. unfold pair_links.
      destruct (devices_data !! i) as [[d1 dev1]|] eqn:Ei; [|apply NoDup_nil_2].
      destruct (devices_data !! j) as [[d2 dev2]|] eqn:Ej; [|apply NoDup_nil_2].
      apply NoDup_interface_links; eapply Hifs; by eapply list_elem_of_lookup_2.
    + apply NoDup_seq.
  - apply NoDup_seq.
Qed.

Lemma link_in_all_links devices_data i j d1 dev1 d2 dev2 n1 int1 n2 int2 :
  devices_wf devices_data ->
  devices_data !! i = Some (d1, dev1) ->
  devices_data !! j = Some (d2, dev2) ->
  (n1, int1) ∈ interfaces_of dev1 -> (n2, int2) ∈ interfaces_of dev2 ->
  {| from_device := d1; from_interface := n1;
     to_device := d2; to_interface := n2 |} ∈ all_links devices_data
  <-> i < j /\ linkable int1 int2 = true.
Proof.
  intros [Hwf Hifs] Ei Ej H1 H2. rewrite elem_of_all_links. split.
  - intros (i' & j' & d1' & dev1' & d2' & dev2' & Hlt & Ei' & Ej' & Hin).
    apply elem_of_interface_links in Hin
      as (n1' & int1' & n2' & int2' & H1' & H2' & L & [= <- <- <- <-]).
    assert (i' = i) as -> by (by eapply dict_wf_index).
    assert (j' = j) as -> by (by eapply dict_wf_index).
    rewrite Ei in Ei'. rewrite Ej in Ej'.
    injection Ei' as <-. injection Ej' as <-.
    assert (int1' = int1) as ->.
    { eapply (dict_wf_unique (interfaces_of dev1)); [|done..].
      eapply Hifs. by eapply list_elem_of_lookup_2. }
    assert (int2' = int2) as ->.
    { eapply (dict_wf_unique (interfaces_of dev2)); [|done..].
      eapply Hifs. by eapply list_elem_of_lookup_2. }
    done.
  - intros [Hlt L]. exists i, j, d1, dev1, d2, dev2.
    repeat split; [done..|].
    apply elem_of_interface_links. by exists n1, int1, n2, int2.
Qed.

Lemma length_filter_two {A : Type} `{EqDecision A} (P : A -> Prop)
    `{forall x, Decision (P x)} (a b : A) (l : list A) :
  (forall x, P x <-> x = a \/ x = b) ->
  NoDup l -> a <> b ->
  length (filter P l) =
  (if decide (a ∈ l) then 1 else 0) + (if decide (b ∈ l) then 1 else 0).
Proof.
  intros HP Hl Hab. induction Hl as [|x l Hx Hl IH]; [done|].
  rewrite filter_cons.
  destruct (decide (x = a)) as [->|Hxa].
  - rewrite decide_True by (apply HP; by left). simpl. rewrite IH.
    rewrite (decide_True (P := a ∈ a :: l)) by left.
    rewrite (decide_False (P := a ∈ l)) by done.
    destruct (decide (b ∈ l)) as [Hb|Hb].
    + rewrite decide_True by (by right). done.
    + rewrite decide_False; [done|]. by intros [?|?]%elem_of_cons.
  - destruct (decide (x = b)) as [->|Hxb].
    + rewrite decide_True by (apply HP; by right). simpl. rewrite IH.
      rewrite (decide_True (P := b ∈ b :: l)) by left.
      rewrite (decide_False (P := b ∈ l)) by done.
      destruct (decide (a ∈ l)) as [Ha|Ha].
      * rewrite decide_True by (by right). lia.
      * rewrite decide_False; [lia|]. by intros [?|?]%elem_of_cons.
    + rewrite decide_False by (by intros [?|?]%HP). rewrite IH.
      f_equal.
      * destruct (decide (a ∈ l)) as [Ha|Ha].
        -- by rewrite decide_True by (by right).
        -- rewrite decide_False; [done|]. by intros [?|?]%elem_of_cons.
      * destruct (decide (b ∈ l)) as [Hb|Hb].
        -- by rewrite decide_True by (by right).
        -- rewrite decide_False; [done|]. by intros [?|?]%elem_of_cons.
Qed.

Lemma count_connecting devices_data d1 dev1 n1 int1 d2 dev2 n2 int2 :
  devices_wf devices_data ->
  (d1, dev1) ∈ devices_data -> (d2, dev2) ∈ devices_data -> d1 <> d2 ->
  (n1, int1) ∈ interfaces_of dev1 -> (n2, int2) ∈ interfaces_of dev2 ->
  length (filter (connects d1 n1 d2 n2) (all_links devices_data)) =
  if linkable int1 int2 then 1 else 0.
Proof.
  intros Hwf [i Ei]%list_elem_of_lookup [j Ej]%list_elem_of_lookup Hne H1 H2.
  rewrite (length_filter_two _
             {| from_device := d1; from_interface := n1;
                to_device := d2; to_interface := n2 |}
             {| from_device := d2; from_interface := n2;
                to_device := d1; to_interface := n1 |});
    [|done|by apply NoDup_all_links|congruence].
  pose proof (link_in_all_links _ _ _ _ _ _ _ _ _ _ _ Hwf Ei Ej H1 H2) as HA.
  pose proof (link_in_all_links _ _ _ _ _ _ _ _ _ _ _ Hwf Ej Ei H2 H1) as HB.
  rewrite (linkable_sym int2 int1) in HB.
  assert (i <> j) by (intros ->; congruence).
  destruct (linkable int1 int2).
  - destruct (decide (i < j)).
    + rewrite decide_True by (by apply HA).
      rewrite decide_False; [done|]. intros [? _]%HB. lia.
    + rewrite decide_False by (intros [? _]%HA; lia).
      rewrite decide_True; [done|]. apply HB. split; [lia|done].
  - rewrite decide_False by (by intros [_ ?]%HA).
    by rewrite decide_False by (by intros [_ ?]%HB).
Qed.

(** C8.  No link that [build_topology] returns joins a device to itself:
    the two ends are taken at two different positions of the dict, whose
    keys are pairwise distinct. *)
Theorem build_topology_no_self_link
    (devices_data : dict Device) (links : list Link) (link : Link) :
  dict_wf devices_data ->
  build_topology devices_data = Ok links ->
  link ∈ links ->
  from_device link <> to_device link.
Proof.
  intros Hwf Hrun Hin. apply (build_topology_ok _ _ Hwf) in Hrun. subst links.
  apply elem_of_all_links in Hin
    as (i & j & d1 & dev1 & d2 & dev2 & Hlt & Ei & Ej & Hin).
  apply elem_of_interface_links in Hin
    as (n1 & int1 & n2 & int2 & _ & _ & _ & ->).
  simpl. intros <-.
  pose proof (dict_wf_index _ _ _ _ _ _ Hwf Ei Ej). lia.
Qed.

(** C1, amended.  Let [build_topology] return on a mapping (a dict of
    dicts), and take two distinct devices of it and one interface of each.
    The returned list holds exactly one link joining these two interfaces
    when both have an address string and a mask string that [ipaddress]
    accepts and the two networks are the same, a network being the address
    masked by the netmask together with that netmask; it holds no such link
    otherwise. *)
Theorem build_topology_one_link_per_shared_network
    (devices_data : dict Device) (links : list Link)
    (d1 : string) (dev1 : Device) (n1 : string) (int1 : InterfaceDetails)
    (d2 : string) (dev2 : Device) (n2 : string) (int2 : InterfaceDetails) :
  devices_wf devices_data ->
  build_topology devices_data = Ok links ->
  (d1, dev1) ∈ devices_data -> (d2, dev2) ∈ devices_data -> d1 <> d2 ->
  (n1, int1) ∈ interfaces_of dev1 -> (n2, int2) ∈ interfaces_of dev2 ->
  (length (filter (connects d1 n1 d2 n2) links) = 1
     <-> same_network int1 int2)
  /\ (length (filter (connects d1 n1 d2 n2) links) = 0
     <-> ~ same_network int1 int2).
Proof.
  intros Hwf Hrun Hd1 Hd2 Hne H1 H2.
  apply (build_topology_ok _ _ (proj1 Hwf)) in Hrun. subst links.
  rewrite (count_connecting _ _ _ _ _ _ _ _ _ Hwf Hd1 Hd2 Hne H1 H2).
  rewrite <- linkable_same_network.
  destruct (linkable int1 int2); split; split; done.
Qed.

Lemma devices_wfb_sound devices_data :
  devices_wfb devices_data = true -> devices_wf devices_data.
Proof.
  unfold devices_wfb, devices_wf, dict_wf.
  intros [Hk Hifs]%andb_true_iff. apply bool_decide_eq_true in Hk.
  split; [done|]. intros id dev Hin.
  rewrite forallb_forall in Hifs.
  apply list_elem_of_In in Hin. apply Hifs in Hin.
  by apply bool_decide_eq_true in Hin.
Qed.

(** C8 on the end-to-end scenario. *)
Lemma build_topology_no_self_link_witness :
  from_device scenario_link <> to_device scenario_link.
Proof.
  apply (build_topology_no_self_link scenario [scenario_link] scenario_link).
  - apply devices_wfb_sound. vm_compute. reflexivity.
  - vm_compute. reflexivity.
  - left.
Defined.

(** C1, amended, on the end-to-end scenario. *)
Lemma build_topology_one_link_witness :
  (length (filter (connects "R1" "Gi0/1" "R2" "Gi0/1") [scenario_link]) = 1
     <-> same_network R1_Gi01 R2_Gi01)
  /\ (length (filter (connects "R1" "Gi0/1" "R2" "Gi0/1") [scenario_link]) = 0
     <-> ~ same_network R1_Gi01 R2_Gi01).
Proof.
  apply (build_topology_one_link_per_shared_network scenario [scenario_link]
           "R1" R1_device "Gi0/1" R1_Gi01 "R2" R2_device "Gi0/1" R2_Gi01).
  - apply devices_wfb_sound. vm_compute. reflexivity.
  - vm_compute. reflexivity.
  - left.
  - right. left.
  - discriminate.
  - left.
  - left.
Defined.

(** C1 as stated fails, both ways.  10.0.0.1 masked by 255.255.255.0 and
    10.0.0.2 masked by 255.255.0.0 are both 10.0.0.0, yet [build_topology]
    returns no link for the two interfaces: the networks 10.0.0.0/24 and
    10.0.0.0/16 differ.  10.0.0.1 and 10.0.0.2 masked by 0.0.0.255 are
    0.0.0.1 and 0.0.0.2, yet [build_topology] returns a link: [ipaddress]
    reads 0.0.0.255 as a host mask, and both networks are 10.0.0.0/24. *)
Lemma build_topology_masked_address_counterexample :
  (masked_address wide_Gi01 = Some 167772160%Z
   /\ masked_address wider_Gi01 = Some 167772160%Z
   /\ build_topology mixed_masks = Ok []
   /\ length (filter (connects "R1" "Gi0/1" "R2" "Gi0/1") []) <> 1)
  /\ (masked_address host_Gi01 = Some 1%Z
      /\ masked_address host_Gi02 = Some 2%Z
      /\ build_topology host_masks = Ok [scenario_link]
      /\ length (filter (connects "R1" "Gi0/1" "R2" "Gi0/1") [scenario_link])
         <> 0).
Proof. repeat split; vm_compute; congruence. Qed.

(** ** When [build_topology] returns *)

Lemma compare_interfaces_returns d1 n1 int1 d2 n2 int2 links :
  (ip_address int1 <> None -> subnet_mask int1 <> None) ->
  (ip_address int2 <> None -> subnet_mask int2 <> None) ->
  exists links', compare_interfaces d1 n1 int1 d2 n2 int2 links = Ok links'.
Proof.
  intros H1 H2. unfold compare_interfaces, try_link, interface_network, key_item.
  destruct (ip_address int1) as [a1|]; simpl; [|by eexists].
  destruct (ip_address int2) as [a2|]; simpl; [|by eexists].
  destruct (subnet_mask int1) as [m1|]; [|by destruct H1].
  destruct (subnet_mask int2) as [m2|]; [|by destruct H2]. simpl.
  destruct (ipaddress.IPv4Interface_network (a1 ++ "/" ++ m1)); simpl;
    [|by eexists].
  destruct (ipaddress.IPv4Interface_network (a2 ++ "/" ++ m2)); simpl;
    by eexists.
Qed.

(** [build_topology] returns on every dict of dicts in which each interface
    that has an address has a mask. *)
Lemma build_topology_returns devices_data :
  dict_wf devices_data -> masks_present devices_data ->
  exists links, build_topology devices_data = Ok links.
Proof.
  intros Hwf Hmasks. unfold build_topology.
  assert (Hlen : length (keys devices_data) = length devices_data)
    by apply length_map.
  rewrite Hlen. apply for_each_returns. intros i s Hi.
  apply for_each_returns. intros j s0 Hj.
  apply elem_of_range in Hi, Hj. unfold compare_devices.
  destruct (lookup_lt_is_Some_2 devices_data i) as [[d1 dev1] Ei]; [lia|].
  destruct (lookup_lt_is_Some_2 devices_data j) as [[d2 dev2] Ej]; [lia|].
  rewrite (proj2 (list_index_keys devices_data i d1)) by (by exists dev1).
  rewrite (proj2 (list_index_keys devices_data j d2)) by (by exists dev2).
  simpl. unfold dict_item.
  rewrite (dict_get_lookup _ _ _ _ Hwf Ei), (dict_get_lookup _ _ _ _ Hwf Ej).
  simpl. apply for_each_returns. intros [n1 int1] s1 H1.
  apply for_each_returns. intros [n2 int2] s2 H2. simpl.
  apply compare_interfaces_returns.
  - apply (Hmasks d1 dev1 n1 int1);
      [by eapply list_elem_of_lookup_2|exact H1].
  - apply (Hmasks d2 dev2 n2 int2);
      [by eapply list_elem_of_lookup_2|exact H2].
Qed.

(** C2 fails on an interface that has an address and no mask: the guard on
    line 34 looks for ['ip_address'] only, line 36 then indexes
    ['subnet_mask'], and the [except] clause does not catch [KeyError]. *)
Theorem build_topology_missing_mask_raises :
  build_topology missing_mask = Raise (KeyError "subnet_mask").
Proof. reflexivity. Qed.

(** ** [Router.__init__] *)

Lemma Router_init_hostname_present device_id config links name :
  dev_hostname config = Some (PyStr name) ->
  hostname (Router_init device_id config links) = PyStr name.
Proof. intros H. unfold Router_init. simpl. by rewrite H. Qed.

Lemma Router_init_hostname_absent device_id config links :
  dev_hostname config = None ->
  hostname (Router_init device_id config links) = PyStr device_id.
Proof. intros H. unfold Router_init. simpl. by rewrite H. Qed.

Lemma parse_line_hostname line d ci d' ci' :
  parse_line line (d, ci) = Ok (d', ci') ->
  (dev_hostname d <> None -> dev_hostname d' <> None)
  /\ (startswith (strip line) "hostname" = false ->
      dev_hostname d' = dev_hostname d).
Proof.
  unfold parse_line, update_interface.
  destruct (startswith (strip line) "hostname").
  { destruct (list_index _ 1); simpl; [|done]. intros [= <- <-]. done. }
  destruct (startswith (strip line) "interface").
  { destruct (list_index _ 1); simpl; [|done].
    destruct (key_item _ _); simpl; [|done]. intros [= <- <-]. done. }
  destruct (startswith (strip line) "router ospf").
  { intros [= <- <-]. done. }
  destruct (startswith (strip line) "description" && truthy ci).
  { destruct (key_item _ _); simpl; [|done].
    destruct (dict_item _ _); simpl; [|done]. intros [= <- <-]. done. }
  destruct (startswith (strip line) "ip address" && truthy ci).
  { destruct (list_index _ 2); simpl; [|done].
    destruct (key_item _ _); simpl; [|done].
    destruct (dict_item _ _); simpl; [|done].
    destruct (list_index _ 3); simpl; [|done].
    destruct (dict_item _ _); simpl; [|done]. intros [= <- <-]. done. }
  intros [= <- <-]. done.
Qed.

Lemma parse_lines_hostname lines d ci d' ci' :
  for_each lines parse_line (d, ci) = Ok (d', ci') ->
  (dev_hostname d <> None -> dev_hostname d' <> None)
  /\ ((forall line, line ∈ lines -> startswith (strip line) "hostname" = false)
      -> dev_hostname d' = dev_hostname d).
Proof.
  revert d ci. induction lines as [|line lines IH]; intros d ci;
    cbn [for_each].
  - by intros [= <- <-].
  - destruct (parse_line line (d, ci)) as [[d1 ci1]|] eqn:E; [|done].
    apply parse_line_hostname in E as [E0 E1].
    intros [H0 H1]%IH. split; [auto|].
    intros Hno. rewrite H1, E1; [done|apply Hno; left|].
    intros l Hl. apply Hno. by right.
Qed.

(** [parse_config_file] always leaves the key ['hostname'] in the dict,
    holding [None] when no line sets it. *)
Lemma parse_config_file_hostname filepath lines id dev :
  parse_config_file filepath lines = Ok (id, dev) ->
  dev_hostname dev <> None
  /\ ((forall line, line ∈ lines -> startswith (strip line) "hostname" = false)
      -> dev_hostname dev = Some PyNone).
Proof.
  unfold parse_config_file.
  destruct (for_each lines parse_line _) as [[d' ci']|] eqn:E; [|done].
  simpl. intros [= <- <-].
  apply parse_lines_hostname in E as [H0 H1]. split; [by apply H0|].
  intros Hno. by rewrite H1.
Qed.

(** Whatever dump has no [hostname] line, the router built from the parsed
    device is named [None], not its device id. *)
Lemma router_of_parsed_device_without_hostname filepath lines id dev links :
  parse_config_file filepath lines = Ok (id, dev) ->
  (forall line, line ∈ lines -> startswith (strip line) "hostname" = false) ->
  hostname (Router_init id dev links) = PyNone.
Proof.
  intros [_ H]%parse_config_file_hostname Hno.
  unfold Router_init. simpl. by rewrite (H Hno).
Qed.

(** C6 fails on a dump without a [hostname] line: line 12 stores [None]
    under ['hostname'], so the default of [config_data.get] on line 81 is
    not used and the router is named [None] instead of the device id. *)
Theorem router_hostname_without_hostname_line :
  parse_config_file "Conf/R1/config.dump"
    ["interface Gi0/1"; " ip address 10.0.0.1 255.255.255.252"]
  = Ok ("R1",
        {| dev_hostname := Some PyNone;
           dev_interfaces := Some [("Gi0/1", R1_Gi01)];
           dev_default_route := Some PyNone;
           dev_ospf_enabled := Some false |})
  /\ hostname (Router_init "R1"
                 {| dev_hostname := Some PyNone;
                    dev_interfaces := Some [("Gi0/1", R1_Gi01)];
                    dev_default_route := Some PyNone;
                    dev_ospf_enabled := Some false |} [])
     = PyNone
  /\ PyNone <> PyStr "R1".
Proof. repeat split; try discriminate; vm_compute; reflexivity. Qed.

(** ** Neighbors *)

Lemma length_find_neighbors a links :
  length (find_neighbors a links) = length (filter (touches a) links).
Proof.
  induction links as [|link links IH]; [done|]. simpl.
  rewrite filter_cons. unfold touches at 1.
  destruct (String.eqb_spec (from_device link) a) as [Hf|Hf].
  - rewrite decide_True by (by left). simpl. by rewrite IH.
  - destruct (String.eqb_spec (to_device link) a) as [Ht|Ht].
    + rewrite decide_True by (by right). simpl. by rewrite IH.
    + rewrite decide_False by (by intros [?|?]). done.
Qed.

Lemma count_find_neighbors a b links :
  length (filter (fun n => n = b) (find_neighbors a links)) =
  length (filter (joins a b) links).
Proof.
  induction links as [|link links IH]; [done|]. simpl.
  rewrite (filter_cons (joins a b)). unfold joins at 1.
  destruct (String.eqb_spec (from_device link) a) as [Hf|Hf].
  - rewrite filter_cons.
    destruct (decide (to_device link = b)) as [Ht|Ht].
    + rewrite decide_True by (by left). simpl. by rewrite IH.
    + rewrite decide_False; [done|]. intros [[_ ?]|[? ?]]; [done|].
      congruence.
  - destruct (String.eqb_spec (to_device link) a) as [Ht|Ht].
    + rewrite filter_cons.
      destruct (decide (from_device link = b)) as [Hb|Hb].
      * rewrite decide_True by (by right). simpl. by rewrite IH.
      * rewrite decide_False; [done|]. by intros [[? _]|[? _]].
    + rewrite decide_False; [done|]. by intros [[? _]|[_ ?]].
Qed.

Lemma joins_sym a b link : joins a b link <-> joins b a link.
Proof. unfold joins. tauto. Qed.

(** ** One thread *)

Section Thread.

Variable repr : list string -> string.

Lemma start_not_new t : at_point t <> AtNew -> start t = t.
Proof. unfold start. by destruct (at_point t). Qed.

(** A step never changes who the router is, and never sets [is_running]. *)
Lemma thread_step_identity c t sw :
  let t' := (thread_step repr c t sw).1.1 in
  hostname (self t') = hostname (self t)
  /\ neighbors (self t') = neighbors (self t)
  /\ device_id (self t') = device_id (self t)
  /\ is_running (self t') = is_running (self t).
Proof.
  unfold thread_step.
  destruct (at_point t) as [| | | | |[|n rest]| | |]; simpl; try done.
  - destruct (is_running (self t)) eqn:E; simpl; by rewrite ?E.
  - by destruct (receive_packet sw (device_id (self t))) as [[p|] sw'].
  - by destruct (hello_due c t).
Qed.

(** What a step does to the switch is what its events say, after the
    receive when the step is the receive. *)
Lemma thread_step_switch c t sw :
  (thread_step repr c t sw).1.2 =
  send_all (sends (thread_step repr c t sw).2)
    (match at_point t with
     | AtReceive => (receive_packet sw (device_id (self t))).2
     | _ => sw
     end).
Proof.
  unfold thread_step.
  destruct (at_point t) as [| | | | |[|n rest]| | |]; simpl; try done.
  - by destruct (is_running (self t)).
  - by destruct (receive_packet sw (device_id (self t))) as [[p|] sw'].
  - by destruct (hello_due c t).
Qed.

Lemma thread_step_not_new c t sw :
  at_point t <> AtNew -> at_point (thread_step repr c t sw).1.1 <> AtNew.
Proof.
  unfold thread_step.
  destruct (at_point t) as [| | | | |[|n rest]| | |] eqn:E; simpl;
    rewrite ?E; try done.
  - by destruct (is_running (self t)).
  - by destruct (receive_packet sw (device_id (self t))) as [[p|] sw'].
  - by destruct (hello_due c t).
Qed.

Lemma thread_observe_not_new hs t :
  at_point t <> AtNew -> at_point (thread_observe repr hs t).1 <> AtNew.
Proof.
  revert t. induction hs as [|[c sw| |] hs IH]; intros t Hat;
    cbn [thread_observe]; [done| | |].
  - pose proof (thread_step_not_new c t sw Hat) as H1.
    destruct (thread_step repr c t sw) as [[t1 sw1] out1].
    specialize (IH t1 H1). by destruct (thread_observe repr hs t1).
  - rewrite start_not_new by done. by apply IH.
  - by apply (IH (clear_running t)).
Qed.

Lemma thread_observe_app hs1 hs2 t :
  thread_observe repr (hs1 ++ hs2) t =
  ((thread_observe repr hs2 (thread_observe repr hs1 t).1).1,
   (thread_observe repr hs1 t).2
   ++ (thread_observe repr hs2 (thread_observe repr hs1 t).1).2).
Proof.
  revert t. induction hs1 as [|[c sw| |] hs1 IH]; intros t; simpl.
  - by destruct (thread_observe repr hs2 t).
  - destruct (thread_step repr c t sw) as [[t1 sw1] out1]. rewrite IH.
    destruct (thread_observe repr hs1 t1) as [t2 out2]. simpl.
    by rewrite app_assoc.
  - apply IH.
  - apply IH.
Qed.

(** Inside a broadcast (lines 107-110): as many steps as neighbors are
    left put one packet each in the mailbox of the next neighbor, on the
    switch as the step finds it, and log one line each. *)
Lemma broadcast_rest hs t rest :
  at_point t = AtSend rest ->
  length (clocks_of hs) = length rest ->
  let res := thread_observe repr hs t in
  at_point res.1 = AtSend []
  /\ switches_left repr hs t =
     zip_with (fun sw n => send_packet sw n (hello_packet (self t)))
       (switches_of hs) rest
  /\ sends res.2 = map (fun n => (n, hello_packet (self t))) rest
  /\ log (self res.1) =
     log (self t) ++ sent_log (hostname (self t)) (zip (clocks_of hs) rest)
  /\ hostname (self res.1) = hostname (self t)
  /\ neighbors (self res.1) = neighbors (self t).
Proof.
  revert t rest. induction hs as [|[c sw| |] hs IH]; intros t rest Hat Hlen.
  - destruct rest; [|done]. simpl. by rewrite app_nil_r.
  - destruct rest as [|n rest]; [done|]. simpl in Hlen.
    cbn [thread_observe switches_left switches_of]. unfold thread_step.
    rewrite Hat. simpl.
    set (t1 := with_self t _ (AtSend rest)).
    specialize (IH t1 rest eq_refl ltac:(lia)).
    destruct (thread_observe repr hs t1) as [t2 out2]. simpl in *.
    destruct IH as (-> & -> & -> & -> & -> & ->).
    by rewrite <- app_assoc.
  - cbn [thread_observe clocks_of switches_left switches_of].
    rewrite start_not_new by (by rewrite Hat). by apply IH.
  - cbn [thread_observe clocks_of switches_left switches_of].
    by apply (IH (clear_running t) rest).
Qed.

End Thread.

Section Broadcast.

Variable repr : list string -> string.

Lemma count_sends_to b (pk : Packet) (ns : list string) :
  length (filter (fun m : string * Packet => m.1 = b)
            (map (fun n => (n, pk)) ns)) =
  length (filter (fun n => n = b) ns).
Proof.
  induction ns as [|n ns IH]; [done|]. simpl. rewrite !filter_cons. simpl.
  destruct (decide (n = b)); simpl; by rewrite IH.
Qed.

Lemma count_zip_snd {A : Type} b (cs : list A) (ns : list string) :
  length cs = length ns ->
  length (filter (fun cn : A * string => cn.2 = b) (zip cs ns)) =
  length (filter (fun n => n = b) ns).
Proof.
  revert ns. induction cs as [|c cs IH]; intros [|n ns] Hlen; try done.
  simpl. rewrite !filter_cons. simpl. injection Hlen as Hlen.
  destruct (decide (n = b)); simpl; by rewrite IH.
Qed.

Lemma puts_send_packet b pk sw n :
  puts b pk (sw, send_packet sw n pk) <-> n = b.
Proof.
  unfold puts. simpl. rewrite mailbox_send_packet. case_decide as Hn.
  - by subst.
  - split; [|done]. intros H. apply (f_equal length) in H.
    rewrite length_app in H. simpl in H. lia.
Qed.

Lemma puts_same b pk sw : ~ puts b pk (sw, sw).
Proof.
  unfold puts. simpl. intros H. apply (f_equal length) in H.
  rewrite length_app in H. simpl in H. lia.
Qed.

(** Of the steps that put [pk] in the mailbox of the next entry of [ns],
    as many put it in the mailbox of [b] as [ns] names [b]. *)
Lemma count_puts b pk (sws : list NetworkSwitch) (ns : list string) :
  length sws = length ns ->
  length (filter (puts b pk)
            (zip sws (zip_with (fun sw n => send_packet sw n pk) sws ns))) =
  length (filter (fun n => n = b) ns).
Proof.
  revert ns. induction sws as [|sw sws IH]; intros [|n ns] Hlen; try done.
  simpl. rewrite !filter_cons. injection Hlen as Hlen.
  destruct (decide (n = b)) as [Hn|Hn].
  - rewrite decide_True by (by apply puts_send_packet). simpl. by rewrite IH.
  - rewrite decide_False by (by rewrite puts_send_packet). by apply IH.
Qed.

Lemma switches_of_length hs : length (switches_of hs) = length (clocks_of hs).
Proof.
  induction hs as [|[c sw| |] hs IH]; simpl; by rewrite ?IH.
Qed.

Lemma broadcast_from_hello (t : Thread) (hs : list happening)
    (c : Clock) (cs : list Clock) (sw : NetworkSwitch)
    (sws : list NetworkSwitch) :
  at_point t = AtHello ->
  clocks_of hs = c :: cs ->
  switches_of hs = sw :: sws ->
  hello_due c t = true ->
  length cs = length (neighbors (self t)) ->
  let res := thread_observe repr hs t in
  let packet := {| source := hostname (self t); type := "OSPF_HELLO" |} in
  at_point res.1 = AtSend []
  /\ switches_left repr hs t =
     sw :: zip_with (fun sw' n => send_packet sw' n packet) sws
             (neighbors (self t))
  /\ sends res.2 = map (fun n => (n, packet)) (neighbors (self t))
  /\ log (self res.1) =
     log (self t)
     ++ sent_log (hostname (self t)) (zip cs (neighbors (self t))).
Proof.
  revert t. induction hs as [|[c' sw'| |] hs IH];
    intros t Hat Hcs Hsws Hdue Hlen.
  - done.
  - injection Hcs as -> Hcs. injection Hsws as -> Hsws.
    cbn [thread_observe switches_left]. unfold thread_step.
    rewrite Hat, Hdue.
    pose proof (broadcast_rest repr hs
                  (goto t (AtSend (neighbors (self t))))
                  (neighbors (self t)) eq_refl) as H.
    rewrite Hcs, Hsws in H. specialize (H Hlen).
    destruct (thread_observe repr hs _) as [t2 out2]. simpl in *.
    destruct H as (H1 & H2 & H3 & H4 & _). by rewrite H2.
  - cbn [thread_observe switches_left]. rewrite start_not_new by (by rewrite Hat).
    by apply IH.
  - cbn [thread_observe switches_left]. by apply (IH (clear_running t)).
Qed.

(** C3, amended.  A hello broadcast starts when the thread finds the timer
    due on line 106.  With as many further steps as the neighbor list has
    entries, and whatever the other threads and [main] do meanwhile, each
    of these steps puts one packet on the switch as it finds it, in the
    mailbox of the next entry of the list, in list order, with the router's
    hostname as source and the type "OSPF_HELLO"; the thread puts nothing
    else on the switch, and it appends one log line per entry, in the same
    order. *)
Theorem hello_broadcast (t : Thread) (hs : list happening)
    (c : Clock) (cs : list Clock) (sw : NetworkSwitch)
    (sws : list NetworkSwitch) :
  at_point t = AtHello ->
  clocks_of hs = c :: cs ->
  switches_of hs = sw :: sws ->
  hello_due c t = true ->
  length cs = length (neighbors (self t)) ->
  let res := thread_observe repr hs t in
  let packet := {| source := hostname (self t); type := "OSPF_HELLO" |} in
  at_point res.1 = AtSend []
  /\ switches_left repr hs t =
     sw :: zip_with (fun sw' n => send_packet sw' n packet) sws
             (neighbors (self t))
  /\ sends res.2 = map (fun n => (n, packet)) (neighbors (self t))
  /\ log (self res.1) =
     log (self t)
     ++ sent_log (hostname (self t)) (zip cs (neighbors (self t))).
Proof. apply broadcast_from_hello. Qed.

(** C10.  The neighbor list of the router of device [a] has one entry per
    link that has [a] at an end.  If [k] links join [a] and [b], the list
    of [a] names [b] [k] times and the list of [b] names [a] [k] times, and
    in each hello broadcast of [a], whatever the others do meanwhile, [k]
    of the steps put the hello packet in the mailbox of [b] on the switch
    as they find it, and the log gets the lines of the entries in order,
    [k] of them for [b]. *)
Theorem neighbors_not_deduplicated (a b : string) (config : Device)
    (links : list Link) :
  let r := Router_init a config links in
  let k := length (filter (joins a b) links) in
  length (neighbors r) = length (filter (touches a) links)
  /\ length (filter (fun n => n = b) (neighbors r)) = k
  /\ (forall config',
        length (filter (fun n => n = a)
                  (neighbors (Router_init b config' links))) = k)
  /\ (forall t hs c cs sw sws,
        neighbors (self t) = neighbors r ->
        at_point t = AtHello ->
        clocks_of hs = c :: cs ->
        switches_of hs = sw :: sws ->
        hello_due c t = true ->
        length cs = length (neighbors r) ->
        let res := thread_observe repr hs t in
        switches_left repr hs t =
          sw :: zip_with (fun sw' n => send_packet sw' n (hello_packet (self t)))
                  sws (neighbors r)
        /\ length (filter (puts b (hello_packet (self t)))
                     (zip (switches_of hs) (switches_left repr hs t))) = k
        /\ length (filter (fun m : string * Packet => m.1 = b) (sends res.2)) = k
        /\ log (self res.1) =
           log (self t) ++ sent_log (hostname (self t)) (zip cs (neighbors r))
        /\ length (filter (fun cn : Clock * string => cn.2 = b)
                     (zip cs (neighbors r))) = k).
Proof.
  simpl. split; [apply length_find_neighbors|].
  split; [apply count_find_neighbors|].
  split.
  - intros _. rewrite count_find_neighbors.
    induction links as [|link links' IH]; [done|].
    rewrite !filter_cons.
    destruct (decide (joins a b link)) as [H|H].
    + rewrite decide_True by (by apply joins_sym). simpl. by rewrite IH.
    + rewrite decide_False; [done|]. by intros ?%joins_sym.
  - intros t hs c cs sw sws Hns Hat Hcs Hsws Hdue Hlen.
    pose proof (broadcast_from_hello t hs c cs sw sws Hat Hcs Hsws Hdue) as H.
    pose proof (switches_of_length hs) as Hl. rewrite Hcs, Hsws in Hl.
    simpl in Hl. injection Hl as Hl.
    rewrite Hns in H. specialize (H Hlen). simpl in H.
    destruct H as (_ & H1 & -> & ->). fold (hello_packet (self t)) in H1.
    split; [done|]. rewrite H1, Hsws.
    split.
    + simpl. rewrite filter_cons, decide_False by apply puts_same.
      rewrite count_puts by lia. by rewrite count_find_neighbors.
    + rewrite count_sends_to, count_zip_snd by done.
      by rewrite count_find_neighbors.
Qed.

End Broadcast.

(** C3, amended, on the end-to-end scenario: one neighbor, one packet, put
    in the mailbox of R2 on the switch the step finds. *)
Lemma hello_broadcast_witness :
  let res := thread_observe repr_plain
               [Step noon new_switch; Step noon new_switch]
               (hello_ready R1_router) in
  let packet := {| source := PyStr "Router1"; type := "OSPF_HELLO" |} in
  at_point res.1 = AtSend []
  /\ switches_left repr_plain [Step noon new_switch; Step noon new_switch]
       (hello_ready R1_router) =
     new_switch :: zip_with (fun sw' n => send_packet sw' n packet)
                     [new_switch] ["R2"]
  /\ sends res.2 = map (fun n => (n, packet)) ["R2"]
  /\ log (self res.1) =
     [] ++ sent_log (PyStr "Router1") (zip [noon] ["R2"]).
Proof.
  apply (hello_broadcast repr_plain (hello_ready R1_router)
           [Step noon new_switch; Step noon new_switch] noon [noon]
           new_switch [new_switch]);
    reflexivity.
Defined.

(** C3 as stated fails.  R1 and R2 share two networks, so [build_topology]
    returns two links, the neighbor list of R1 names R2 twice, and one
    broadcast of R1 puts two packets in the mailbox of the device id R2,
    not one; their type is "OSPF_HELLO", not "HELLO". *)
Lemma hello_broadcast_counterexample :
  let out := (thread_observe repr_plain
                [Step noon new_switch; Step noon new_switch;
                 Step noon new_switch]
                (hello_ready R1_double_router)).2 in
  build_topology double_homed = Ok double_links
  /\ neighbors R1_double_router = ["R2"; "R2"]
  /\ at_point <$> threads (broadcast_alone R1_double_router 3) = [AtSend []]
  /\ mailbox (switch (broadcast_alone R1_double_router 3)) "R2" =
     [{| source := PyStr "Router1"; type := "OSPF_HELLO" |};
      {| source := PyStr "Router1"; type := "OSPF_HELLO" |}]
  /\ length (mailbox (switch (broadcast_alone R1_double_router 3)) "R2") <> 1
  /\ Forall (fun p : Packet => type p <> "HELLO")
       (mailbox (switch (broadcast_alone R1_double_router 3)) "R2")
  /\ sends out =
     [("R2", {| source := PyStr "Router1"; type := "OSPF_HELLO" |});
      ("R2", {| source := PyStr "Router1"; type := "OSPF_HELLO" |})]
  /\ length (filter (fun m : string * Packet => m.1 = "R2") (sends out)) <> 1
  /\ Forall (fun m : string * Packet => type m.2 <> "HELLO") (sends out).
Proof.
  simpl. split; [vm_compute; reflexivity|].
  split; [vm_compute; reflexivity|].
  split; [vm_compute; reflexivity|].
  split; [vm_compute; reflexivity|].
  split; [vm_compute; lia|].
  split; [vm_compute; repeat constructor; discriminate|].
  split; [vm_compute; reflexivity|].
  split; [vm_compute; lia|].
  vm_compute. repeat constructor; discriminate.
Qed.

(** C10 on R1 and R2 joined twice. *)
Lemma neighbors_not_deduplicated_witness :
  let hs := [Step noon new_switch; Step noon new_switch;
             Step noon new_switch] in
  let t := hello_ready R1_double_router in
  let res := thread_observe repr_plain hs t in
  switches_left repr_plain hs t =
    new_switch :: zip_with (fun sw' n => send_packet sw' n (hello_packet (self t)))
                    [new_switch; new_switch] ["R2"; "R2"]
  /\ length (filter (puts "R2" (hello_packet (self t)))
               (zip (switches_of hs) (switches_left repr_plain hs t))) = 2
  /\ length (filter (fun m : string * Packet => m.1 = "R2") (sends res.2)) = 2
  /\ log (self res.1) =
     [] ++ sent_log (PyStr "Router1") (zip [noon; noon] ["R2"; "R2"])
  /\ length (filter (fun cn : Clock * string => cn.2 = "R2")
               (zip [noon; noon] ["R2"; "R2"])) = 2.
Proof.
  apply (proj2 (proj2 (proj2
           (neighbors_not_deduplicated repr_plain "R1" "R2"
              R1_double_device double_links)))
           (hello_ready R1_double_router)
           [Step noon new_switch; Step noon new_switch; Step noon new_switch]
           noon [noon; noon] new_switch [new_switch; new_switch]);
    reflexivity.
Defined.

(** ** The log and the end of [run] *)

Section Run_invariants.

Variable repr : list string -> string.
Variable r0 : Router.

Lemma log_shape_step c t sw :
  log_shape repr r0 t -> log_shape repr r0 (thread_step repr c t sw).1.1.
Proof.
  unfold log_shape, thread_step, started_message.
  intros (Hh & Hn & Hlog).
  destruct (at_point t) as [| | | | |[|n rest]| | |] eqn:E; simpl;
    rewrite ?E.
  - done.
  - split; [done|]. split; [done|].
    rewrite Hlog, Hh, Hn. by exists (stamp c), [].
  - destruct (is_running (self t)); simpl; by repeat split.
  - destruct (receive_packet sw (device_id (self t))) as [[p|] sw']; simpl.
    + split; [done|]. split; [done|]. destruct Hlog as (s & mid & ->).
      by exists s, (mid ++ [log_entry (stamp c) (hostname (self t))
                                (received_message p)]).
    + by repeat split.
  - destruct (hello_due c t); simpl; by repeat split.
  - done.
  - split; [done|]. split; [done|]. destruct Hlog as (s & mid & ->).
    by exists s, (mid ++ [log_entry (stamp c) (hostname (self t))
                              (sent_message n)]).
  - done.
  - split; [done|]. split; [done|].
    destruct Hlog as (s & mid & ->). rewrite Hh. by exists s, mid, (stamp c).
  - done.
Qed.

Lemma log_shape_start t : log_shape repr r0 t -> log_shape repr r0 (start t).
Proof.
  unfold log_shape, start.
  destruct (at_point t) eqn:E; simpl; by rewrite ?E.
Qed.

Lemma log_shape_clear t :
  log_shape repr r0 t -> log_shape repr r0 (clear_running t).
Proof. by unfold log_shape, clear_running. Qed.

Lemma log_shape_observe hs t :
  log_shape repr r0 t -> log_shape repr r0 (thread_observe repr hs t).1.
Proof.
  revert t. induction hs as [|[c sw| |] hs IH]; intros t Ht;
    cbn [thread_observe]; [done| |by apply IH, log_shape_start
                                |by apply IH, log_shape_clear].
  pose proof (log_shape_step c t sw Ht) as H1.
  destruct (thread_step repr c t sw) as [[t1 sw1] out1].
  specialize (IH t1 H1). by destruct (thread_observe repr hs t1).
Qed.

Lemma quiet_step c t sw :
  quiet t ->
  quiet (thread_step repr c t sw).1.1
  /\ sends (thread_step repr c t sw).2 = [].
Proof.
  unfold quiet, thread_step. intros [Hn Hrest].
  destruct (at_point t) as [| | | | |[|n rest]| | |] eqn:E; simpl;
    rewrite ?E; try by repeat split.
  - destruct (is_running (self t)); by repeat split.
  - destruct (receive_packet sw (device_id (self t))) as [[p|] sw'];
      by repeat split.
  - destruct (hello_due c t); simpl; [|by repeat split].
    split; [|done]. split; [done|]. intros rest [= <-]. done.
  - by specialize (Hrest _ eq_refl).
Qed.

Lemma quiet_observe hs t :
  quiet t ->
  quiet (thread_observe repr hs t).1 /\ sends (thread_observe repr hs t).2 = [].
Proof.
  revert t. induction hs as [|[c sw| |] hs IH]; intros t Ht;
    cbn [thread_observe]; [done| | |].
  - destruct (quiet_step c t sw Ht) as [H1 H2].
    destruct (thread_step repr c t sw) as [[t1 sw1] out1].
    destruct (IH t1 H1) as [H3 H4].
    destruct (thread_observe repr hs t1) as [t2 out2]. simpl in *.
    split; [done|]. unfold sends in *. by rewrite flat_map_app, H2, H4.
  - apply IH. unfold quiet, start in *.
    destruct (at_point t) eqn:E; simpl; rewrite ?E; try done.
    split; [exact (proj1 Ht)|done].
  - apply IH. by unfold quiet, clear_running in *.
Qed.

Lemma distance_step c t sw :
  is_running (self t) = false ->
  at_point t <> AtNew ->
  let t1 := (thread_step repr c t sw).1.1 in
  is_running (self t1) = false
  /\ at_point t1 <> AtNew
  /\ distance t1 <= pred (distance t).
Proof.
  unfold thread_step, distance. intros Hr Hat.
  destruct (at_point t) as [| | | | |[|n rest]| | |] eqn:E; simpl;
    rewrite ?E; try (by repeat split; try lia).
  - rewrite Hr. simpl. by repeat split; try lia.
  - destruct (receive_packet sw (device_id (self t))) as [[p|] sw']; simpl;
      by repeat split; try lia.
  - destruct (hello_due c t); simpl; by repeat split; try lia.
Qed.

(** Once [is_running] is cleared, a started thread reaches the end of [run]
    within [distance] steps of its own, whatever happens in between. *)
Lemma stops_within hs t :
  is_running (self t) = false ->
  at_point t <> AtNew ->
  distance t <= length (clocks_of hs) ->
  at_point (thread_observe repr hs t).1 = AtDone.
Proof.
  revert t. induction hs as [|[c sw| |] hs IH]; intros t Hr Hat Hd;
    cbn [thread_observe clocks_of] in *.
  - simpl in *. unfold distance in Hd. destruct (at_point t); simpl in *;
      try done; lia.
  - destruct (distance_step c t sw Hr Hat) as (H1 & H2 & H3).
    destruct (thread_step repr c t sw) as [[t1 sw1] out1]. simpl in *.
    specialize (IH t1 H1 H2 ltac:(lia)).
    by destruct (thread_observe repr hs t1).
  - rewrite start_not_new by done. by apply IH.
  - apply IH; [done|done|]. by unfold distance in *.
Qed.

End Run_invariants.

(** ** A router without neighbors *)

Section Quiet.

Variable repr : list string -> string.

Lemma quiet_distance t : quiet t -> distance t <= 6.
Proof.
  unfold quiet, distance. intros [Hn Hrest].
  destruct (at_point t) as [| | | | |rest| | |] eqn:E; rewrite ?Hn; simpl;
    try lia.
  rewrite (Hrest rest eq_refl). simpl. lia.
Qed.

Lemma lone_thread (r : Router) (hs : list happening) :
  neighbors r = [] -> log r = [] ->
  let res := thread_observe repr hs (new_thread r) in
  sends res.2 = []
  /\ (at_point res.1 = AtDone ->
      exists s mid s',
        log (self res.1) =
        log_entry s (hostname r) (started_message repr r)
        :: mid ++ [log_entry s' (hostname r) finished_message])
  /\ (at_point res.1 <> AtNew -> is_running (self res.1) = false ->
      forall hs', 6 <= length (clocks_of hs') ->
        at_point (thread_observe repr hs' res.1).1 = AtDone).
Proof.
  intros Hn Hlog. simpl.
  assert (Hq : quiet (new_thread r)) by (by split).
  assert (Hs : log_shape repr r (new_thread r)) by (by repeat split).
  apply (quiet_observe repr hs) in Hq as [Hq Hsends].
  apply (log_shape_observe repr r hs) in Hs as (_ & _ & Hs).
  split; [done|]. split.
  - intros Hat. by rewrite Hat in Hs.
  - intros Hat Hr hs' Hlen. apply stops_within; [done|done|].
    pose proof (quiet_distance _ Hq). lia.
Qed.

Lemma quiet_step_switch c t sw :
  quiet t ->
  let left := (thread_step repr c t sw).1.2 in
  left = sw \/ left = (receive_packet sw (device_id (self t))).2.
Proof.
  unfold quiet, thread_step. intros [Hn Hrest].
  destruct (at_point t) as [| | | | |[|n rest]| | |] eqn:E; simpl;
    try by left.
  - destruct (is_running (self t)); by left.
  - right. by destruct (receive_packet sw (device_id (self t))) as [[p|] sw'].
  - destruct (hello_due c t); by left.
  - by specialize (Hrest _ eq_refl).
Qed.

Lemma quiet_switches hs t :
  quiet t ->
  Forall2 (fun found left =>
             left = found
             \/ left = (receive_packet found (device_id (self t))).2)
    (switches_of hs) (switches_left repr hs t).
Proof.
  revert t. induction hs as [|[c sw| |] hs IH]; intros t Ht;
    cbn [switches_of switches_left]; [constructor| | |].
  - pose proof (quiet_step_switch c t sw Ht) as Hsw.
    destruct (quiet_step repr c t sw Ht) as [H1 _].
    pose proof (thread_step_identity repr c t sw) as (_ & _ & Hid & _).
    destruct (thread_step repr c t sw) as [[t1 sw1] out1]. simpl in *.
    constructor; [done|]. rewrite <- Hid. by apply IH.
  - assert (self (start t) = self t) as Hs
      by (unfold start; by destruct (at_point t)).
    rewrite <- Hs. apply IH. unfold quiet, start in *.
    destruct (at_point t) eqn:E; simpl; rewrite ?E; try done.
    split; [exact (proj1 Ht)|done].
  - apply (IH (clear_running t)). by unfold quiet, clear_running in *.
Qed.

Lemma start_started t : at_point (start t) <> AtNew.
Proof. unfold start. by destruct (at_point t) eqn:E; simpl; rewrite ?E. Qed.

(** C9.  Take a router constructed with an empty neighbor list.  Over any
    life of its thread (the start by [main], any number of its own steps
    on whatever clock and switch it finds, the stop signal, in any order)
    no step puts a packet on the switch: each leaves the switch as it
    found it, or takes from the router's own mailbox.  And in every life
    in which [main] starts the thread, later clears [is_running], and the
    thread then takes six steps or more, [run] returns and the log begins
    with the thread-started line and ends with the thread-finished line. *)
Theorem router_without_neighbors (r : Router)
    (hs hs1 hs2 hs3 : list happening) :
  neighbors r = [] -> log r = [] ->
  (sends (thread_observe repr hs (new_thread r)).2 = []
   /\ Forall2 (fun found left =>
                 left = found
                 \/ left = (receive_packet found (device_id r)).2)
        (switches_of hs) (switches_left repr hs (new_thread r)))
  /\ (6 <= length (clocks_of hs3) ->
      let res := thread_observe repr
                   (hs1 ++ Started :: hs2 ++ Stopped :: hs3) (new_thread r) in
      at_point res.1 = AtDone
      /\ exists s mid s',
           log (self res.1) =
           log_entry s (hostname r) (started_message repr r)
           :: mid ++ [log_entry s' (hostname r) finished_message]).
Proof.
  intros Hn Hlog. split.
  - split; [by apply (lone_thread r hs)|].
    apply (quiet_switches hs (new_thread r)). by split.
  - intros Hlen. cbv zeta.
    assert (at_point (thread_observe repr
                        (hs1 ++ Started :: hs2 ++ Stopped :: hs3)
                        (new_thread r)).1 = AtDone) as Hdone.
    { replace (hs1 ++ Started :: hs2 ++ Stopped :: hs3)
        with ((hs1 ++ Started :: hs2) ++ [Stopped] ++ hs3)
        by (by rewrite <- !app_assoc).
      rewrite !thread_observe_app. cbn [fst].
      set (t1 := (thread_observe repr hs1 (new_thread r)).1).
      destruct (lone_thread r ((hs1 ++ Started :: hs2) ++ [Stopped]) Hn Hlog)
        as (_ & _ & H3).
      rewrite !thread_observe_app in H3. cbn [fst] in H3. fold t1 in H3.
      apply H3; [| |done].
      - cbn [thread_observe fst]. unfold clear_running. simpl.
        apply thread_observe_not_new, start_started.
      - done. }
    split; [done|].
    by apply (lone_thread r (hs1 ++ Started :: hs2 ++ Stopped :: hs3) Hn Hlog).
Qed.

End Quiet.

(** C9 on a router whose device no link touches: started, six steps,
    stopped, six steps. *)
Lemma router_without_neighbors_witness :
  (sends (thread_observe repr_plain lone_life (new_thread lone_router)).2 = []
   /\ Forall2 (fun found left =>
                 left = found
                 \/ left = (receive_packet found (device_id lone_router)).2)
        (switches_of lone_life)
        (switches_left repr_plain lone_life (new_thread lone_router)))
  /\ (let res := thread_observe repr_plain lone_life (new_thread lone_router) in
      at_point res.1 = AtDone
      /\ exists s mid s',
           log (self res.1) =
           log_entry s (hostname lone_router)
             (started_message repr_plain lone_router)
           :: mid ++ [log_entry s' (hostname lone_router) finished_message]).
Proof.
  destruct (router_without_neighbors repr_plain lone_router lone_life
              [] (replicate 6 (Step noon new_switch))
              (replicate 6 (Step noon new_switch)) eq_refl eq_refl)
    as [H1 H2].
  split; [exact H1|]. apply H2. simpl. lia.
Defined.

(** The run of [lone_life] does reach the end of [run]. *)
Lemma lone_life_finishes :
  let res := thread_observe repr_plain lone_life (new_thread lone_router) in
  at_point res.1 = AtDone
  /\ log (self res.1) =
     ["[12:00:00] [Router9] Thread started. Neighbors: []";
      "[12:00:00] [Router9] Thread finished."].
Proof. split; vm_compute; reflexivity. Qed.

(** ** The simulation, seen from one thread *)

Section Simulation_threads.

Variable repr : list string -> string.

Lemma events_of_app i l1 l2 :
  events_of i (l1 ++ l2) = events_of i l1 ++ events_of i l2.
Proof. unfold events_of. by rewrite filter_app, map_app. Qed.

Lemma events_of_own i (out : list event) : events_of i (map (pair i) out) = out.
Proof.
  unfold events_of. induction out as [|e out IH]; [done|]. simpl.
  rewrite filter_cons. simpl. rewrite decide_True by done. simpl. by f_equal.
Qed.

Lemma events_of_other i j (out : list event) :
  i <> j -> events_of i (map (pair j) out) = [].
Proof.
  intros Hne. unfold events_of. induction out as [|e out IH]; [done|]. simpl.
  rewrite filter_cons. simpl. by rewrite decide_False by done.
Qed.

(** One action of the simulation is at most one happening for a thread. *)
Lemma sim_step_thread a s i t :
  threads s !! i = Some t ->
  exists hs,
    threads (sim_step repr a s).1 !! i = Some (thread_observe repr hs t).1
    /\ events_of i (sim_step repr a s).2 = (thread_observe repr hs t).2.
Proof.
  intros Hi. destruct a as [j c|]; simpl.
  - destruct (decide (j = i)) as [->|Hne].
    + rewrite Hi. exists [Step c (switch s)]. simpl.
      destruct (thread_step repr c t (switch s)) as [[t1 sw1] out1]. simpl.
      rewrite list_lookup_insert_eq by (by eapply lookup_lt_Some).
      by rewrite events_of_own, app_nil_r.
    + exists []. simpl.
      destruct (threads s !! j) as [tj|]; simpl; [|done].
      destruct (thread_step repr c tj (switch s)) as [[t1 sw1] out1]. simpl.
      rewrite list_lookup_insert_ne by done.
      by rewrite events_of_other.
  - unfold main_step.
    destruct (started s <? length (threads s))%nat; simpl.
    { destruct (decide (started s = i)) as [->|Hne].
      - exists [Started]. simpl. by rewrite list_lookup_alter_eq, Hi.
      - exists []. simpl. by rewrite list_lookup_alter_ne. }
    destruct (stopped s <? length (threads s))%nat; simpl.
    { destruct (decide (stopped s = i)) as [->|Hne].
      - exists [Stopped]. simpl. by rewrite list_lookup_alter_eq, Hi.
      - exists []. simpl. by rewrite list_lookup_alter_ne. }
    by exists [].
Qed.

(** Whatever the schedule, what the simulation does to a thread is a life
    of that thread, and the thread's events in the trace are those of that
    life. *)
Lemma sim_run_thread sched s i t :
  threads s !! i = Some t ->
  exists hs,
    threads (sim_run repr sched s).1 !! i = Some (thread_observe repr hs t).1
    /\ events_of i (sim_run repr sched s).2 = (thread_observe repr hs t).2.
Proof.
  revert s t. induction sched as [|a sched IH]; intros s t Hi.
  - by exists [].
  - cbn [sim_run].
    destruct (sim_step_thread a s i t Hi) as (hs1 & H1 & E1).
    destruct (sim_step repr a s) as [s1 out1]. simpl in H1, E1.
    destruct (IH s1 _ H1) as (hs2 & H2 & E2).
    destruct (sim_run repr sched s1) as [s2 out2]. simpl in *.
    exists (hs1 ++ hs2). rewrite thread_observe_app. simpl.
    by rewrite events_of_app, E1, E2.
Qed.

(** In the simulation, under every schedule, a router without neighbors
    sends nothing, and when its thread has ended its log has the started
    line first and the finished line last. *)
Lemma simulation_lone_router sched s i r :
  threads s !! i = Some (new_thread r) ->
  neighbors r = [] -> log r = [] ->
  sends (events_of i (sim_run repr sched s).2) = []
  /\ forall t', threads (sim_run repr sched s).1 !! i = Some t' ->
       at_point t' = AtDone ->
       exists st mid st',
         log (self t') =
         log_entry st (hostname r) (started_message repr r)
         :: mid ++ [log_entry st' (hostname r) finished_message].
Proof.
  intros Hi Hn Hlog.
  destruct (sim_run_thread sched s i _ Hi) as (hs & H & ->).
  destruct (lone_thread repr r hs Hn Hlog) as (Hs & Hd & _).
  split; [done|]. intros t' Ht'. rewrite H in Ht'. injection Ht' as <-.
  apply Hd.
Qed.

(** ** Menu choice 2 *)

(** When choice 2 returns from a simulation, no router is alive. *)
Lemma choice_2_joined sched st st' out :
  existsb is_alive (router_threads st) = false ->
  choice_2 repr sched st = Some (st', out) ->
  existsb is_alive (router_threads st') = false.
Proof.
  unfold choice_2. intros ->.
  destruct (sim_run repr sched _) as [s trace].
  destruct (joined s) eqn:J; [|done]. intros [= <- _]. simpl.
  unfold joined in J. apply andb_true_iff in J as [_ J].
  induction (threads s) as [|t ts IH]; [done|]. simpl in *.
  apply andb_true_iff in J as [Ht J]. rewrite (IH J).
  by destruct (is_alive t).
Qed.

(** C5.  When a router thread of the previous run is alive, choice 2 under
    any schedule prints the refusal and returns the state of [main] as it
    was: same devices, same topology, same router threads (their logs,
    flags and places in [run] included), same switch. *)
Theorem choice_2_busy (sched : list action) (st : MainState) :
  existsb is_alive (router_threads st) = true ->
  choice_2 repr sched st = Some (st, [busy_message]).
Proof. intros H. unfold choice_2. by rewrite H. Qed.

End Simulation_threads.

(** C5 with R1's thread of a previous run asleep on line 113. *)
Lemma choice_2_busy_witness :
  choice_2 repr_plain [MainStep; RunThread 0 noon] busy_main
  = Some (busy_main, [busy_message]).
Proof.
  apply (choice_2_busy repr_plain [MainStep; RunThread 0 noon] busy_main).
  reflexivity.
Defined.

(** From [main]'s initial state the refusal is out of reach: the router
    list is empty at first, and a simulation returns only after every
    [join]. *)
Lemma main_init_not_busy devices st :
  main_init devices = Ok (Some st) ->
  existsb is_alive (router_threads st) = false.
Proof.
  unfold main_init. destruct devices as [|d devices]; [done|].
  destruct (build_topology (d :: devices)); [|done].
  by intros [= <-].
Qed.

(** ** The end-to-end scenario *)

(** The two dumps parse to the scenario's devices, [build_topology] finds
    the one link, and choice 2 returns under [demo_schedule] with both
    routers at the end of [run]. *)
Example end_to_end :
  parse_config_file "Conf/R1/config.dump" R1_conf = Ok ("R1", R1_device)
  /\ parse_config_file "Conf/R2/config.dump" R2_conf = Ok ("R2", R2_device)
  /\ main_init scenario
     = Ok (Some {| network_devices_data := scenario;
                   topology := [scenario_link];
                   router_threads := []; network_switch := new_switch |})
  /\ match main_init scenario with
     | Ok (Some st) =>
         match choice_2 repr_plain demo_schedule st with
         | Some (st', out) =>
             map (fun t => (at_point t, log (self t))) (router_threads st')
         | None => []
         end
     | _ => []
     end
     = [(AtDone,
         ["[12:00:00] [Router1] Thread started. Neighbors: [R2]";
          "[12:00:00] [Router1] Sent 'OSPF_HELLO' to R2";
          "[12:00:00] [Router1] Received 'OSPF_HELLO' from Router2";
          "[12:00:00] [Router1] Thread finished."]);
        (AtDone,
         ["[12:00:00] [Router2] Thread started. Neighbors: [R1]";
          "[12:00:00] [Router2] Sent 'OSPF_HELLO' to R1";
          "[12:00:00] [Router2] Received 'OSPF_HELLO' from Router1";
          "[12:00:00] [Router2] Thread finished."])].
Proof. repeat split; vm_compute; reflexivity. Qed.

(* ===================================================================== *)
(** * Part III: more theorems *)
(* ===================================================================== *)

(** ** More on [build_topology] *)

Lemma for_each_raises {A S : Type} (body : A -> S -> result S)
    (xs : list A) s e :
  for_each xs body s = Raise e ->
  exists x s', x ∈ xs /\ body x s' = Raise e.
Proof.
  revert s. induction xs as [|x xs IH]; intros s; simpl; [done|].
  destruct (body x s) as [s1|e1] eqn:E.
  - intros (y & s' & Hy & Hr)%IH. exists y, s'. split; [by right|done].
  - intros [= <-]. exists x, s. split; [left|done].
Qed.

Lemma compare_interfaces_raises d1 n1 int1 d2 n2 int2 links e :
  compare_interfaces d1 n1 int1 d2 n2 int2 links = Raise e ->
  e = KeyError "subnet_mask".
Proof.
  unfold compare_interfaces, try_link, interface_network, key_item.
  destruct (ip_address int1) as [a1|]; simpl; [|done].
  destruct (ip_address int2) as [a2|]; simpl; [|done].
  destruct (subnet_mask int1) as [m1|]; simpl; [|by intros [= <-]].
  destruct (ipaddress.IPv4Interface_network (a1 ++ "/" ++ m1)); simpl;
    [|done].
  destruct (subnet_mask int2) as [m2|]; simpl; [|by intros [= <-]].
  by destruct (ipaddress.IPv4Interface_network (a2 ++ "/" ++ m2)).
Qed.

Lemma build_topology_raises devices_data e :
  dict_wf devices_data ->
  build_topology devices_data = Raise e ->
  e = KeyError "subnet_mask".
Proof.
  intros Hwf Hrun. unfold build_topology in Hrun.
  assert (Hlen : length (keys devices_data) = length devices_data)
    by apply length_map.
  rewrite Hlen in Hrun.
  apply for_each_raises in Hrun as (i & s & Hi & Hrun).
  apply for_each_raises in Hrun as (j & s0 & Hj & Hrun).
  apply elem_of_range in Hi, Hj. unfold compare_devices in Hrun.
  destruct (lookup_lt_is_Some_2 devices_data i) as [[d1 dev1] Ei]; [lia|].
  destruct (lookup_lt_is_Some_2 devices_data j) as [[d2 dev2] Ej]; [lia|].
  rewrite (proj2 (list_index_keys devices_data i d1)) in Hrun
    by (by exists dev1).
  rewrite (proj2 (list_index_keys devices_data j d2)) in Hrun
    by (by exists dev2).
  simpl in Hrun. unfold dict_item in Hrun.
  rewrite (dict_get_lookup _ _ _ _ Hwf Ei), (dict_get_lookup _ _ _ _ Hwf Ej)
    in Hrun.
  simpl in Hrun.
  apply for_each_raises in Hrun as (int1 & s1 & _ & Hrun).
  apply for_each_raises in Hrun as (int2 & s2 & _ & Hrun).
  by apply compare_interfaces_raises in Hrun.
Qed.

(** X1.  The only exception [build_topology] raises on a dict is
    [KeyError('subnet_mask')], and it raises it only when some interface has
    an address and no mask: a string that fails to parse never makes the
    call fail. *)
Theorem build_topology_raises_only_missing_mask
    (devices_data : dict Device) (e : exn) :
  dict_wf devices_data ->
  build_topology devices_data = Raise e ->
  e = KeyError "subnet_mask" /\ ~ masks_present devices_data.
Proof.
  intros Hwf Hrun. split; [by eapply build_topology_raises|].
  intros Hmasks.
  destruct (build_topology_returns _ Hwf Hmasks) as [links Hok]. congruence.
Qed.

Lemma build_topology_raises_only_missing_mask_witness :
  KeyError "subnet_mask" = KeyError "subnet_mask"
  /\ ~ masks_present missing_mask.
Proof.
  apply (build_topology_raises_only_missing_mask missing_mask).
  - apply devices_wfb_sound. vm_compute. reflexivity.
  - reflexivity.
Defined.

(** X2.  [build_topology] returns a list on every dict in which each
    interface that has an address has a mask, whatever the address and mask
    strings are: interfaces without address and strings that [ipaddress]
    rejects are passed over. *)
Theorem build_topology_returns_with_masks (devices_data : dict Device) :
  dict_wf devices_data -> masks_present devices_data ->
  exists links, build_topology devices_data = Ok links.
Proof. apply build_topology_returns. Qed.

Lemma build_topology_returns_with_masks_witness :
  exists links, build_topology garbled = Ok links.
Proof.
  apply (build_topology_returns_with_masks garbled).
  - by apply (bool_decide_unpack _).
  - intros id dev name details Hin Hif _. unfold garbled in Hin.
    apply elem_of_cons in Hin as [[= -> ->]|Hin].
    + apply list_elem_of_singleton in Hif as [= _ ->]. done.
    + apply list_elem_of_singleton in Hin as [= -> ->].
      apply list_elem_of_singleton in Hif as [= _ ->]. done.
Defined.

(** X3.  With fewer than two devices there is no pair to compare:
    [build_topology] returns the empty list, whatever the device holds. *)
Theorem build_topology_few_devices (devices_data : dict Device) :
  length devices_data <= 1 -> build_topology devices_data = Ok [].
Proof.
  destruct devices_data as [|d [|d' ds]]; simpl; [done|done|lia].
Qed.

Lemma build_topology_few_devices_witness :
  build_topology [("R1", device "Router1" [("Gi0/1", maskless_Gi01)])] = Ok [].
Proof.
  apply (build_topology_few_devices
           [("R1", device "Router1" [("Gi0/1", maskless_Gi01)])]).
  simpl. lia.
Defined.

(** X4.  Every link that [build_topology] returns joins an interface of a
    device of the dict to an interface of a device that comes later in the
    dict, and the two interfaces are on the same network. *)
Theorem build_topology_links_sound
    (devices_data : dict Device) (links : list Link) (link : Link) :
  dict_wf devices_data ->
  build_topology devices_data = Ok links ->
  link ∈ links ->
  exists i j dev1 dev2 int1 int2,
    i < j
    /\ devices_data !! i = Some (from_device link, dev1)
    /\ devices_data !! j = Some (to_device link, dev2)
    /\ (from_interface link, int1) ∈ interfaces_of dev1
    /\ (to_interface link, int2) ∈ interfaces_of dev2
    /\ same_network int1 int2.
Proof.
  intros Hwf Hrun Hin. apply (build_topology_ok _ _ Hwf) in Hrun. subst links.
  apply elem_of_all_links in Hin
    as (i & j & d1 & dev1 & d2 & dev2 & Hlt & Ei & Ej & Hin).
  apply elem_of_interface_links in Hin
    as (n1 & int1 & n2 & int2 & H1 & H2 & L & ->).
  exists i, j, dev1, dev2, int1, int2. simpl.
  repeat split; try done. by apply linkable_same_network.
Qed.

Lemma build_topology_links_sound_witness :
  exists i j dev1 dev2 int1 int2,
    i < j
    /\ scenario !! i = Some (from_device scenario_link, dev1)
    /\ scenario !! j = Some (to_device scenario_link, dev2)
    /\ (from_interface scenario_link, int1) ∈ interfaces_of dev1
    /\ (to_interface scenario_link, int2) ∈ interfaces_of dev2
    /\ same_network int1 int2.
Proof.
  apply (build_topology_links_sound scenario [scenario_link] scenario_link).
  - apply devices_wfb_sound. vm_compute. reflexivity.
  - vm_compute. reflexivity.
  - left.
Defined.

Lemma elem_of_find_neighbors n a links :
  n ∈ find_neighbors a links ->
  exists link, link ∈ links
    /\ ((from_device link = a /\ to_device link = n)
        \/ (to_device link = a /\ from_device link = n)).
Proof.
  induction links as [|link links IH]; simpl; [by intros ?%elem_of_nil|].
  destruct (String.eqb_spec (from_device link) a) as [Hf|Hf].
  - intros [->|Hin]%elem_of_cons.
    + exists link. split; [left|]. by left.
    + destruct (IH Hin) as (l & Hl & H). exists l. split; [by right|done].
  - destruct (String.eqb_spec (to_device link) a) as [Ht|Ht].
    + intros [->|Hin]%elem_of_cons.
      * exists link. split; [left|]. by right.
      * destruct (IH Hin) as (l & Hl & H). exists l. split; [by right|done].
    + intros Hin. destruct (IH Hin) as (l & Hl & H).
      exists l. split; [by right|done].
Qed.

(** X5.  On the topology that [build_topology] returns, the neighbor list
    that [Router.__init__] computes for a device never names the device
    itself and names only device ids of the dict: no router sends a hello
    to itself or to an unknown device. *)
Theorem neighbors_are_other_devices
    (devices_data : dict Device) (links : list Link) (id n : string) :
  dict_wf devices_data ->
  build_topology devices_data = Ok links ->
  n ∈ find_neighbors id links ->
  n <> id /\ n ∈ keys devices_data.
Proof.
  intros Hwf Hrun Hn.
  apply elem_of_find_neighbors in Hn as (link & Hin & Hends).
  pose proof (build_topology_ok _ _ Hwf Hrun) as ->.
  apply elem_of_all_links in Hin
    as (i & j & d1 & dev1 & d2 & dev2 & Hlt & Ei & Ej & Hin).
  apply elem_of_interface_links in Hin
    as (n1 & int1 & n2 & int2 & _ & _ & _ & ->).
  simpl in Hends.
  assert (d1 <> d2).
  { intros <-. pose proof (dict_wf_index _ _ _ _ _ _ Hwf Ei Ej). lia. }
  unfold keys. change (map fst devices_data) with (fst <$> devices_data).
  destruct Hends as [[<- <-]|[<- <-]]; (split; [congruence|]).
  - apply list_elem_of_fmap. exists (d2, dev2).
    split; [done|by eapply list_elem_of_lookup_2].
  - apply list_elem_of_fmap. exists (d1, dev1).
    split; [done|by eapply list_elem_of_lookup_2].
Qed.

Lemma neighbors_are_other_devices_witness :
  "R2" <> "R1" /\ "R2" ∈ keys scenario.
Proof.
  apply (neighbors_are_other_devices scenario [scenario_link] "R1" "R2").
  - apply devices_wfb_sound. vm_compute. reflexivity.
  - vm_compute. reflexivity.
  - left.
Defined.

(** ** More on [Router.run] *)

Section Thread_life.

Variable repr : list string -> string.

Lemma thread_step_log c t sw :
  log (self (thread_step repr c t sw).1.1) =
  log (self t) ++ prints (thread_step repr c t sw).2.
Proof.
  unfold thread_step.
  destruct (at_point t) as [| | | | |[|n rest]| | |]; simpl;
    rewrite ?app_nil_r; try done.
  - by destruct (is_running (self t)); simpl; rewrite app_nil_r.
  - destruct (receive_packet sw (device_id (self t))) as [[p|] sw']; simpl;
      by rewrite ?app_nil_r.
  - by destruct (hello_due c t); simpl; rewrite app_nil_r.
Qed.

Lemma thread_observe_identity hs t :
  let t' := (thread_observe repr hs t).1 in
  hostname (self t') = hostname (self t)
  /\ neighbors (self t') = neighbors (self t)
  /\ device_id (self t') = device_id (self t)
  /\ (is_running (self t) = false -> is_running (self t') = false).
Proof.
  revert t. induction hs as [|[c sw| |] hs IH]; intros t;
    cbn [thread_observe].
  - done.
  - pose proof (thread_step_identity repr c t sw) as H.
    destruct (thread_step repr c t sw) as [[t1 sw1] out1]. simpl in H.
    specialize (IH t1). destruct (thread_observe repr hs t1) as [t2 out2].
    cbv zeta in *. simpl in *.
    destruct IH as (-> & -> & -> & Hr). destruct H as (-> & -> & -> & H4).
    repeat split; try done. intros Hf. apply Hr. by rewrite H4.
  - specialize (IH (start t)). cbv zeta in *.
    assert (self (start t) = self t) as Hs
      by (unfold start; by destruct (at_point t)).
    by rewrite Hs in IH.
  - specialize (IH (clear_running t)). cbv zeta in *. simpl in *.
    destruct IH as (? & ? & ? & Hr). repeat split; try done.
    intros _. by apply Hr.
Qed.

Lemma visiting_step c t sw :
  visiting t ->
  visiting (thread_step repr c t sw).1.1
  /\ Forall (fun m : string * Packet =>
               m.1 ∈ neighbors (self t) /\ m.2 = hello_packet (self t))
       (sends (thread_step repr c t sw).2).
Proof.
  unfold visiting, thread_step. intros Hv.
  destruct (at_point t) as [| | | | |[|n rest]| | |] eqn:E; simpl;
    rewrite ?E; try (split; [done|by constructor]).
  - destruct (is_running (self t)); simpl; (split; [done|by constructor]).
  - destruct (receive_packet sw (device_id (self t))) as [[p|] sw']; simpl;
      (split; [done|by constructor]).
  - destruct (hello_due c t); simpl; (split; [|by constructor]); [|done].
    by intros rest [= <-].
  - specialize (Hv _ eq_refl). split.
    + intros rest' [= <-]. by eapply suffix_cons_l.
    + constructor; [|constructor]. simpl. split; [|done].
      destruct Hv as [k ->]. apply elem_of_app. right. left.
Qed.

Lemma visiting_observe hs t :
  visiting t ->
  visiting (thread_observe repr hs t).1
  /\ Forall (fun m : string * Packet =>
               m.1 ∈ neighbors (self t) /\ m.2 = hello_packet (self t))
       (sends (thread_observe repr hs t).2).
Proof.
  revert t. induction hs as [|[c sw| |] hs IH]; intros t Hv;
    cbn [thread_observe].
  - split; [done|constructor].
  - destruct (visiting_step c t sw Hv) as [Hv1 Hs1].
    pose proof (thread_step_identity repr c t sw) as Hid.
    destruct (thread_step repr c t sw) as [[t1 sw1] out1]. simpl in *.
    destruct (IH t1 Hv1) as [Hv2 Hs2].
    destruct (thread_observe repr hs t1) as [t2 out2]. simpl in *.
    split; [done|]. unfold sends in *. rewrite flat_map_app.
    apply Forall_app. split; [done|].
    destruct Hid as (Hh & Hn & _). unfold hello_packet in *.
    by rewrite Hh, Hn in Hs2.
  - assert (self (start t) = self t) as Hs
      by (unfold start; by destruct (at_point t)).
    rewrite <- Hs. apply (IH (start t)). unfold visiting, start in *.
    destruct (at_point t) eqn:E; simpl; rewrite ?E; done.
  - apply (IH (clear_running t)). by unfold visiting, clear_running in *.
Qed.

Lemma visiting_distance t :
  visiting t -> distance t <= 6 + length (neighbors (self t)).
Proof.
  unfold visiting, distance. intros Hv.
  destruct (at_point t) as [| | | | |rest| | |]; try lia.
  pose proof (suffix_length _ _ (Hv rest eq_refl)). lia.
Qed.

(** X6.  Whatever happens to a router thread (own steps, the start, the stop
    signal), the router keeps its hostname, its device id and its neighbor
    list, and [is_running], once cleared, is never set again. *)
Theorem router_identity_kept (hs : list happening) (t : Thread) :
  let t' := (thread_observe repr hs t).1 in
  hostname (self t') = hostname (self t)
  /\ neighbors (self t') = neighbors (self t)
  /\ device_id (self t') = device_id (self t)
  /\ (is_running (self t) = false -> is_running (self t') = false).
Proof. apply thread_observe_identity. Qed.

(** X7.  The log only grows, and it grows by exactly the lines the thread
    prints, in the same order: every entry is printed ([log_message]) and
    the thread prints nothing else. *)
Theorem log_is_what_was_printed (hs : list happening) (t : Thread) :
  log (self (thread_observe repr hs t).1) =
  log (self t) ++ prints (thread_observe repr hs t).2.
Proof.
  revert t. induction hs as [|[c sw| |] hs IH]; intros t;
    cbn [thread_observe].
  - simpl. by rewrite app_nil_r.
  - pose proof (thread_step_log c t sw) as H.
    destruct (thread_step repr c t sw) as [[t1 sw1] out1]. simpl in H.
    specialize (IH t1). destruct (thread_observe repr hs t1) as [t2 out2].
    simpl in *. unfold prints in *.
    by rewrite IH, H, flat_map_app, app_assoc.
  - rewrite IH. f_equal. unfold start. by destruct (at_point t).
  - by rewrite IH.
Qed.

Lemma thread_step_own c t sw :
  visiting t -> own_step (self t) sw (thread_step repr c t sw).1.2.
Proof.
  unfold visiting, own_step, thread_step. intros Hv.
  destruct (at_point t) as [| | | | |[|n rest]| | |] eqn:E; simpl;
    try by left.
  - destruct (is_running (self t)); by left.
  - right. left.
    by destruct (receive_packet sw (device_id (self t))) as [[p|] sw'].
  - destruct (hello_due c t); by left.
  - right. right. exists n. split; [|done].
    destruct (Hv _ eq_refl) as [pre ->]. apply elem_of_app. right. left.
Qed.

Lemma own_step_same r r' found left :
  device_id r' = device_id r -> neighbors r' = neighbors r ->
  hostname r' = hostname r ->
  own_step r' found left -> own_step r found left.
Proof.
  unfold own_step, hello_packet. by intros -> -> ->.
Qed.

Lemma thread_switches_own hs t :
  visiting t ->
  Forall2 (own_step (self t)) (switches_of hs) (switches_left repr hs t).
Proof.
  revert t. induction hs as [|[c sw| |] hs IH]; intros t Hv;
    cbn [switches_of switches_left]; [constructor| | |].
  - pose proof (thread_step_own c t sw Hv) as Hown.
    destruct (visiting_step c t sw Hv) as [Hv1 _].
    pose proof (thread_step_identity repr c t sw) as (Hh & Hn & Hd & _).
    destruct (thread_step repr c t sw) as [[t1 sw1] out1]. simpl in *.
    constructor; [done|].
    eapply Forall2_impl; [by apply IH|].
    intros found left. by apply own_step_same.
  - assert (self (start t) = self t) as Hs
      by (unfold start; by destruct (at_point t)).
    rewrite <- Hs. apply IH. unfold visiting, start in *.
    destruct (at_point t) eqn:E; simpl; rewrite ?E; try done.
  - eapply Forall2_impl; [apply (IH (clear_running t)); by unfold visiting in *|].
    intros found left. by apply own_step_same.
Qed.

(** X8.  In its whole life, whatever the others do, each step of a router
    thread leaves the switch as it found it, or takes from the router's own
    mailbox, or puts one packet in the mailbox of a device of its neighbor
    list, and that packet is the hello packet with the router's hostname as
    source.  The packets it is seen to send are these. *)
Theorem sends_only_hellos_to_neighbors (r : Router) (hs : list happening) :
  Forall2 (fun found left =>
             left = found
             \/ left = (receive_packet found (device_id r)).2
             \/ exists n,
                  n ∈ neighbors r
                  /\ left = send_packet found n
                              {| source := hostname r; type := "OSPF_HELLO" |})
    (switches_of hs) (switches_left repr hs (new_thread r))
  /\ Forall (fun m : string * Packet =>
               m.1 ∈ neighbors r
               /\ m.2 = {| source := hostname r; type := "OSPF_HELLO" |})
       (sends (thread_observe repr hs (new_thread r)).2).
Proof.
  split.
  - apply (thread_switches_own hs (new_thread r)). by intros rest.
  - apply (visiting_observe hs (new_thread r)). by intros rest.
Qed.

(** X9.  Shutdown is bounded.  For a thread that was started and whose
    [is_running] has been cleared, at any point of any life, six own steps
    plus one per neighbor bring it to the end of [run], whatever the clock
    shows, whatever is in the switch. *)
Theorem shutdown_bound (r : Router) (hs hs' : list happening) :
  let t := (thread_observe repr hs (new_thread r)).1 in
  at_point t <> AtNew ->
  is_running (self t) = false ->
  6 + length (neighbors r) <= length (clocks_of hs') ->
  at_point (thread_observe repr hs' t).1 = AtDone.
Proof.
  simpl. intros Hat Hr Hlen. apply stops_within; [done|done|].
  assert (Hv : visiting (new_thread r)) by (by intros rest).
  apply (visiting_observe hs) in Hv as [Hv _].
  apply visiting_distance in Hv.
  pose proof (thread_observe_identity hs (new_thread r)) as (_ & Hn & _).
  simpl in Hn. rewrite Hn in Hv. lia.
Qed.

(** X10.  One step of a router thread takes nothing from another device's
    mailbox: each mailbox other than its own is what it was, followed by
    the packets the step sent there.  From its own mailbox the step takes
    the oldest packet when it is the receive on line 100, and nothing
    otherwise. *)
Theorem step_leaves_other_mailboxes (c : Clock) (t : Thread)
    (sw : NetworkSwitch) (d : string) :
  let res := thread_step repr c t sw in
  (d <> device_id (self t) ->
   mailbox res.1.2 d = mailbox sw d ++ addressed_to d (sends res.2))
  /\ mailbox res.1.2 (device_id (self t)) =
     (match at_point t with
      | AtReceive => tail (mailbox sw (device_id (self t)))
      | _ => mailbox sw (device_id (self t))
      end) ++ addressed_to (device_id (self t)) (sends res.2).
Proof.
  simpl. rewrite !thread_step_switch, !mailbox_send_all. split.
  - intros Hd. f_equal. destruct (at_point t); try done.
    rewrite mailbox_receive_packet. by rewrite decide_False.
  - f_equal. destruct (at_point t); try done.
    rewrite mailbox_receive_packet. by rewrite decide_True.
Qed.

End Thread_life.

Lemma shutdown_bound_witness :
  at_point (thread_observe repr_plain
              (replicate 7 (Step noon new_switch))
              (thread_observe repr_plain
                 [Started; Step noon new_switch; Step noon new_switch;
                  Step noon new_switch; Step noon new_switch; Stopped]
                 (new_thread R1_router)).1).1 = AtDone.
Proof.
  apply (shutdown_bound repr_plain R1_router
           [Started; Step noon new_switch; Step noon new_switch;
            Step noon new_switch; Step noon new_switch; Stopped]
           (replicate 7 (Step noon new_switch)));
    [discriminate|reflexivity|vm_compute; lia].
Defined.

Lemma router_identity_kept_witness :
  is_running (self (thread_observe repr_plain
                      [Step noon new_switch; Started; Step noon new_switch]
                      (clear_running (new_thread R1_router))).1) = false.
Proof.
  apply (router_identity_kept repr_plain
           [Step noon new_switch; Started; Step noon new_switch]
           (clear_running (new_thread R1_router))).
  reflexivity.
Defined.

Lemma step_leaves_other_mailboxes_witness :
  mailbox (thread_step repr_plain noon
             {| self := R1_router; at_point := AtSend ["R2"];
                last_hello_time := 0%float |}
             (send_all two_senders new_switch)).1.2 "R3"
  = mailbox (send_all two_senders new_switch) "R3"
    ++ addressed_to "R3"
         (sends (thread_step repr_plain noon
                   {| self := R1_router; at_point := AtSend ["R2"];
                      last_hello_time := 0%float |}
                   (send_all two_senders new_switch)).2).
Proof.
  apply (step_leaves_other_mailboxes repr_plain noon
           {| self := R1_router; at_point := AtSend ["R2"];
              last_hello_time := 0%float |}
           (send_all two_senders new_switch) "R3").
  discriminate.
Defined.

(** ** More on the simulation *)

Section Simulation_result.

Variable repr : list string -> string.

Lemma sim_step_length a s :
  length (threads (sim_step repr a s).1) = length (threads s).
Proof.
  destruct a as [j c|]; simpl.
  - destruct (threads s !! j) as [tj|]; [|done].
    destruct (thread_step repr c tj (switch s)) as [[t1 sw1] out1]. simpl.
    apply length_insert.
  - unfold main_step.
    destruct (started s <? length (threads s))%nat; simpl;
      [apply length_alter|].
    destruct (stopped s <? length (threads s))%nat; simpl;
      [apply length_alter|done].
Qed.

Lemma sim_run_length sched s :
  length (threads (sim_run repr sched s).1) = length (threads s).
Proof.
  revert s. induction sched as [|a sched IH]; intros s; [done|].
  cbn [sim_run]. pose proof (sim_step_length a s) as H.
  destruct (sim_step repr a s) as [s1 out1]. specialize (IH s1).
  destruct (sim_run repr sched s1) as [s2 out2]. simpl in *. congruence.
Qed.

Lemma sim_step_ok a s : sim_ok s -> sim_ok (sim_step repr a s).1.
Proof.
  unfold sim_ok. intros Hok. destruct a as [j c|]; simpl.
  - destruct (threads s !! j) as [tj|] eqn:Ej; [|done].
    pose proof (thread_step_not_new repr c tj (switch s)) as Hn.
    pose proof (thread_step_identity repr c tj (switch s)) as (_ & _ & _ & Hr).
    destruct (thread_step repr c tj (switch s)) as [[t1 sw1] out1].
    simpl in *. intros i t Hi.
    apply list_lookup_insert_Some in Hi as [(-> & <- & _)|[Hne Hi]].
    + destruct (Hok _ _ Ej) as [H1 H2]. rewrite Hr. split; auto.
    + by apply Hok.
  - unfold main_step.
    destruct (Nat.ltb_spec (started s) (length (threads s))); simpl.
    { intros i t Hi. rewrite list_lookup_alter in Hi.
      destruct (decide (started s = i)) as [<-|Hne].
      - destruct (threads s !! started s) as [t0|] eqn:E0; [|done].
        injection Hi as <-. destruct (Hok _ _ E0) as [_ H2]. split.
        + intros _. unfold start. by destruct (at_point t0) eqn:E; simpl;
            rewrite ?E.
        + intros Hlt. unfold start.
          destruct (at_point t0); simpl; by apply H2.
      - destruct (Hok _ _ Hi) as [H1 H2]. split; [|done].
        intros Hlt. apply H1. lia. }
    destruct (Nat.ltb_spec (stopped s) (length (threads s))); simpl;
      [|done].
    intros i t Hi. rewrite list_lookup_alter in Hi.
    destruct (decide (stopped s = i)) as [<-|Hne].
    + destruct (threads s !! stopped s) as [t0|] eqn:E0; [|done].
      injection Hi as <-. destruct (Hok _ _ E0) as [H1 _]. by split.
    + destruct (Hok _ _ Hi) as [H1 H2]. split; [done|].
      intros Hlt. apply H2. lia.
Qed.

Lemma sim_run_ok sched s : sim_ok s -> sim_ok (sim_run repr sched s).1.
Proof.
  revert s. induction sched as [|a sched IH]; intros s Hok; [done|].
  cbn [sim_run]. pose proof (sim_step_ok a s Hok) as H.
  destruct (sim_step repr a s) as [s1 out1]. specialize (IH s1 H).
  by destruct (sim_run repr sched s1) as [s2 out2].
Qed.

Lemma joined_finished s :
  sim_ok s -> joined s = true ->
  forall i t, threads s !! i = Some t ->
    at_point t = AtDone /\ is_running (self t) = false.
Proof.
  unfold joined. intros Hok [[Hs Hp]%andb_true_iff Ha]%andb_true_iff i t Hi.
  apply Nat.eqb_eq in Hs, Hp.
  pose proof (lookup_lt_Some _ _ _ Hi) as Hlt.
  destruct (Hok _ _ Hi) as [H1 H2].
  rewrite forallb_forall in Ha.
  specialize (Ha t ltac:(by eapply list_elem_of_In, list_elem_of_lookup_2)).
  split; [|apply H2; lia].
  specialize (H1 ltac:(lia)). unfold is_alive in Ha.
  by destruct (at_point t).
Qed.

Lemma new_routers_lookup devices links i t :
  new_routers devices links !! i = Some t ->
  exists d, d ∈ devices /\ contains_R d.1 = true
    /\ t = new_thread (Router_init d.1 d.2 links).
Proof.
  unfold new_routers.
  change (map ?f ?l) with (f <$> l). rewrite list_lookup_fmap.
  destruct (filter _ devices !! i) as [d|] eqn:E; [|done].
  intros [= <-]. apply list_elem_of_lookup_2, list_elem_of_filter in E.
  exists d. by destruct E.
Qed.

Lemma simulation_result sched (ts : list Thread) sw :
  (forall i t, ts !! i = Some t -> exists r, t = new_thread r /\ log r = []) ->
  let s := (sim_run repr sched
              {| threads := ts; switch := sw; started := 0; stopped := 0 |}).1 in
  joined s = true ->
  Forall2 (finished_as repr) ts (threads s).
Proof.
  intros Hnew s J.
  assert (Hok : sim_ok s).
  { apply sim_run_ok. intros i t _. simpl. split; lia. }
  apply Forall2_same_length_lookup_2.
  { unfold s. by rewrite sim_run_length. }
  intros i t0 t' H0 H'.
  destruct (joined_finished s Hok J i t' H') as [Hat Hr].
  destruct (Hnew i t0 H0) as (r & -> & Hlog).
  destruct (sim_run_thread repr sched
              {| threads := ts; switch := sw; started := 0; stopped := 0 |}
              i _ H0) as (hs & H & _).
  fold s in H. rewrite H' in H. injection H as ->.
  pose proof (thread_observe_identity repr hs (new_thread r))
    as (Hh & Hn & Hd & _).
  assert (Hs : log_shape repr r (new_thread r)) by (by repeat split).
  apply (log_shape_observe repr r hs) in Hs as (_ & _ & Hs).
  rewrite Hat in Hs. by repeat split.
Qed.


End Simulation_result.


(** ** More on [parse_config_file] *)

Lemma dict_get_dict_set {V : Type} (d : dict V) k v k' :
  dict_get (dict_set d k v) k' =
  if String.eqb k k' then Some v else dict_get d k'.
Proof.
  induction d as [|[k0 v0] d IH]; simpl.
  - done.
  - destruct (String.eqb_spec k0 k) as [->|Hne]; simpl.
    + by destruct (String.eqb_spec k k').
    + rewrite IH. destruct (String.eqb_spec k0 k') as [->|Hne'];
        destruct (String.eqb_spec k k') as [->|Hne'']; done.
Qed.

Lemma dict_set_dict_set {V : Type} (d : dict V) k v1 v2 :
  dict_set (dict_set d k v1) k v2 = dict_set d k v2.
Proof.
  induction d as [|[k0 v0] d IH]; simpl.
  - by rewrite String.eqb_refl.
  - destruct (String.eqb_spec k0 k) as [->|Hne]; simpl.
    + by rewrite String.eqb_refl.
    + destruct (String.eqb_spec k0 k); [done|]. by rewrite IH.
Qed.

Lemma dict_get_keys {V : Type} (d : dict V) k :
  is_Some (dict_get d k) <-> k ∈ keys d.
Proof.
  induction d as [|[k0 v0] d IH]; simpl.
  - split; [by intros [? ?]|by intros ?%elem_of_nil].
  - destruct (String.eqb_spec k0 k) as [->|Hne].
    + split; [intros _; left|by eexists].
    + rewrite IH. split; [by right|].
      by intros [?|?]%elem_of_cons.
Qed.

Lemma dict_set_keys {V : Type} (d : dict V) k v :
  keys (dict_set d k v) =
  match dict_get d k with Some _ => keys d | None => keys d ++ [k] end.
Proof.
  induction d as [|[k0 v0] d IH]; simpl; [done|].
  destruct (String.eqb_spec k0 k) as [->|Hne]; simpl; [done|].
  rewrite IH. by destruct (dict_get d k).
Qed.

Lemma dict_set_wf {V : Type} (d : dict V) k v :
  dict_wf d -> dict_wf (dict_set d k v).
Proof.
  unfold dict_wf. rewrite dict_set_keys.
  destruct (dict_get d k) eqn:E; [done|]. intros Hwf.
  apply NoDup_app. split; [done|]. split; [|apply NoDup_singleton].
  intros x Hx ->%list_elem_of_singleton.
  apply dict_get_keys in Hx as [? ?]. congruence.
Qed.

Lemma elem_of_dict_set {V : Type} (d : dict V) k v n e :
  (n, e) ∈ dict_set d k v -> (n = k /\ e = v) \/ (n, e) ∈ d.
Proof.
  induction d as [|[k0 v0] d IH]; simpl.
  - intros [= -> ->]%list_elem_of_singleton. by left.
  - destruct (String.eqb_spec k0 k) as [->|Hne].
    + intros [[= -> ->]|Hin]%elem_of_cons; [by left|]. right. by right.
    + intros [[= -> ->]|Hin]%elem_of_cons; [right; left|].
      destruct (IH Hin) as [?|?]; [by left|]. right. by right.
Qed.

Lemma dict_get_elem_of {V : Type} (d : dict V) k v :
  dict_get d k = Some v -> (k, v) ∈ d.
Proof.
  induction d as [|[k' v'] d IH]; [done|]. simpl.
  destruct (String.eqb_spec k' k) as [->|Hne].
  - intros [= ->]. left.
  - intros H. right. by apply IH.
Qed.

Lemma parse_line_ok line st st' :
  parsing_ok st -> parse_line line st = Ok st' -> parsing_ok st'.
Proof.
  destruct st as [d ci]. intros (ifs & Hifs & Hwf & Hiff & Hci).
  simpl in Hifs, Hci. unfold parse_line, update_interface.
  destruct (startswith (strip line) "hostname").
  { destruct (list_index _ 1); simpl; [|done]. intros [= <-].
    by exists ifs. }
  destruct (startswith (strip line) "interface").
  { destruct (list_index _ 1) as [name|]; simpl; [|done].
    rewrite Hifs. simpl. intros [= <-].
    eexists. split; [done|]. split; [by apply dict_set_wf|]. split.
    - intros n e [[-> ->]|Hin]%elem_of_dict_set; [done|by eapply Hiff].
    - simpl. intros ? [= <-]. rewrite dict_get_dict_set.
      by rewrite String.eqb_refl. }
  destruct (startswith (strip line) "router ospf").
  { intros [= <-]. by exists ifs. }
  destruct (startswith (strip line) "description" && truthy ci) eqn:G.
  { apply andb_true_iff in G as [_ G]. destruct ci as [name|]; [|done].
    destruct (Hci name eq_refl) as [e0 He0].
    rewrite Hifs. simpl. unfold dict_item. rewrite He0. simpl.
    intros [= <-]. eexists. split; [done|].
    split; [by apply dict_set_wf|]. split.
    - intros n e [[-> ->]|Hin]%elem_of_dict_set; [|by eapply Hiff].
      simpl. eapply Hiff. by apply dict_get_elem_of.
    - simpl. intros ? [= <-]. rewrite dict_get_dict_set.
      by rewrite String.eqb_refl. }
  destruct (startswith (strip line) "ip address" && truthy ci) eqn:G'.
  { apply andb_true_iff in G' as [_ G']. destruct ci as [name|]; [|done].
    destruct (Hci name eq_refl) as [e0 He0].
    destruct (list_index _ 2) as [a|]; simpl; [|done].
    rewrite Hifs. simpl. unfold dict_item. rewrite He0. simpl.
    destruct (list_index _ 3) as [m|]; simpl; [|done].
    rewrite dict_get_dict_set, String.eqb_refl. simpl.
    rewrite dict_set_dict_set.
    intros [= <-]. eexists. split; [done|].
    split; [by apply dict_set_wf|]. split.
    - intros n e [[-> ->]|Hin]%elem_of_dict_set; [done|by eapply Hiff].
    - simpl. intros ? [= <-]. rewrite dict_get_dict_set.
      by rewrite String.eqb_refl. }
  intros [= <-]. by exists ifs.
Qed.

Lemma list_index_raises {A : Type} (l : list A) i e :
  list_index l i = Raise e -> e = IndexError.
Proof. unfold list_index. destruct (nth_error l i); [done|]. by intros [= <-]. Qed.

Lemma parse_line_raises line st e :
  parsing_ok st -> parse_line line st = Raise e -> e = IndexError.
Proof.
  destruct st as [d ci]. intros (ifs & Hifs & Hwf & Hiff & Hci).
  simpl in Hifs, Hci. unfold parse_line, update_interface.
  destruct (startswith (strip line) "hostname").
  { destruct (list_index _ 1) eqn:L; simpl; [done|].
    intros [= <-]. by eapply list_index_raises. }
  destruct (startswith (strip line) "interface").
  { destruct (list_index _ 1) as [name|] eqn:L; simpl;
      [|intros [= <-]; by eapply list_index_raises].
    rewrite Hifs. done. }
  destruct (startswith (strip line) "router ospf"); [done|].
  destruct (startswith (strip line) "description" && truthy ci) eqn:G.
  { apply andb_true_iff in G as [_ G]. destruct ci as [name|]; [|done].
    destruct (Hci name eq_refl) as [e0 He0].
    rewrite Hifs. simpl. unfold dict_item. rewrite He0. done. }
  destruct (startswith (strip line) "ip address" && truthy ci) eqn:G'.
  { apply andb_true_iff in G' as [_ G']. destruct ci as [name|]; [|done].
    destruct (Hci name eq_refl) as [e0 He0].
    destruct (list_index _ 2) as [a|] eqn:L2; simpl;
      [|intros [= <-]; by eapply list_index_raises].
    rewrite Hifs. simpl. unfold dict_item. rewrite He0. simpl.
    destruct (list_index _ 3) as [m|] eqn:L3; simpl;
      [|intros [= <-]; by eapply list_index_raises].
    by rewrite dict_get_dict_set, String.eqb_refl. }
  done.
Qed.

Lemma parse_lines_ok lines st st' :
  parsing_ok st -> for_each lines parse_line st = Ok st' -> parsing_ok st'.
Proof.
  revert st. induction lines as [|line lines IH]; intros st Hst;
    cbn [for_each].
  - by intros [= <-].
  - destruct (parse_line line st) as [st1|] eqn:E; [|done].
    apply IH. by eapply parse_line_ok.
Qed.

Lemma parse_lines_raises lines st e :
  parsing_ok st -> for_each lines parse_line st = Raise e -> e = IndexError.
Proof.
  revert st. induction lines as [|line lines IH]; intros st Hst;
    cbn [for_each]; [done|].
  destruct (parse_line line st) as [st1|e1] eqn:E.
  - apply IH. by eapply parse_line_ok.
  - intros [= <-]. by eapply parse_line_raises.
Qed.

Lemma parsing_ok_empty : parsing_ok (empty_device, None).
Proof.
  exists []. split; [done|]. split; [apply NoDup_nil_2|].
  split; [by intros n e ?%elem_of_nil|done].
Qed.

(** X12.  In a device that [parse_config_file] returns, the interface names
    are pairwise distinct and every interface has an address exactly when
    it has a mask; the keys ['hostname'] and ['interfaces'] are always
    there. *)
Theorem parsed_device_wellformed (filepath : string) (lines : list string)
    (id : string) (dev : Device) :
  parse_config_file filepath lines = Ok (id, dev) ->
  dev_hostname dev <> None
  /\ dev_interfaces dev <> None
  /\ dict_wf (interfaces_of dev)
  /\ forall n e, (n, e) ∈ interfaces_of dev ->
       (ip_address e = None <-> subnet_mask e = None).
Proof.
  intros Hrun.
  pose proof (proj1 (parse_config_file_hostname _ _ _ _ Hrun)) as Hh.
  unfold parse_config_file in Hrun. fold empty_device in Hrun.
  destruct (for_each lines parse_line _) as [[d' ci']|] eqn:E; [|done].
  simpl in Hrun. injection Hrun as <- <-.
  apply (parse_lines_ok _ _ _ parsing_ok_empty) in E
    as (ifs & Hifs & Hwf & Hiff & _).
  simpl in Hifs. unfold interfaces_of. rewrite Hifs. simpl.
  split; [done|]. split; [done|]. split; [done|]. exact Hiff.
Qed.

Lemma parsed_device_wellformed_witness :
  dev_hostname R1_device <> None
  /\ dev_interfaces R1_device <> None
  /\ dict_wf (interfaces_of R1_device)
  /\ forall n e, (n, e) ∈ interfaces_of R1_device ->
       (ip_address e = None <-> subnet_mask e = None).
Proof.
  apply (parsed_device_wellformed "Conf/R1/config.dump" R1_conf "R1").
  vm_compute. reflexivity.
Defined.

(** X13.  Given the lines of the dump, that is, once the file is opened and
    decoded, the only exception [parse_config_file] raises is [IndexError],
    from a directive that lacks an argument. *)
Theorem parse_config_file_raises_only_IndexError
    (filepath : string) (lines : list string) (e : exn) :
  parse_config_file filepath lines = Raise e -> e = IndexError.
Proof.
  unfold parse_config_file. fold empty_device.
  destruct (for_each lines parse_line _) as [st|e'] eqn:E; [done|].
  simpl. intros [= <-]. by eapply parse_lines_raises, E; apply parsing_ok_empty.
Qed.

Lemma parse_config_file_raises_only_IndexError_witness :
  parse_config_file "Conf/R1/config.dump"
    ["interface Gi0/1"; " ip address dhcp"] = Raise IndexError
  /\ IndexError = IndexError.
Proof.
  assert (parse_config_file "Conf/R1/config.dump"
            ["interface Gi0/1"; " ip address dhcp"] = Raise IndexError) as H.
  { vm_compute. reflexivity. }
  split; [exact H|].
  exact (parse_config_file_raises_only_IndexError "Conf/R1/config.dump"
           ["interface Gi0/1"; " ip address dhcp"] IndexError H).
Defined.

Lemma for_each_app {A S : Type} (body : A -> S -> result S) xs ys s :
  for_each (xs ++ ys) body s =
  match for_each xs body s with
  | Ok s' => for_each ys body s'
  | Raise e => Raise e
  end.
Proof.
  revert s. induction xs as [|x xs IH]; intros s; simpl; [done|].
  by destruct (body x s).
Qed.

Lemma code_points_nonempty s p : p ∈ code_points s -> p <> "".
Proof.
  revert p. induction s as [|c s IH]; intros p; [by intros ?%elem_of_nil|].
  cbn [code_points]. destruct s as [|c' s'].
  - by intros ->%list_elem_of_singleton.
  - destruct (is_continuation c').
    + destruct (code_points (String c' s')) as [|q qs].
      * by intros ->%list_elem_of_singleton.
      * intros [->|Hin]%elem_of_cons; [done|]. apply IH. by right.
    + intros [->|Hin]%elem_of_cons; [done|by apply IH].
Qed.

Lemma split_points_nonempty ps w :
  (forall p, p ∈ ps -> p <> "") -> w ∈ split_points ps -> w <> "".
Proof.
  induction ps as [|p ps IH]; intros Hps; [by intros ?%elem_of_nil|].
  assert (p <> "") as Hp by (apply Hps; left).
  assert (forall q, q ∈ ps -> q <> "") as Hps' by (intros q ?; apply Hps; by right).
  cbn [split_points]. destruct (is_space p); [by apply IH|].
  destruct ps as [|p' ps'].
  - by intros ->%list_elem_of_singleton.
  - destruct (is_space p').
    + intros [->|Hin]%elem_of_cons; [done|by apply IH].
    + destruct (split_points (p' :: ps')) as [|w' ws].
      * by intros ->%list_elem_of_singleton.
      * intros [->|Hin]%elem_of_cons.
        -- by destruct p.
        -- apply IH; [done|by right].
Qed.

Lemma split_words_nonempty s w : w ∈ split s -> w <> "".
Proof. apply split_points_nonempty, code_points_nonempty. Qed.

Lemma list_index_short {A : Type} (l : list A) i :
  length l <= i -> list_index l i = Raise IndexError.
Proof.
  intros H. unfold list_index.
  by rewrite (proj2 (nth_error_None l i)).
Qed.

Lemma list_index_elem_of {A : Type} (l : list A) i x :
  list_index l i = Ok x -> x ∈ l.
Proof.
  unfold list_index. rewrite nth_error_lookup.
  destruct (l !! i) eqn:E; [|done]. intros [= <-].
  by eapply list_elem_of_lookup_2.
Qed.

Lemma prefix_cons a p b s :
  String.prefix (String a p) (String b s) =
  if Ascii.eqb a b then String.prefix p s else false.
Proof.
  cbn [String.prefix]. destruct (ascii_dec a b) as [->|Hne].
  - by rewrite Ascii.eqb_refl.
  - by destruct (Ascii.eqb_spec a b).
Qed.

Lemma ip_address_line s :
  startswith s "ip address" = true ->
  startswith s "hostname" = false
  /\ startswith s "interface" = false
  /\ startswith s "router ospf" = false
  /\ startswith s "description" = false.
Proof.
  unfold startswith. destruct s as [|c1 [|c2 s]]; [done| |].
  - rewrite prefix_cons. by destruct (Ascii.eqb_spec "i" c1).
  - rewrite !prefix_cons.
    destruct (Ascii.eqb_spec "i" c1) as [<-|]; [|done].
    destruct (Ascii.eqb_spec "p" c2) as [<-|]; [|done]. done.
Qed.

Lemma parse_line_current line st st' :
  parse_line line st = Ok st' ->
  (truthy st.2 = true -> truthy st'.2 = true)
  /\ (startswith (strip line) "interface" = true ->
      startswith (strip line) "hostname" = false ->
      truthy st'.2 = true).
Proof.
  destruct st as [d ci]. unfold parse_line, update_interface. simpl.
  destruct (startswith (strip line) "hostname").
  { destruct (list_index _ 1); simpl; [|done]. by intros [= <-]. }
  destruct (startswith (strip line) "interface").
  { destruct (list_index _ 1) as [name|] eqn:L; simpl; [|done].
    destruct (key_item _ _); simpl; [|done]. intros [= <-]. simpl.
    apply list_index_elem_of, split_words_nonempty in L.
    destruct (String.eqb_spec name ""); done. }
  destruct (startswith (strip line) "router ospf").
  { by intros [= <-]. }
  destruct (startswith (strip line) "description" && truthy ci).
  { destruct (key_item _ _); simpl; [|done].
    destruct (dict_item _ _); simpl; [|done]. by intros [= <-]. }
  destruct (startswith (strip line) "ip address" && truthy ci).
  { destruct (list_index _ 2); simpl; [|done].
    destruct (key_item _ _); simpl; [|done].
    destruct (dict_item _ _); simpl; [|done].
    destruct (list_index _ 3); simpl; [|done].
    destruct (dict_item _ _); simpl; [|done]. by intros [= <-]. }
  by intros [= <-].
Qed.

Lemma parse_lines_current lines st st' :
  for_each lines parse_line st = Ok st' ->
  (truthy st.2 = true
   \/ exists l0, l0 ∈ lines
        /\ startswith (strip l0) "interface" = true
        /\ startswith (strip l0) "hostname" = false) ->
  truthy st'.2 = true.
Proof.
  revert st. induction lines as [|line lines IH]; intros st; cbn [for_each].
  - intros [= <-] [H|(l0 & ?%elem_of_nil & _)]; done.
  - destruct (parse_line line st) as [st1|] eqn:E; [|done].
    apply parse_line_current in E as [E1 E2].
    intros Hrun H. apply (IH _ Hrun).
    destruct H as [H|(l0 & [->|Hin]%elem_of_cons & Hi & Hh)].
    + left. by apply E1.
    + left. by apply E2.
    + right. by exists l0.
Qed.

Lemma bare_directive_raises line st :
  parsing_ok st ->
  (startswith (strip line) "hostname" = true
   /\ length (split (strip line)) < 2)
  \/ (startswith (strip line) "interface" = true
      /\ length (split (strip line)) < 2)
  \/ (startswith (strip line) "ip address" = true
      /\ length (split (strip line)) < 4
      /\ truthy st.2 = true) ->
  parse_line line st = Raise IndexError.
Proof.
  destruct st as [d ci]. intros (ifs & Hifs & Hwf & Hiff & Hci).
  simpl in Hifs, Hci. unfold parse_line, update_interface.
  intros [[Hs Hl]|[[Hs Hl]|(Hs & Hl & Ht)]].
  - rewrite Hs. by rewrite list_index_short by lia.
  - rewrite Hs. destruct (startswith (strip line) "hostname");
      by rewrite list_index_short by lia.
  - destruct (ip_address_line _ Hs) as (-> & -> & -> & ->).
    simpl in Ht. rewrite Hs, Ht. simpl.
    destruct ci as [name|]; [|done].
    destruct (Hci name eq_refl) as [e0 He0].
    destruct (list_index _ 2) as [a|e] eqn:L2; simpl.
    + rewrite Hifs. simpl. unfold dict_item. rewrite He0. simpl.
      unfold list_index in L2. rewrite nth_error_lookup in L2.
      destruct (split (strip line) !! 2) eqn:E2; [|done].
      apply lookup_lt_Some in E2.
      by rewrite list_index_short by lia.
    + by apply list_index_raises in L2 as ->.
Qed.

(** X14.  A directive that lacks its argument makes [parse_config_file]
    fail with [IndexError], wherever it stands in the dump: a [hostname]
    or [interface] line of one word, or, after an [interface] line, an
    [ip address] line of fewer than four words (such as
    [ip address dhcp]). *)
Theorem directive_without_argument_raises (filepath : string)
    (pre post : list string) (line : string) :
  (startswith (strip line) "hostname" = true
   /\ length (split (strip line)) < 2)
  \/ (startswith (strip line) "interface" = true
      /\ length (split (strip line)) < 2)
  \/ (startswith (strip line) "ip address" = true
      /\ length (split (strip line)) < 4
      /\ exists l0, l0 ∈ pre
           /\ startswith (strip l0) "interface" = true
           /\ startswith (strip l0) "hostname" = false) ->
  parse_config_file filepath (pre ++ line :: post) = Raise IndexError.
Proof.
  intros H. unfold parse_config_file. fold empty_device.
  rewrite for_each_app.
  destruct (for_each pre parse_line _) as [st1|e] eqn:E; simpl.
  - pose proof (parse_lines_ok _ _ _ parsing_ok_empty E) as Hok.
    cbn [for_each]. rewrite (bare_directive_raises line st1 Hok); [done|].
    destruct H as [H|[H|(Hs & Hl & Hex)]]; [by left|by right; left|].
    right. right. repeat split; try done.
    apply (parse_lines_current _ _ _ E). by right.
  - by rewrite (parse_lines_raises _ _ _ parsing_ok_empty E).
Qed.

Lemma directive_without_argument_raises_witness :
  parse_config_file "Conf/R1/config.dump"
    (["hostname Router1"; "interface Gi0/1"]
     ++ " ip address dhcp" :: ["router ospf 1"])
  = Raise IndexError.
Proof.
  apply (directive_without_argument_raises "Conf/R1/config.dump"
           ["hostname Router1"; "interface Gi0/1"] ["router ospf 1"]
           " ip address dhcp").
  right. right. split; [reflexivity|]. split; [vm_compute; lia|].
  exists "interface Gi0/1". split; [right; left|]. split; reflexivity.
Defined.

(** ** Paths *)

Lemma string_app_cons c (a b : string) :
  (String c a ++ b)%string = String c (a ++ b).
Proof. reflexivity. Qed.

Lemma string_app_nil_l (b : string) : ("" ++ b)%string = b.
Proof. reflexivity. Qed.

Lemma string_app_assoc (a b c : string) :
  ((a ++ b) ++ c = a ++ (b ++ c))%string.
Proof.
  induction a as [|x a IH]; [done|]. by rewrite !string_app_cons, IH.
Qed.

Lemma string_app_nil_inv (a b : string) :
  (a ++ b)%string = "" -> a = "" /\ b = "".
Proof. by destruct a. Qed.

Lemma has_char_app c (a b : string) :
  has_char c (a ++ b)%string = has_char c a || has_char c b.
Proof.
  induction a as [|x a IH]; [done|].
  rewrite string_app_cons. simpl. by rewrite IH, orb_assoc.
Qed.

Lemma rsplit_sep_no_sep t :
  has_char "/" t = false -> rsplit_sep t = ("", t).
Proof.
  induction t as [|c t IH]; simpl; [done|].
  intros [Hc Ht]%orb_false_elim. rewrite (IH Ht). simpl. by rewrite Hc.
Qed.

Lemma rsplit_sep_app x t :
  has_char "/" t = false ->
  rsplit_sep (x ++ String "/" t) = ((x ++ "/")%string, t).
Proof.
  intros Ht. induction x as [|c x IH].
  - rewrite !string_app_nil_l. simpl. by rewrite (rsplit_sep_no_sep _ Ht).
  - rewrite !string_app_cons. simpl. rewrite IH. by destruct x.
Qed.

Lemma rstrip_sep_nonempty b f :
  f <> "" -> has_char "/" f = false ->
  rstrip_sep (b ++ f) = (b ++ f)%string.
Proof.
  intros Hf Hs. induction b as [|c b IH].
  - rewrite string_app_nil_l. clear Hf.
    induction f as [|c f IH]; [done|]. simpl in *.
    apply orb_false_elim in Hs as [Hc Hs]. rewrite Hc. simpl.
    by rewrite IH.
  - rewrite string_app_cons. simpl. rewrite IH.
    destruct (b ++ f)%string eqn:E.
    + by apply string_app_nil_inv in E as [_ ?].
    + by rewrite andb_false_r.
Qed.

Lemma rstrip_sep_sep y : rstrip_sep (y ++ "/") = rstrip_sep y.
Proof.
  induction y as [|c y IH]; [done|].
  rewrite string_app_cons. simpl. by rewrite IH.
Qed.

Lemma ends_with_sep_cons c s :
  s <> "" -> ends_with_sep (String c s) = ends_with_sep s.
Proof. by destruct s. Qed.

Lemma ends_with_sep_inv s :
  ends_with_sep s = true -> exists s', s = (s' ++ "/")%string.
Proof.
  induction s as [|c s IH]; [done|].
  destruct s as [|c' s].
  - simpl. intros ->%Ascii.eqb_eq. by exists "".
  - rewrite ends_with_sep_cons by done. intros [s' ->]%IH.
    by exists (String c s').
Qed.

Lemma ends_with_sep_app b f :
  f <> "" -> has_char "/" f = false -> ends_with_sep (b ++ f) = false.
Proof.
  intros Hf Hs. induction b as [|c b IH].
  - rewrite string_app_nil_l. clear Hf.
    induction f as [|c f IH]; [done|].
    simpl in Hs. apply orb_false_elim in Hs as [Hc Hs].
    destruct f as [|c' f]; [done|].
    rewrite ends_with_sep_cons by done. by apply IH.
  - rewrite string_app_cons, ends_with_sep_cons; [done|].
    by intros [_ ?]%string_app_nil_inv.
Qed.

Lemma startswith_sep_has_char f :
  has_char "/" f = false -> startswith f "/" = false.
Proof.
  destruct f as [|c f]; [done|]. intros H. simpl in H.
  apply orb_false_elim in H as [Hc _]. unfold startswith.
  rewrite prefix_cons, Ascii.eqb_sym. by rewrite Hc.
Qed.

(** The path of a dump ends in the folder name and the file name. *)
Lemma config_path_shape conf f :
  f <> "" -> has_char "/" f = false ->
  exists base,
    config_path conf f = (base ++ f ++ "/config.dump")%string
    /\ (base = "" \/ exists b, base = (b ++ "/")%string).
Proof.
  intros Hf Hs. unfold config_path. cbn [path_join].
  rewrite (startswith_sep_has_char _ Hs).
  change (startswith "config.dump" "/") with false. cbv iota.
  assert (forall b, String.eqb (b ++ f) "" || ends_with_sep (b ++ f) = false)
    as He.
  { intros b. rewrite (ends_with_sep_app _ _ Hf Hs), orb_false_r.
    apply String.eqb_neq. by intros [_ ?]%string_app_nil_inv. }
  destruct (String.eqb_spec conf "") as [->|Hc]; simpl.
  - rewrite (He ""). exists "". split; [|by left].
    by rewrite string_app_nil_l.
  - destruct (ends_with_sep conf) eqn:E.
    + rewrite He. apply ends_with_sep_inv in E as [s' ->].
      exists (s' ++ "/")%string. split; [|right; by exists s'].
      by rewrite !string_app_assoc.
    + rewrite <- string_app_assoc, He. exists (conf ++ "/")%string.
      split; [|right; by exists conf]. by rewrite !string_app_assoc.
Qed.

Lemma device_id_of_path base f :
  f <> "" -> has_char "/" f = false ->
  base = "" \/ (exists b, base = (b ++ "/")%string) ->
  basename (dirname (base ++ f ++ "/config.dump")) = f.
Proof.
  intros Hf Hs Hb.
  assert (dirname (base ++ f ++ "/config.dump") = (base ++ f)%string) as ->.
  { unfold dirname. rewrite <- string_app_assoc.
    change "/config.dump" with (String "/" "config.dump").
    rewrite rsplit_sep_app by done. cbn [fst].
    rewrite rstrip_sep_sep, (rstrip_sep_nonempty _ _ Hf Hs).
    assert (String.eqb (base ++ f) "" = false) as ->.
    { apply String.eqb_neq. by intros [_ ?]%string_app_nil_inv. }
    assert (String.eqb ((base ++ f) ++ "/") "" = false) as ->; [|done].
    apply String.eqb_neq. by intros [_ ?]%string_app_nil_inv. }
  unfold basename. destruct Hb as [->|[b ->]].
  - by rewrite string_app_nil_l, rsplit_sep_no_sep.
  - rewrite string_app_assoc, string_app_cons, string_app_nil_l.
    by rewrite rsplit_sep_app.
Qed.

Lemma parse_config_file_id conf f lines id dev :
  f <> "" -> has_char "/" f = false ->
  parse_config_file (config_path conf f) lines = Ok (id, dev) -> id = f.
Proof.
  intros Hf Hs. destruct (config_path_shape conf f Hf Hs) as (base & -> & Hb).
  unfold parse_config_file.
  destruct (for_each lines parse_line _) as [st|]; [|done]. simpl.
  intros [= <- _]. by apply device_id_of_path.
Qed.

(** X15.  The device id that [parse_config_file] returns for the dump of a
    folder of the configuration directory is the name of that folder,
    whatever the directory and the lines of the dump. *)
Theorem device_id_is_folder_name (conf_dir device_folder : string)
    (lines : list string) (id : string) (dev : Device) :
  device_folder <> "" -> has_char "/" device_folder = false ->
  parse_config_file (path_join conf_dir [device_folder; "config.dump"]) lines
    = Ok (id, dev) ->
  id = device_folder.
Proof. apply parse_config_file_id. Qed.

Lemma device_id_is_folder_name_witness :
  parse_config_file (path_join "/p/Conf" ["R1"; "config.dump"]) R1_conf
    = Ok ("R1", R1_device)
  /\ "R1" = "R1".
Proof.
  assert (parse_config_file (path_join "/p/Conf" ["R1"; "config.dump"]) R1_conf
            = Ok ("R1", R1_device)) as H.
  { vm_compute. reflexivity. }
  split; [exact H|].
  by apply (device_id_is_folder_name "/p/Conf" "R1" R1_conf "R1" R1_device).
Defined.
(** ** [load_configurations] *)

Lemma parse_config_file_parsing_ok filepath lines id dev :
  parse_config_file filepath lines = Ok (id, dev) ->
  dict_wf (interfaces_of dev)
  /\ forall n e, (n, e) ∈ interfaces_of dev ->
       (ip_address e = None <-> subnet_mask e = None).
Proof.
  unfold parse_config_file. fold empty_device.
  destruct (for_each lines parse_line _) as [[d' ci']|] eqn:E; [|done].
  simpl. intros [= _ <-].
  apply (parse_lines_ok _ _ _ parsing_ok_empty) in E
    as (ifs & Hifs & Hwf & Hiff & _).
  simpl in Hifs. unfold interfaces_of. rewrite Hifs. simpl.
  split; [done|]. exact Hiff.
Qed.


Lemma load_folder_ok fs conf f acc acc' :
  loaded_ok acc -> load_folder fs conf f acc = Ok acc' -> loaded_ok acc'.
Proof.
  intros [Hwf Hdev]. unfold load_folder. cbv zeta.
  destruct (isfile fs _); [|by intros [= <-]].
  destruct (parse_config_file _ _) as [[id dev]|] eqn:E; [|done]. simpl.
  destruct (negb (String.eqb id "")); intros [= <-]; [|done].
  split; [by apply dict_set_wf|].
  intros id' dev' [[-> ->]|Hin]%elem_of_dict_set.
  - by eapply parse_config_file_parsing_ok.
  - by eapply Hdev.
Qed.


Lemma load_loop_ok fs conf l acc acc' :
  loaded_ok acc -> for_each l (load_folder fs conf) acc = Ok acc' ->
  loaded_ok acc'.
Proof.
  revert acc. induction l as [|f l IH]; intros acc Hacc; cbn [for_each].
  - by intros [= <-].
  - destruct (load_folder fs conf f acc) as [acc1|] eqn:E; [|done].
    apply IH. by eapply load_folder_ok.
Qed.

Lemma loaded_ok_nil : loaded_ok [].
Proof. split; [apply NoDup_nil_2|]. by intros id dev ?%elem_of_nil. Qed.

Lemma load_configurations_ok fs script_path devices out :
  load_configurations fs script_path = (Ok devices, out) -> loaded_ok devices.
Proof.
  unfold load_configurations. cbv zeta. destruct (negb (isdir fs _)).
  - intros [= <- _]. apply loaded_ok_nil.
  - intros [= H _]. by eapply load_loop_ok, H; apply loaded_ok_nil.
Qed.


Lemma loaded_ok_build_topology devices :
  loaded_ok devices ->
  devices_wf devices /\ masks_present devices
  /\ exists links, build_topology devices = Ok links.
Proof.
  intros [Hwf Hdev].
  assert (masks_present devices) as Hm.
  { intros id dev n e Hin Hif Ha Hmask.
    destruct (Hdev _ _ Hin) as [_ Hiff]. by apply Ha, (Hiff _ _ Hif). }
  split; [split; [done|]; intros id dev Hin; by apply (Hdev _ _ Hin)|].
  split; [done|]. by apply build_topology_returns.
Qed.

(** X16.  What [load_configurations] returns is a dict of dicts in which
    every interface that has an address has a mask, so [build_topology]
    returns on it: the [KeyError] of a missing mask cannot happen in
    [main]. *)
Theorem loaded_devices_build_topology (fs : FileSystem)
    (script_path : string) (devices : dict Device) (out : list string) :
  load_configurations fs script_path = (Ok devices, out) ->
  devices_wf devices /\ masks_present devices
  /\ exists links, build_topology devices = Ok links.
Proof.
  intros H. by eapply loaded_ok_build_topology, load_configurations_ok.
Qed.

Lemma loaded_devices_build_topology_witness :
  load_configurations demo_fs demo_script = (Ok scenario, [])
  /\ devices_wf scenario /\ masks_present scenario
  /\ exists links, build_topology scenario = Ok links.
Proof.
  assert (load_configurations demo_fs demo_script = (Ok scenario, [])) as H.
  { vm_compute. reflexivity. }
  split; [exact H|].
  exact (loaded_devices_build_topology demo_fs demo_script scenario [] H).
Defined.

Lemma load_loop_keys fs conf l acc devices :
  (forall f, f ∈ l -> f <> "" /\ has_char "/" f = false) ->
  NoDup l -> (forall f, f ∈ l -> f ∉ keys acc) ->
  for_each l (load_folder fs conf) acc = Ok devices ->
  keys devices
    = keys acc ++ filter (fun f => isfile fs (config_path conf f) = true) l
  /\ (forall k, k ∈ keys acc -> dict_get devices k = dict_get acc k)
  /\ forall f, f ∈ l -> isfile fs (config_path conf f) = true ->
       exists dev,
         parse_config_file (config_path conf f)
           (read_lines fs (config_path conf f)) = Ok (f, dev)
         /\ dict_get devices f = Some dev.
Proof.
  revert acc. induction l as [|f l IH]; intros acc Hn Hnd Hfresh;
    cbn [for_each].
  - intros [= <-]. rewrite app_nil_r. split; [done|]. split; [done|].
    by intros f ?%elem_of_nil.
  - unfold load_folder at 1. cbv zeta. fold (config_path conf f).
    apply NoDup_cons in Hnd as [Hf Hnd].
    destruct (Hn f) as [Hne Hs]; [left|].
    assert (forall g, g ∈ l -> g <> "" /\ has_char "/" g = false) as Hn'.
    { intros g Hg. apply Hn. by right. }
    destruct (isfile fs (config_path conf f)) eqn:Efile.
    + destruct (parse_config_file _ _) as [[id dev]|] eqn:E; [|done].
      pose proof (parse_config_file_id _ _ _ _ _ Hne Hs E) as ->.
      simpl. apply String.eqb_neq in Hne. rewrite Hne. simpl.
      assert (dict_get acc f = None) as Hnone.
      { destruct (dict_get acc f) eqn:G; [|done].
        exfalso. apply (Hfresh f); [left|]. apply dict_get_keys. by eexists. }
      intros Hrun. apply IH in Hrun as (Hk & Hold & Hnew); [|done..|].
      * rewrite dict_set_keys, Hnone in Hk.
        assert (dict_get devices f = Some dev) as Hgf.
        { rewrite Hold.
          - by rewrite dict_get_dict_set, String.eqb_refl.
          - rewrite dict_set_keys, Hnone. apply elem_of_app. right. left. }
        split; [|split].
        -- rewrite filter_cons_True by done. by rewrite Hk, <- app_assoc.
        -- intros k Hin. rewrite Hold.
           ++ rewrite dict_get_dict_set.
              destruct (String.eqb_spec f k) as [<-|?]; [|done].
              exfalso. apply (Hfresh f); [left|done].
           ++ rewrite dict_set_keys, Hnone. apply elem_of_app. by left.
        -- intros g [->|Hg]%elem_of_cons Hfile; [by exists dev|].
           by apply Hnew.
      * intros g Hg. rewrite dict_set_keys, Hnone.
        intros [Hin|Hin]%elem_of_app.
        -- apply (Hfresh g); [by right|done].
        -- apply list_elem_of_singleton in Hin as ->. done.
    + intros Hrun. apply IH in Hrun as (Hk & Hold & Hnew); [|done..|].
      * split; [|split; [done|]].
        -- rewrite filter_cons_False; [done|]. by rewrite Efile.
        -- intros g [->|Hg]%elem_of_cons Hfile; [congruence|].
           by apply Hnew.
      * intros g Hg. apply Hfresh. by right.
Qed.

(** X17.  When the configuration directory exists, the devices that
    [load_configurations] returns are, in the order of the listing, the
    folders that hold a file [config.dump], each under the name of its
    folder and with the details parsed from that file; nothing is
    printed. *)
Theorem loaded_devices_are_the_dumps (fs : FileSystem)
    (script_path : string) (devices : dict Device) (out : list string) :
  let conf_dir := conf_dir_of script_path in
  isdir fs conf_dir = true ->
  folder_names (listdir fs conf_dir) ->
  load_configurations fs script_path = (Ok devices, out) ->
  out = []
  /\ keys devices
     = filter (fun f => isfile fs (config_path conf_dir f) = true)
         (listdir fs conf_dir)
  /\ forall f, f ∈ keys devices ->
       exists dev,
         parse_config_file (config_path conf_dir f)
           (read_lines fs (config_path conf_dir f)) = Ok (f, dev)
         /\ dict_get devices f = Some dev.
Proof.
  intros conf_dir Hdir [Hnd Hn]. unfold load_configurations. cbv zeta.
  fold conf_dir. rewrite Hdir. simpl. intros [= Hrun <-].
  apply load_loop_keys in Hrun as (Hk & _ & Hnew); [|done..|].
  - simpl in Hk. split; [done|]. split; [done|].
    intros f Hf. rewrite Hk in Hf.
    apply list_elem_of_filter in Hf as [Hfile Hf]. by apply Hnew.
  - intros f _ ?%elem_of_nil. done.
Qed.

Lemma loaded_devices_are_the_dumps_witness :
  let conf_dir := conf_dir_of demo_script in
  [] = ([] : list string)
  /\ keys scenario
     = filter (fun f => isfile demo_fs (config_path conf_dir f) = true)
         (listdir demo_fs conf_dir)
  /\ forall f, f ∈ keys scenario ->
       exists dev,
         parse_config_file (config_path conf_dir f)
           (read_lines demo_fs (config_path conf_dir f)) = Ok (f, dev)
         /\ dict_get scenario f = Some dev.
Proof.
  apply (loaded_devices_are_the_dumps demo_fs demo_script scenario []).
  - reflexivity.
  - split; [by apply (bool_decide_unpack _)|].
    intros f Hf. vm_compute in Hf.
    repeat (apply elem_of_cons in Hf as [->|Hf]; [done|]).
    by apply elem_of_nil in Hf.
  - vm_compute. reflexivity.
Defined.
(** ** [main] *)

Lemma bracketed_log_entry s h m : bracketed (log_entry s h m) = true.
Proof.
  unfold bracketed, log_entry, startswith.
  rewrite string_app_cons, prefix_cons. simpl.
  by destruct (_ ++ _)%string.
Qed.

Lemma busy_not_bracketed : bracketed busy_message = true -> False.
Proof. intros H. vm_compute in H. done. Qed.

Lemma busy_not_newline x : busy_message = (newline ++ x)%string -> False.
Proof. intros H. discriminate H. Qed.

Lemma busy_not_link_line l : busy_message = link_line l -> False.
Proof.
  intros H. symmetry in H. apply (f_equal (has_char "(")) in H. unfold link_line in H.
  rewrite !has_char_app in H. simpl in H. rewrite !orb_true_r in H.
  vm_compute in H. done.
Qed.

Lemma printed_app a b : printed (a ++ b) = printed a ++ printed b.
Proof. apply flat_map_app. Qed.

Lemma printed_map_pair (i : nat) out : printed (map (pair i) out) = prints out.
Proof.
  induction out as [|e out IH]; [done|]. simpl. by rewrite IH.
Qed.

Section Main_loop.

Variable repr : list string -> string.

Lemma thread_step_prints c t sw :
  Forall (fun l => bracketed l = true) (prints (thread_step repr c t sw).2).
Proof.
  unfold thread_step.
  destruct (at_point t) as [| | | | |[|n rest]| | |]; simpl;
    try (destruct (is_running (self t)));
    try (destruct (receive_packet sw (device_id (self t))) as [[p|] sw']);
    try (destruct (hello_due c t)); simpl;
    repeat first [apply Forall_nil_2
                 |apply Forall_cons_2; [apply bracketed_log_entry|]].
Qed.

Lemma sim_step_logs a s :
  Forall log_lines (threads s) ->
  Forall log_lines (threads (sim_step repr a s).1)
  /\ Forall (fun l => bracketed l = true) (printed (sim_step repr a s).2).
Proof.
  intros Hs. destruct a as [i c|]; simpl.
  - destruct (threads s !! i) as [t|] eqn:Ei; [|by split].
    pose proof (thread_step_log repr c t (switch s)) as Hlog.
    pose proof (thread_step_prints c t (switch s)) as Hp.
    destruct (thread_step repr c t (switch s)) as [[t1 sw1] out1].
    simpl in *. rewrite printed_map_pair. split; [|done].
    apply Forall_insert; [done|]. unfold log_lines. rewrite Hlog.
    apply Forall_app. split; [|done].
    by apply (Forall_lookup_1 _ _ _ _ Hs Ei).
  - split; [|constructor]. unfold main_step.
    destruct (started s <? length (threads s))%nat; simpl.
    { apply Forall_alter; [done|]. intros t _ Ht. unfold log_lines, start.
      by destruct (at_point t). }
    destruct (stopped s <? length (threads s))%nat; simpl; [|done].
    by apply Forall_alter.
Qed.

Lemma sim_run_logs sched s :
  Forall log_lines (threads s) ->
  Forall log_lines (threads (sim_run repr sched s).1)
  /\ Forall (fun l => bracketed l = true) (printed (sim_run repr sched s).2).
Proof.
  revert s. induction sched as [|a sched IH]; intros s Hs; cbn [sim_run].
  - split; [done|constructor].
  - destruct (sim_step_logs a s Hs) as [H1 P1].
    destruct (sim_step repr a s) as [s1 out1]. simpl in H1, P1.
    destruct (IH s1 H1) as [H2 P2].
    destruct (sim_run repr sched s1) as [s2 out2]. simpl in *.
    split; [done|]. rewrite printed_app. by apply Forall_app.
Qed.

Lemma new_routers_logs devices links :
  Forall log_lines (new_routers devices links).
Proof.
  apply Forall_forall. intros t Ht.
  apply list_elem_of_lookup_1 in Ht as [i Hi].
  apply new_routers_lookup in Hi as (d & _ & _ & ->). constructor.
Qed.

Lemma choice_2_at_rest sched st st' out :
  at_rest st -> choice_2 repr sched st = Some (st', out) ->
  at_rest st' /\ busy_message ∉ out.
Proof.
  intros [Ha Hl] Hrun.
  pose proof (choice_2_joined repr sched st st' out Ha Hrun) as Ha'.
  unfold choice_2 in Hrun. rewrite Ha in Hrun.
  pose proof (sim_run_logs sched
    {| threads := new_routers (network_devices_data st) (topology st);
       switch := network_switch st; started := 0; stopped := 0 |}
    (new_routers_logs _ _)) as [H1 H2].
  destruct (sim_run repr sched _) as [s trace]. simpl in H1, H2.
  destruct (joined s); [|done]. injection Hrun as <- <-.
  split; [by split|].
  intros [H|[H|H]%elem_of_app]%elem_of_cons.
  - by apply busy_not_newline in H.
  - rewrite Forall_forall in H2. by apply H2, busy_not_bracketed in H.
  - by apply list_elem_of_singleton in H.
Qed.

Lemma choice_2_partial_not_busy sched st :
  busy_message ∉ choice_2_partial repr sched st.
Proof.
  unfold choice_2_partial.
  pose proof (sim_run_logs sched
    {| threads := new_routers (network_devices_data st) (topology st);
       switch := network_switch st; started := 0; stopped := 0 |}
    (new_routers_logs _ _)) as [_ H2].
  intros [H|H]%elem_of_cons.
  - by apply busy_not_newline in H.
  - rewrite Forall_forall in H2. by apply H2, busy_not_bracketed in H.
Qed.

End Main_loop.
(** ** Sorting by hostname (line 178) *)

Lemma ltb_false_le a b : String.ltb a b = false -> String.le b a.
Proof.
  unfold String.ltb, String.le, String.leb.
  rewrite (String.compare_antisym b a).
  by destruct (String.compare a b).
Qed.

Lemma ltb_true_le a b : String.ltb a b = true -> String.le a b.
Proof.
  unfold String.ltb, String.le, String.leb. by destruct (String.compare a b).
Qed.

Lemma ltb_irrefl a : String.ltb a a = false.
Proof.
  unfold String.ltb. pose proof (String.compare_antisym a a) as H.
  by destruct (String.compare a a).
Qed.

Lemma insert_by_hostname_perm t l : insert_by_hostname t l ≡ₚ t :: l.
Proof.
  induction l as [|u l IH]; simpl; [done|].
  destruct (String.ltb _ _); [|done].
  rewrite IH. apply Permutation_swap.
Qed.

Lemma sort_by_hostname_perm l : sort_by_hostname l ≡ₚ l.
Proof.
  induction l as [|t l IH]; simpl; [done|].
  by rewrite insert_by_hostname_perm, IH.
Qed.

Lemma insert_by_hostname_sorted t l :
  StronglySorted hostname_le l ->
  StronglySorted hostname_le (insert_by_hostname t l).
Proof.
  induction l as [|u l IH]; simpl.
  - intros _. repeat constructor.
  - intros [Hl Hu]%StronglySorted_inv.
    destruct (String.ltb _ _) eqn:E.
    + constructor; [by apply IH|].
      rewrite insert_by_hostname_perm. constructor; [|done].
      by apply ltb_true_le.
    + apply ltb_false_le in E. constructor; [by constructor|].
      constructor; [done|].
      eapply Forall_impl; [exact Hu|]. intros x Hx. unfold hostname_le in *.
      by etrans.
Qed.

Lemma sort_by_hostname_sorted l :
  StronglySorted hostname_le (sort_by_hostname l).
Proof.
  induction l as [|t l IH]; simpl; [constructor|].
  by apply insert_by_hostname_sorted.
Qed.

Lemma insert_by_hostname_stable k t l :
  filter (fun u => hostname_key u = k) (insert_by_hostname t l)
  = filter (fun u => hostname_key u = k) (t :: l).
Proof.
  induction l as [|u l IH]; simpl; [done|].
  destruct (String.ltb _ _) eqn:E; [|done].
  rewrite !filter_cons, IH, !filter_cons.
  destruct (decide (hostname_key u = k)) as [Hu|Hu];
    destruct (decide (hostname_key t = k)) as [Ht|Ht]; try done.
  rewrite Hu, Ht, ltb_irrefl in E. done.
Qed.

Lemma sort_by_hostname_stable k l :
  filter (fun u => hostname_key u = k) (sort_by_hostname l)
  = filter (fun u => hostname_key u = k) l.
Proof.
  induction l as [|t l IH]; simpl; [done|].
  by rewrite insert_by_hostname_stable, !filter_cons, IH.
Qed.

Lemma sorted_by_hostname_strings l :
  existsb hostname_is_none l = false ->
  sorted_by_hostname l = Some (sort_by_hostname l).
Proof.
  intros H. unfold sorted_by_hostname. rewrite H.
  by destruct l as [|a [|b l]].
Qed.

Lemma sorted_by_hostname_perm l sorted :
  sorted_by_hostname l = Some sorted -> sorted ≡ₚ l.
Proof.
  unfold sorted_by_hostname. destruct l as [|a [|b l]]; try by intros [= <-].
  destruct (existsb _ _); [done|]. intros [= <-].
  exact (sort_by_hostname_perm (a :: b :: l)).
Qed.

(** X18.  Choice 3 on routers whose hostnames are all strings prints the
    header and then, for each router, its title line and its log; the
    routers come in ascending order of hostname, and routers with the same
    hostname keep the order of the router list. *)
Theorem view_logs_in_hostname_order (st : MainState) :
  router_threads st <> [] ->
  existsb hostname_is_none (router_threads st) = false ->
  exists sorted,
    choice_3 st
      = ((newline ++ "--- Last Simulation Logs ---")%string
         :: flat_map log_report sorted, None)
    /\ sorted ≡ₚ router_threads st
    /\ StronglySorted hostname_le sorted
    /\ forall k,
         filter (fun t => hostname_key t = k) sorted
         = filter (fun t => hostname_key t = k) (router_threads st).
Proof.
  intros Hne Hs. exists (sort_by_hostname (router_threads st)).
  split; [|split; [apply sort_by_hostname_perm|]].
  - unfold choice_3. rewrite (sorted_by_hostname_strings _ Hs).
    by destruct (router_threads st).
  - split; [apply sort_by_hostname_sorted|].
    intros k. apply sort_by_hostname_stable.
Qed.

Lemma view_logs_in_hostname_order_witness :
  exists sorted,
    choice_3 demo_after
      = ((newline ++ "--- Last Simulation Logs ---")%string
         :: flat_map log_report sorted, None)
    /\ sorted ≡ₚ router_threads demo_after
    /\ StronglySorted hostname_le sorted
    /\ forall k,
         filter (fun t => hostname_key t = k) sorted
         = filter (fun t => hostname_key t = k) (router_threads demo_after).
Proof.
  apply (view_logs_in_hostname_order demo_after).
  - vm_compute. discriminate.
  - vm_compute. reflexivity.
Defined.
(** ** The menu loop *)

Lemma choice_3_not_busy st :
  Forall log_lines (router_threads st) -> busy_message ∉ (choice_3 st).1.
Proof.
  intros Hl. unfold choice_3.
  destruct (router_threads st) as [|t0 ts] eqn:Ets.
  { simpl. intros H%list_elem_of_singleton. by apply busy_not_newline in H. }
  rewrite <- Ets in *. clear Ets t0 ts.
  destruct (sorted_by_hostname (router_threads st)) as [sorted|] eqn:Es; simpl.
  - intros [H|H]%elem_of_cons; [by apply busy_not_newline in H|].
    apply list_elem_of_In, in_flat_map in H as (t & Ht & H).
    apply list_elem_of_In in Ht, H.
    rewrite (sorted_by_hostname_perm _ _ Es) in Ht.
    unfold log_report in H. apply elem_of_cons in H as [H|H].
    + by apply busy_not_newline in H.
    + rewrite Forall_forall in Hl. specialize (Hl t Ht).
      unfold log_lines in Hl. rewrite Forall_forall in Hl.
      by apply Hl, busy_not_bracketed in H.
  - intros H%list_elem_of_singleton. by apply busy_not_newline in H.
Qed.


Lemma busy_not_in_menu : busy_message ∉ menu.
Proof.
  unfold menu. intros H.
  apply elem_of_cons in H as [H|H]; [by apply busy_not_newline in H|].
  repeat (apply elem_of_cons in H as [H|H]; [discriminate H|]).
  by apply elem_of_nil in H.
Qed.

Lemma choice_1_not_busy st : busy_message ∉ choice_1 st.
Proof.
  unfold choice_1. intros [H|H]%elem_of_cons.
  - by apply busy_not_newline in H.
  - apply list_elem_of_fmap_1 in H as (l & H & _).
    by apply busy_not_link_line in H.
Qed.

Section Main_theorems.

Variable repr : list string -> string.

Lemma main_loop_not_busy inputs st :
  at_rest st -> busy_message ∉ (main_loop repr inputs st).1.1.
Proof.
  revert st. induction inputs as [|[choice sched] inputs IH]; intros st Hst;
    cbn [main_loop].
  - apply busy_not_in_menu.
  - destruct (String.eqb choice "1").
    { specialize (IH st Hst).
      destruct (main_loop repr inputs st) as [[out e] st']. cbn [fst] in *.
      intros [H|[H|H]%elem_of_app]%elem_of_app; [|by apply choice_1_not_busy in H|done].
      by apply busy_not_in_menu in H. }
    destruct (String.eqb choice "2").
    { destruct (choice_2 repr sched st) as [[st1 out2]|] eqn:E2.
      - apply (choice_2_at_rest repr sched st st1 out2 Hst) in E2 as [H1 H2].
        specialize (IH st1 H1).
        destruct (main_loop repr inputs st1) as [[out e] st']. cbn [fst] in *.
        intros [H|[H|H]%elem_of_app]%elem_of_app; [|done..].
        by apply busy_not_in_menu in H.
      - cbn [fst]. intros [H|H]%elem_of_app.
        + by apply busy_not_in_menu in H.
        + by apply choice_2_partial_not_busy in H. }
    destruct (String.eqb choice "3").
    { pose proof (choice_3_not_busy st (proj2 Hst)) as H3.
      destruct (choice_3 st) as [out3 [f|]]; cbn [fst] in *.
      - intros [H|H]%elem_of_app; [|done]. by apply busy_not_in_menu in H.
      - specialize (IH st Hst).
        destruct (main_loop repr inputs st) as [[out e] st']. cbn [fst] in *.
        intros [H|[H|H]%elem_of_app]%elem_of_app; [|done..].
        by apply busy_not_in_menu in H. }
    destruct (String.eqb choice "4"); cbn [fst].
    { intros [H|H]%elem_of_app; [by apply busy_not_in_menu in H|].
      by apply list_elem_of_singleton in H. }
    specialize (IH st Hst).
    destruct (main_loop repr inputs st) as [[out e] st']. cbn [fst] in *.
    intros [H|[H|H]%elem_of_cons]%elem_of_app; [| |done].
    + by apply busy_not_in_menu in H.
    + discriminate H.
Qed.


Lemma initial_at_rest devices links :
  at_rest {| network_devices_data := devices; topology := links;
             router_threads := []; network_switch := new_switch |}.
Proof. split; [done|constructor]. Qed.

Lemma load_configurations_not_busy fs script_path :
  busy_message ∉ (load_configurations fs script_path).2.
Proof.
  unfold load_configurations. cbv zeta.
  destruct (negb (isdir fs _)); simpl.
  - intros H%list_elem_of_singleton. discriminate H.
  - apply not_elem_of_nil.
Qed.


(** X20.  [main] never prints the refusal of choice 2, whatever the files,
    the inputs and the schedules: between two menu choices no router
    thread is alive. *)
Theorem main_never_refuses (fs : FileSystem) (script_path : string)
    (inputs : list (string * list action)) :
  busy_message ∉ (main repr fs script_path inputs).1.
Proof.
  unfold main. pose proof (load_configurations_not_busy fs script_path) as H0.
  destruct (load_configurations fs script_path) as [[devices|e] out0] eqn:L;
    simpl in H0; [|done].
  destruct devices as [|d devices]; [done|].
  destruct (build_topology (d :: devices)) as [links|]; [|done].
  pose proof (main_loop_not_busy inputs _
                (initial_at_rest (d :: devices) links)) as H.
  destruct (main_loop repr inputs _) as [[out1 e1] st']. simpl in *.
  by intros [?|?]%elem_of_app.
Qed.

(** X21.  The menu loop never changes the devices nor the topology: the
    links are computed once, before the first menu, and every simulation
    runs on them. *)
Theorem main_loop_keeps_topology (inputs : list (string * list action))
    (st : MainState) :
  network_devices_data (main_loop repr inputs st).2 = network_devices_data st
  /\ topology (main_loop repr inputs st).2 = topology st.
Proof.
  revert st. induction inputs as [|[choice sched] inputs IH]; intros st;
    cbn [main_loop]; [done|].
  destruct (String.eqb choice "1").
  { specialize (IH st).
    by destruct (main_loop repr inputs st) as [[out e] st']. }
  destruct (String.eqb choice "2").
  { destruct (choice_2 repr sched st) as [[st1 out2]|] eqn:E2; [|done].
    assert (network_devices_data st1 = network_devices_data st
            /\ topology st1 = topology st) as [<- <-].
    { unfold choice_2 in E2.
      destruct (existsb is_alive _); [by injection E2 as <- _|].
      destruct (sim_run _ _ _) as [s trace].
      destruct (joined s); [|done]. by injection E2 as <- _. }
    specialize (IH st1).
    by destruct (main_loop repr inputs st1) as [[out e] st']. }
  destruct (String.eqb choice "3").
  { destruct (choice_3 st) as [out3 [f'|]]; [done|].
    specialize (IH st).
    by destruct (main_loop repr inputs st) as [[out e] st']. }
  destruct (String.eqb choice "4"); [done|].
  specialize (IH st).
  by destruct (main_loop repr inputs st) as [[out e] st'].
Qed.

Lemma choice_2_routers sched st st' out :
  existsb is_alive (router_threads st) = false ->
  choice_2 repr sched st = Some (st', out) ->
  Forall2 (finished_as repr)
    (new_routers (network_devices_data st) (topology st))
    (router_threads st').
Proof.
  unfold choice_2. intros ->.
  pose proof (simulation_result repr sched
                (new_routers (network_devices_data st) (topology st))
                (network_switch st)) as H.
  cbv zeta in H.
  destruct (sim_run repr sched _) as [s trace]. simpl in H.
  destruct (joined s) eqn:J; [|done]. intros [= <- _]. simpl.
  apply H; [|done].
  intros i t (d & _ & _ & ->)%new_routers_lookup. by eexists.
Qed.

(** X22.  After a simulation with two or more routers, one of them made
    from a device whose ['hostname'] is [None] (a dump without a hostname
    line), choice 3 prints the header and fails with [TypeError]: no log
    is shown. *)
Theorem view_logs_fails_without_hostname (sched : list action)
    (st st' : MainState) (out : list string) (id : string) (dev : Device) :
  existsb is_alive (router_threads st) = false ->
  choice_2 repr sched st = Some (st', out) ->
  2 <= length (new_routers (network_devices_data st) (topology st)) ->
  (id, dev) ∈ network_devices_data st ->
  contains_R id = true ->
  dev_hostname dev = Some PyNone ->
  choice_3 st'
  = ([(newline ++ "--- Last Simulation Logs ---")%string], Some TypeError).
Proof.
  intros Ha Hrun Hlen Hin HR Hh.
  pose proof (choice_2_routers sched st st' out Ha Hrun) as HF.
  pose proof (Forall2_length _ _ _ HF) as Hl.
  assert (new_thread (Router_init id dev (topology st))
            ∈ new_routers (network_devices_data st) (topology st)) as H0.
  { unfold new_routers.
    apply (list_elem_of_fmap_2
             (fun d => new_thread (Router_init d.1 d.2 (topology st)))
             _ (id, dev)).
    by apply list_elem_of_filter. }
  apply list_elem_of_lookup_1 in H0 as [i Hi].
  destruct (Forall2_lookup_l _ _ _ _ _ HF Hi) as (t' & Hi' & Hfin).
  destruct Hfin as (_ & Hhost & _). simpl in Hhost. rewrite Hh in Hhost.
  simpl in Hhost.
  assert (existsb hostname_is_none (router_threads st') = true) as Hex.
  { apply existsb_exists. exists t'. split.
    - by eapply list_elem_of_In, list_elem_of_lookup_2.
    - unfold hostname_is_none. by rewrite Hhost. }
  unfold choice_3, sorted_by_hostname.
  destruct (router_threads st') as [|a [|b l]]; simpl in Hl; [lia..|].
  by rewrite Hex.
Qed.

End Main_theorems.

Lemma view_logs_fails_without_hostname_witness :
  choice_3 nameless_after
  = ([(newline ++ "--- Last Simulation Logs ---")%string], Some TypeError).
Proof.
  apply (view_logs_fails_without_hostname repr_plain demo_schedule
           nameless_main nameless_after nameless_output "R2" nameless_device).
  - reflexivity.
  - vm_compute. reflexivity.
  - vm_compute. lia.
  - right. left.
  - reflexivity.
  - reflexivity.
Defined.

(** ** What the mailboxes hold *)

Section Mail.

Variable repr : list string -> string.
Variable devices : dict Device.
Variable links : list Link.

Lemma thread_step_mail c t sw :
  router_of devices links t -> visiting t ->
  (forall d, Forall (hello_for devices links d) (mailbox sw d)) ->
  (router_of devices links (thread_step repr c t sw).1.1
   /\ visiting (thread_step repr c t sw).1.1)
  /\ forall d,
       Forall (hello_for devices links d)
         (mailbox (thread_step repr c t sw).1.2 d).
Proof.
  intros (id & dev & Hin & HR & Hh & Hn) Hv Hsw.
  destruct (visiting_step repr c t sw Hv) as [Hv' Hs].
  pose proof (thread_step_identity repr c t sw) as (Hh' & Hn' & _).
  split; [split; [|done]|].
  - exists id, dev. by rewrite Hh', Hn'.
  - intros d. rewrite thread_step_switch, mailbox_send_all.
    apply Forall_app. split.
    + destruct (at_point t); try apply Hsw.
      rewrite mailbox_receive_packet. case_decide; [subst d|apply Hsw].
      specialize (Hsw (device_id (self t))).
      destruct (mailbox sw (device_id (self t))); [done|].
      by apply Forall_cons in Hsw as [_ ?].
    + unfold addressed_to. apply Forall_fmap, Forall_forall.
      intros [d' p] [Hd Hm]%list_elem_of_filter. simpl in Hd. subst d'.
      rewrite Forall_forall in Hs. destruct (Hs _ Hm) as [H1 H2].
      simpl in *. exists id, dev. rewrite <- Hn. split; [done|].
      split; [done|]. split; [done|]. rewrite H2. unfold hello_packet.
      by rewrite Hh.
Qed.

Lemma sim_step_mail a s :
  sim_mail devices links s -> sim_mail devices links (sim_step repr a s).1.
Proof.
  intros [Ht Hsw]. destruct a as [i c|]; simpl.
  - destruct (threads s !! i) as [t|] eqn:Ei; [|by split].
    destruct (Forall_lookup_1 _ _ _ _ Ht Ei) as [Hr Hv].
    pose proof (thread_step_mail c t (switch s) Hr Hv Hsw) as [H1 H2].
    destruct (thread_step repr c t (switch s)) as [[t1 sw1] out1].
    simpl in *. split; [|done]. by apply Forall_insert.
  - unfold main_step.
    destruct (started s <? length (threads s))%nat; simpl.
    { split; [|done]. apply Forall_alter; [done|].
      intros t _ [Hr Hv]. unfold start, visiting in *.
      destruct (at_point t) eqn:E; simpl; rewrite ?E; by split. }
    destruct (stopped s <? length (threads s))%nat; simpl; [|done].
    split; [|done]. by apply Forall_alter.
Qed.

Lemma sim_run_mail sched s :
  sim_mail devices links s -> sim_mail devices links (sim_run repr sched s).1.
Proof.
  revert s. induction sched as [|a sched IH]; intros s Hs; [done|].
  cbn [sim_run]. pose proof (sim_step_mail a s Hs) as H.
  destruct (sim_step repr a s) as [s1 out1]. specialize (IH s1 H).
  by destruct (sim_run repr sched s1) as [s2 out2].
Qed.

Lemma new_routers_mail :
  Forall (fun t => router_of devices links t /\ visiting t)
    (new_routers devices links).
Proof.
  apply Forall_forall. intros t Ht.
  apply list_elem_of_lookup_1 in Ht as [i Hi].
  apply new_routers_lookup in Hi as ([id dev] & Hin & HR & ->).
  split; [by exists id, dev|]. by intros rest.
Qed.

Lemma choice_2_mail sched st st' out :
  network_devices_data st = devices -> topology st = links ->
  (forall d, Forall (hello_for devices links d) (mailbox (network_switch st) d)) ->
  choice_2 repr sched st = Some (st', out) ->
  forall d, Forall (hello_for devices links d) (mailbox (network_switch st') d).
Proof.
  intros Hd Hl Hsw. unfold choice_2.
  destruct (existsb is_alive _); [by intros [= <- _]|].
  rewrite Hd, Hl.
  pose proof (sim_run_mail sched
    {| threads := new_routers devices links; switch := network_switch st;
       started := 0; stopped := 0 |}
    (conj new_routers_mail Hsw)) as [_ H].
  destruct (sim_run repr sched _) as [s trace]. simpl in H.
  destruct (joined s); [|done]. by intros [= <- _].
Qed.

Lemma main_loop_mail inputs st :
  network_devices_data st = devices -> topology st = links ->
  (forall d, Forall (hello_for devices links d) (mailbox (network_switch st) d)) ->
  forall d,
    Forall (hello_for devices links d)
      (mailbox (network_switch (main_loop repr inputs st).2) d).
Proof.
  revert st. induction inputs as [|[choice sched] inputs IH];
    intros st Hd Hl Hsw; cbn [main_loop]; [done|].
  destruct (String.eqb choice "1").
  { specialize (IH st Hd Hl Hsw).
    by destruct (main_loop repr inputs st) as [[out e] st']. }
  destruct (String.eqb choice "2").
  { destruct (choice_2 repr sched st) as [[st1 out2]|] eqn:E2; [|done].
    pose proof (choice_2_mail sched st st1 out2 Hd Hl Hsw E2) as H1.
    assert (network_devices_data st1 = devices /\ topology st1 = links)
      as [Hd1 Hl1].
    { unfold choice_2 in E2.
      destruct (existsb is_alive _); [by injection E2 as <- _|].
      destruct (sim_run _ _ _) as [s trace].
      destruct (joined s); [|done]. by injection E2 as <- _. }
    specialize (IH st1 Hd1 Hl1 H1).
    by destruct (main_loop repr inputs st1) as [[out e] st']. }
  destruct (String.eqb choice "3").
  { destruct (choice_3 st) as [out3 [f'|]]; [done|].
    specialize (IH st Hd Hl Hsw).
    by destruct (main_loop repr inputs st) as [[out e] st']. }
  destruct (String.eqb choice "4"); [done|].
  specialize (IH st Hd Hl Hsw).
  by destruct (main_loop repr inputs st) as [[out e] st'].
Qed.

(** X23.  Whatever the inputs and the schedules, every packet that waits in
    a mailbox of [main]'s switch is the hello of a router that [main] made
    for one of the devices, and the mailbox is that of one of the router's
    neighbors: source is the router's hostname, type is "OSPF_HELLO". *)
Theorem mailboxes_hold_hellos_of_neighbors
    (inputs : list (string * list action)) (d : string) :
  Forall (hello_for devices links d)
    (mailbox (network_switch
                (main_loop repr inputs (main_start devices links)).2) d).
Proof.
  apply main_loop_mail; [done..|]. intros d'. constructor.
Qed.

End Mail.
(** ** More on the directives *)

Lemma startswith_cons_inv l a p :
  startswith l (String a p) = true ->
  exists l', l = String a l' /\ startswith l' p = true.
Proof.
  unfold startswith. destruct l as [|c l]; [done|].
  rewrite prefix_cons. destruct (Ascii.eqb_spec a c) as [->|]; [|done].
  intros H. by exists l.
Qed.

Lemma startswith_other l a p b q :
  a <> b -> startswith l (String a p) = true ->
  startswith l (String b q) = false.
Proof.
  intros Hab (l' & -> & _)%startswith_cons_inv. unfold startswith.
  rewrite prefix_cons. by destruct (Ascii.eqb_spec b a) as [->|].
Qed.

Lemma parse_line_flags line d ci d' ci' :
  parse_line line (d, ci) = Ok (d', ci') ->
  dev_default_route d' = dev_default_route d
  /\ dev_ospf_enabled d' =
     if startswith (strip line) "router ospf" then Some true
     else dev_ospf_enabled d.
Proof.
  unfold parse_line, update_interface.
  destruct (startswith (strip line) "router ospf") eqn:Er.
  { rewrite (startswith_other _ "r" _ "h" _ ltac:(done) Er).
    rewrite (startswith_other _ "r" _ "i" _ ltac:(done) Er).
    by intros [= <- <-]. }
  destruct (startswith (strip line) "hostname").
  { destruct (list_index _ 1); simpl; [|done]. intros [= <- <-]. done. }
  destruct (startswith (strip line) "interface").
  { destruct (list_index _ 1); simpl; [|done].
    destruct (key_item _ _); simpl; [|done]. intros [= <- <-]. done. }
  destruct (startswith (strip line) "description" && truthy ci).
  { destruct (key_item _ _); simpl; [|done].
    destruct (dict_item _ _); simpl; [|done]. intros [= <- <-]. done. }
  destruct (startswith (strip line) "ip address" && truthy ci).
  { destruct (list_index _ 2); simpl; [|done].
    destruct (key_item _ _); simpl; [|done].
    destruct (dict_item _ _); simpl; [|done].
    destruct (list_index _ 3); simpl; [|done].
    destruct (dict_item _ _); simpl; [|done]. intros [= <- <-]. done. }
  intros [= <- <-]. done.
Qed.

Lemma parse_lines_flags lines d ci d' ci' :
  for_each lines parse_line (d, ci) = Ok (d', ci') ->
  dev_default_route d' = dev_default_route d
  /\ dev_ospf_enabled d' =
     if existsb (fun line => startswith (strip line) "router ospf") lines
     then Some true else dev_ospf_enabled d.
Proof.
  revert d ci. induction lines as [|line lines IH]; intros d ci;
    cbn [for_each].
  - by intros [= <- <-].
  - destruct (parse_line line (d, ci)) as [[d1 ci1]|] eqn:E; [|done].
    apply parse_line_flags in E as [E0 E1].
    intros [H0 H1]%IH. split; [congruence|]. rewrite H1, E1. simpl.
    destruct (startswith (strip line) "router ospf"); simpl; [|done].
    by destruct (existsb _ lines).
Qed.

(** X24.  [parse_config_file] never sets ['default_route'], which stays
    [None], and ['ospf_enabled'] is [True] exactly when some line, stripped,
    begins with [router ospf]. *)
Theorem ospf_enabled_by_router_ospf_line (filepath : string)
    (lines : list string) (id : string) (dev : Device) :
  parse_config_file filepath lines = Ok (id, dev) ->
  dev_default_route dev = Some PyNone
  /\ dev_ospf_enabled dev
     = Some (existsb (fun line => startswith (strip line) "router ospf") lines).
Proof.
  unfold parse_config_file.
  destruct (for_each lines parse_line _) as [[d' ci']|] eqn:E; [|done].
  simpl. intros [= _ <-]. apply parse_lines_flags in E as [-> ->].
  split; [done|]. by destruct (existsb _ lines).
Qed.

Lemma ospf_enabled_by_router_ospf_line_witness :
  dev_default_route R1_device = Some PyNone
  /\ dev_ospf_enabled R1_device
     = Some (existsb (fun line => startswith (strip line) "router ospf")
               R1_conf).
Proof.
  apply (ospf_enabled_by_router_ospf_line "Conf/R1/config.dump" R1_conf "R1").
  vm_compute. reflexivity.
Defined.

(** X25.  The last [hostname] line wins: the hostname of the parsed device
    is the second word of the last line that, stripped, begins with
    [hostname]. *)
Theorem last_hostname_line_wins (filepath : string)
    (pre post : list string) (line : string) (id : string) (dev : Device) :
  startswith (strip line) "hostname" = true ->
  (forall l, l ∈ post -> startswith (strip l) "hostname" = false) ->
  parse_config_file filepath (pre ++ line :: post) = Ok (id, dev) ->
  exists name,
    list_index (split (strip line)) 1 = Ok name
    /\ dev_hostname dev = Some (PyStr name).
Proof.
  intros Hh Hpost. unfold parse_config_file.
  destruct (for_each _ parse_line _) as [[d' ci']|] eqn:E; [|done].
  simpl. intros [= _ <-]. rewrite for_each_app in E.
  destruct (for_each pre parse_line _) as [[d0 ci0]|]; [|done].
  cbn [for_each] in E.
  destruct (parse_line line (d0, ci0)) as [[d1 ci1]|] eqn:E1; [|done].
  apply parse_lines_hostname in E as [_ E]. rewrite (E Hpost).
  unfold parse_line in E1. rewrite Hh in E1.
  destruct (list_index _ 1) as [name|]; [|done]. simpl in E1.
  injection E1 as <- _. by exists name.
Qed.

Lemma last_hostname_line_wins_witness :
  exists name,
    list_index (split (strip "hostname Router1")) 1 = Ok name
    /\ dev_hostname R1_device = Some (PyStr name).
Proof.
  apply (last_hostname_line_wins "Conf/R1/config.dump"
           ["hostname Old"]
           ["interface Gi0/1"; " ip address 10.0.0.1 255.255.255.252"]
           "hostname Router1" "R1" R1_device).
  - reflexivity.
  - intros l Hl.
    repeat (apply elem_of_cons in Hl as [->|Hl]; [by vm_compute|]).
    by apply elem_of_nil in Hl.
  - vm_compute. reflexivity.
Defined.

Lemma parse_line_names line d ci d' ci' ifs :
  dev_interfaces d = Some ifs ->
  parse_line line (d, ci) = Ok (d', ci') ->
  exists ifs',
    dev_interfaces d' = Some ifs'
    /\ forall n, n ∈ keys ifs' <-> n ∈ keys ifs \/ declares line n.
Proof.
  intros Hifs. unfold parse_line, update_interface, declares.
  destruct (startswith (strip line) "hostname") eqn:Eh.
  { destruct (list_index _ 1); simpl; [|done]. intros [= <- <-].
    exists ifs. split; [done|]. intros n. split; [by left|].
    intros [?|[H _]]; [done|].
    by rewrite (startswith_other _ "h" _ "i" _ ltac:(done) Eh) in H. }
  destruct (startswith (strip line) "interface") eqn:Ei.
  { destruct (list_index _ 1) as [name|]; simpl; [|done].
    rewrite Hifs. simpl. intros [= <- <-]. eexists. split; [done|].
    intros n. rewrite dict_set_keys. split.
    - destruct (dict_get ifs name); [by left|].
      intros [?|Hn]%elem_of_app; [by left|].
      apply list_elem_of_singleton in Hn as ->. by right.
    - intros [Hn|[_ [= ->]]].
      + destruct (dict_get ifs name); [done|]. apply elem_of_app. by left.
      + destruct (dict_get ifs n) eqn:G.
        * apply dict_get_keys. by eexists.
        * apply elem_of_app. right. left. }
  assert (forall n, n ∈ keys ifs <->
            n ∈ keys ifs \/ false = true /\ list_index (split (strip line)) 1 = Ok n)
    as Hsame.
  { intros n. split; [by left|]. by intros [?|[? _]]. }
  assert (forall name e v, dict_get ifs name = Some e ->
            forall n, n ∈ keys (dict_set ifs name v) <-> n ∈ keys ifs) as Hset.
  { intros name e v G n. by rewrite dict_set_keys, G. }
  destruct (startswith (strip line) "router ospf").
  { intros [= <- <-]. by exists ifs. }
  destruct (startswith (strip line) "description" && truthy ci).
  { rewrite Hifs. simpl. unfold dict_item.
    destruct (dict_get ifs (default "" ci)) as [e|] eqn:G; simpl; [|done].
    intros [= <- <-]. eexists. split; [done|]. intros n.
    by rewrite (Hset _ _ _ G), <- Hsame. }
  destruct (startswith (strip line) "ip address" && truthy ci).
  { destruct (list_index _ 2); simpl; [|done].
    rewrite Hifs. simpl. unfold dict_item.
    destruct (dict_get ifs (default "" ci)) as [e|] eqn:G; simpl; [|done].
    destruct (list_index _ 3); simpl; [|done].
    rewrite dict_get_dict_set, String.eqb_refl. simpl.
    intros [= <- <-]. eexists. split; [done|]. intros n.
    rewrite dict_set_dict_set. by rewrite (Hset _ _ _ G), <- Hsame. }
  intros [= <- <-]. by exists ifs.
Qed.

Lemma parse_lines_names lines d ci d' ci' ifs :
  dev_interfaces d = Some ifs ->
  for_each lines parse_line (d, ci) = Ok (d', ci') ->
  exists ifs',
    dev_interfaces d' = Some ifs'
    /\ forall n, n ∈ keys ifs' <->
         n ∈ keys ifs \/ exists line, line ∈ lines /\ declares line n.
Proof.
  revert d ci ifs. induction lines as [|line lines IH]; intros d ci ifs Hifs;
    cbn [for_each].
  - intros [= <- <-]. exists ifs. split; [done|]. intros n.
    split; [by left|]. intros [?|(l & ?%elem_of_nil & _)]; done.
  - destruct (parse_line line (d, ci)) as [[d1 ci1]|] eqn:E; [|done].
    apply (parse_line_names _ _ _ _ _ _ Hifs) in E as (ifs1 & H1 & K1).
    intros (ifs' & H' & K')%(IH _ _ _ H1). exists ifs'. split; [done|].
    intros n. rewrite K', K1. split.
    + intros [[?|?]|(l & Hl & ?)]; [by left| |].
      * right. exists line. split; [left|done].
      * right. exists l. split; [by right|done].
    + intros [?|(l & [->|Hl]%elem_of_cons & ?)].
      * left. by left.
      * left. by right.
      * right. by exists l.
Qed.

(** X26.  The interfaces of the parsed device are those that the
    [interface] lines declare: a name is a key of ['interfaces'] exactly
    when it is the second word of a line that, stripped, begins with
    [interface]. *)
Theorem interfaces_are_the_declared (filepath : string)
    (lines : list string) (id : string) (dev : Device) (n : string) :
  parse_config_file filepath lines = Ok (id, dev) ->
  n ∈ keys (interfaces_of dev)
  <-> exists line, line ∈ lines /\ declares line n.
Proof.
  unfold parse_config_file.
  destruct (for_each lines parse_line _) as [[d' ci']|] eqn:E; [|done].
  simpl. intros [= _ <-].
  apply (parse_lines_names _ _ _ _ _ []) in E as (ifs' & H & K); [|done].
  unfold interfaces_of. rewrite H. simpl. rewrite K. split; [|by right].
  by intros [?%elem_of_nil|?].
Qed.

Lemma interfaces_are_the_declared_witness :
  "Gi0/1" ∈ keys (interfaces_of R1_device)
  <-> exists line, line ∈ R1_conf /\ declares line "Gi0/1".
Proof.
  apply (interfaces_are_the_declared "Conf/R1/config.dump" R1_conf "R1").
  vm_compute. reflexivity.
Defined.
(** ** Until [main] clears [is_running] *)

Section Until_stopped.

Variable repr : list string -> string.

Lemma thread_step_keeps_running c t sw :
  is_running (self t) = true ->
  at_point t <> AtFinish -> at_point t <> AtDone ->
  let t' := (thread_step repr c t sw).1.1 in
  is_running (self t') = true
  /\ at_point t' <> AtFinish /\ at_point t' <> AtDone.
Proof.
  intros Hr Hf Hd. cbv zeta.
  pose proof (thread_step_identity repr c t sw) as (_ & _ & _ & Hrun).
  cbv zeta in Hrun. rewrite Hrun. split; [done|]. clear Hrun.
  unfold thread_step.
  destruct (at_point t) as [| | | | |[|n rest]| | |] eqn:E; simpl;
    rewrite ?E, ?Hr; try done.
  - by destruct (receive_packet sw (device_id (self t))) as [[p|] sw'].
  - by destruct (hello_due c t).
Qed.

Lemma thread_observe_keeps_running hs t :
  Stopped ∉ hs ->
  is_running (self t) = true ->
  at_point t <> AtFinish -> at_point t <> AtDone ->
  let t' := (thread_observe repr hs t).1 in
  is_running (self t') = true
  /\ at_point t' <> AtFinish /\ at_point t' <> AtDone.
Proof.
  revert t. induction hs as [|[c sw| |] hs IH]; intros t Hs Hr Hf Hd;
    cbn [thread_observe].
  - done.
  - pose proof (thread_step_keeps_running c t sw Hr Hf Hd) as (H1 & H2 & H3).
    destruct (thread_step repr c t sw) as [[t1 sw1] out1]. simpl in *.
    assert (Stopped ∉ hs) as Hs' by (intros ?; apply Hs; by right).
    specialize (IH t1 Hs' H1 H2 H3).
    by destruct (thread_observe repr hs t1) as [t2 out2].
  - apply IH.
    + intros ?. apply Hs. by right.
    + unfold start. by destruct (at_point t).
    + unfold start. by destruct (at_point t) eqn:E; simpl; rewrite ?E.
    + unfold start. by destruct (at_point t) eqn:E; simpl; rewrite ?E.
  - exfalso. apply Hs. left.
Qed.

(** X27.  A router thread does not end by itself: as long as nobody clears
    [is_running], whatever the clock shows and whatever the switch holds,
    the thread of a router neither reaches line 115 nor returns from
    [run]. *)
Theorem runs_until_stopped (r : Router) (hs : list happening) :
  is_running r = true ->
  Stopped ∉ hs ->
  let t := (thread_observe repr hs (new_thread r)).1 in
  is_running (self t) = true
  /\ at_point t <> AtFinish /\ at_point t <> AtDone.
Proof.
  intros Hr Hs. by apply thread_observe_keeps_running.
Qed.

End Until_stopped.

Lemma runs_until_stopped_witness :
  let t := (thread_observe repr_plain
              (Started :: replicate 30 (Step noon new_switch))
              (new_thread R1_router)).1 in
  is_running (self t) = true
  /\ at_point t <> AtFinish /\ at_point t <> AtDone.
Proof.
  apply (runs_until_stopped repr_plain R1_router
           (Started :: replicate 30 (Step noon new_switch))).
  - reflexivity.
  - intros [H|H]%elem_of_cons; [done|].
    by apply elem_of_replicate in H as [? _].
Defined.

(** ** Sends to different mailboxes *)

(** X28.  Two [send_packet] calls to different destinations commute: the
    switch they leave does not depend on which thread came first. *)
Theorem send_packet_commutes (sw : NetworkSwitch) (d1 d2 : string)
    (p1 p2 : Packet) :
  d1 <> d2 ->
  send_packet (send_packet sw d1 p1) d2 p2
  = send_packet (send_packet sw d2 p2) d1 p1.
Proof.
  intros Hne. unfold send_packet.
  destruct (queues sw !! d1) as [q1|] eqn:E1;
    destruct (queues sw !! d2) as [q2|] eqn:E2; simpl;
    rewrite !lookup_insert_ne by done; rewrite ?E1, ?E2; f_equal;
    by apply insert_insert_ne.
Qed.

Lemma send_packet_commutes_witness :
  send_packet (send_packet new_switch "R1" hello2) "R2" hello1
  = send_packet (send_packet new_switch "R2" hello1) "R1" hello2.
Proof.
  by apply (send_packet_commutes new_switch "R1" "R2" hello2 hello1).
Defined.
